(** * igl::readMESH: a model of the .mesh reader of [readMESH.h]

    The reader is one C++ function that walks a [FILE*] with [fgets],
    [sscanf] and [fscanf].  The model keeps that shape: the unread part of
    the file is a list of characters, the local variables and the three
    output vectors live in a record that is threaded through the statements,
    and every [return] of the source is an outcome of its own.

    What the C library does is not part of [readMESH.h]; the fragment the
    reader uses is modelled below after ISO C and, where ISO C leaves the
    result open (a number that does not fit its type), after glibc on an
    LP64 machine. *)

From Stdlib Require Import ZArith Ascii String List Bool Lia.
From stdpp Require Import base option list.

Local Open Scope Z_scope.

(** ** Characters and C strings *)

Definition NUL : ascii := "000"%char.
Definition NL : ascii := "010"%char.

Definition code (c : ascii) : Z := Z.of_N (N_of_ascii c).

(** [isspace] in the C locale: space, and \t \n \v \f \r. *)
Definition isspace (c : ascii) : bool :=
  (code c =? 32) || ((9 <=? code c) && (code c <=? 13)).

Definition isdigit (c : ascii) : bool :=
  (48 <=? code c) && (code c <=? 57).

Definition tolower (c : ascii) : ascii :=
  if (65 <=? code c) && (code c <=? 90)
  then ascii_of_N (N_of_ascii c + 32) else c.

Definition isxdigit (c : ascii) : bool :=
  isdigit c || ((97 <=? code (tolower c)) && (code (tolower c) <=? 102)).

Definition isalnum_ (c : ascii) : bool :=
  isdigit c || ((97 <=? code (tolower c)) && (code (tolower c) <=? 122))
  || (code c =? 95).

Definition digit_val (c : ascii) : Z := code c - 48.

Definition xdigit_val (c : ascii) : Z :=
  if isdigit c then code c - 48 else code (tolower c) - 87.

Definition lit (s : string) : list ascii := list_ascii_of_string s.

(** The file as text: every line followed by a newline. *)
Definition unlines (ls : list (list ascii)) : list ascii :=
  concat (map (fun l => l ++ [NL]) ls).

(** What a [char] buffer holds when read as a C string: the characters
    before the first NUL. *)
Fixpoint cstr (buf : list ascii) : list ascii :=
  match buf with
  | [] => []
  | c :: r => if (c =? NUL)%char then [] else c :: cstr r
  end.

(** [0 == strcmp(a, b)] *)
Fixpoint strcmp0 (a b : list ascii) : bool :=
  match a, b with
  | [], [] => true
  | c :: a', d :: b' => (c =? d)%char && strcmp0 a' b'
  | _, _ => false
  end.

(** ** stdio *)

(** [fgets(buf, n, f)]: at most [n - 1] characters, stopping after a
    newline.  [fgets_chars k s] is what is read and what is left. *)
Fixpoint fgets_chars (k : nat) (s : list ascii) : list ascii * list ascii :=
  match k, s with
  | S k', c :: s' =>
      if (c =? NL)%char then ([c], s')
      else let (l, r) := fgets_chars k' s' in (c :: l, r)
  | _, _ => ([], s)
  end.

(** At end of file [fgets] returns NULL and leaves the buffer as it was:
    [None]. *)
Definition fgets (n : nat) (s : list ascii) : option (list ascii * list ascii) :=
  match s with
  | [] => None
  | _ => Some (fgets_chars (n - 1) s)
  end.

(** White space in a format, and the white space every conversion but
    [%c] skips first. *)
Fixpoint skip_space (s : list ascii) : list ascii :=
  match s with
  | c :: r => if isspace c then skip_space r else s
  | [] => []
  end.

(** [%s]: the longest run of characters that are not white space; fails
    when the input ends before one is found. *)
Fixpoint span_word (s : list ascii) : list ascii * list ascii :=
  match s with
  | c :: r =>
      if isspace c then ([], s)
      else let (w, r') := span_word r in (c :: w, r')
  | [] => ([], [])
  end.

Definition scan_s (s : list ascii) : option (list ascii * list ascii) :=
  match skip_space s with
  | [] => None
  | s' => Some (span_word s')
  end.

(** Decimal digits, most significant first. *)
Fixpoint scan_digits (acc : Z) (s : list ascii) : Z * list ascii :=
  match s with
  | c :: r => if isdigit c then scan_digits (10 * acc + digit_val c) r else (acc, s)
  | [] => (acc, [])
  end.

Fixpoint scan_xdigits (acc : Z) (s : list ascii) : Z * list ascii :=
  match s with
  | c :: r => if isxdigit c then scan_xdigits (16 * acc + xdigit_val c) r else (acc, s)
  | [] => (acc, [])
  end.

Definition scan_sign (s : list ascii) : bool * list ascii :=
  match s with
  | c :: r =>
      if (c =? "-")%char then (true, r)
      else if (c =? "+")%char then (false, r) else (false, s)
  | [] => (false, [])
  end.

Definition starts_with_digit (s : list ascii) : bool :=
  match s with
  | c :: _ => isdigit c
  | [] => false
  end.

(** The subject sequence of a decimal integer conversion: white space, an
    optional sign, at least one digit.  The value is not yet bounded. *)
Definition scan_integer (s : list ascii) : option (Z * list ascii) :=
  let (neg, s1) := scan_sign (skip_space s) in
  if starts_with_digit s1 then
    let (v, r) := scan_digits 0 s1 in Some (if neg then - v else v, r)
  else None.

Definition LONG_MIN : Z := - 2 ^ 63.
Definition LONG_MAX : Z := 2 ^ 63 - 1.

(** strtol saturates. *)
Definition clamp_long (v : Z) : Z := Z.max LONG_MIN (Z.min LONG_MAX v).

(** [%ld]: the value as a [long]. *)
Definition scan_ld (s : list ascii) : option (Z * list ascii) :=
  '(v, r) ← scan_integer s; Some (clamp_long v, r).

(** [%d]: glibc converts as for [long] and stores the low 32 bits. *)
Definition to_int (v : Z) : Z := (v + 2 ^ 31) mod 2 ^ 32 - 2 ^ 31.

Definition scan_d (s : list ascii) : option (Z * list ascii) :=
  '(v, r) ← scan_integer s; Some (to_int (clamp_long v), r).

(** The reader passes the address of a [size_t] where [%ld] expects a
    [long]: the 64 bits written are read back unsigned. *)
Definition to_size_t (v : Z) : Z := v mod 2 ^ 64.

(** [size_t] subtraction wraps. *)
Definition size_t_sub (a b : Z) : Z := (a - b) mod 2 ^ 64.

(** A [double] as [%lg] delivers it.  The value is kept exact, as the
    number the text denotes: [Finite neg m b e] is (-1)^neg * m * b^e with
    b = 10 for decimal and b = 2 for hexadecimal text.  The rounding to
    binary64 that strtod performs is not modelled. *)
Inductive double : Type :=
| Finite (neg : bool) (m : Z) (b : Z) (e : Z)
| Infinite (neg : bool)
| NaN.

(** [prefix_ci p s]: [s] starts with [p], letters compared without case;
    returns what follows. *)
Fixpoint prefix_ci (p s : list ascii) : option (list ascii) :=
  match p, s with
  | [], _ => Some s
  | c :: p', d :: s' => if (c =? tolower d)%char then prefix_ci p' s' else None
  | _ :: _, [] => None
  end.

(** An exponent part, already past its letter: optional sign and at least
    one digit. *)
Definition scan_exponent (s : list ascii) : option (Z * list ascii) :=
  let (neg, s1) := scan_sign s in
  if starts_with_digit s1 then
    let (v, r) := scan_digits 0 s1 in Some (if neg then - v else v, r)
  else None.

Definition is_letter (x : ascii) (s : list ascii) : bool :=
  match s with
  | c :: _ => (tolower c =? x)%char
  | [] => false
  end.

(** digits [.] digits, with at least one digit; returns the digits read as
    one number and how many of them came after the point. *)
Definition scan_mantissa (digits : Z -> list ascii -> Z * list ascii)
    (s : list ascii) : option (Z * Z * list ascii) :=
  let (i, s1) := digits 0 s in
  let ni := Z.of_nat (length s) - Z.of_nat (length s1) in
  match s1 with
  | c :: s2 =>
      if (c =? ".")%char then
        let (m, s3) := digits i s2 in
        let nf := Z.of_nat (length s2) - Z.of_nat (length s3) in
        if (ni + nf =? 0) then None else Some (m, nf, s3)
      else if ni =? 0 then None else Some (i, 0, s1)
  | [] => if ni =? 0 then None else Some (i, 0, s1)
  end.

Fixpoint span_nchar (s : list ascii) : list ascii :=
  match s with
  | c :: r => if isalnum_ c then span_nchar r else s
  | [] => []
  end.

(** [%lg]: the input item is the longest prefix of the input that is, or
    starts, a floating constant, INF, INFINITY, NAN or NAN(...); the
    conversion fails when that item is not a complete one (as ["1e"] or
    ["0x"] followed by something else). *)
Definition scan_lg (s : list ascii) : option (double * list ascii) :=
  let (neg, s1) := scan_sign (skip_space s) in
  match prefix_ci (lit "inf") s1 with
  | Some r =>
      if is_letter "i"%char r then
        r' ← prefix_ci (lit "inity") r; Some (Infinite neg, r')
      else Some (Infinite neg, r)
  | None =>
  match prefix_ci (lit "nan") s1 with
  | Some r =>
      match r with
      | c :: r1 =>
          if (c =? "(")%char then
            match span_nchar r1 with
            | d :: r2 => if (d =? ")")%char then Some (NaN, r2) else None
            | [] => None
            end
          else Some (NaN, r)
      | [] => Some (NaN, r)
      end
  | None =>
  match prefix_ci (lit "0x") s1 with
  | Some r =>
      '(m, nf, r1) ← scan_mantissa scan_xdigits r;
      if is_letter "p"%char r1 then
        '(e, r2) ← scan_exponent (tail r1); Some (Finite neg m 2 (e - 4 * nf), r2)
      else Some (Finite neg m 2 (- 4 * nf), r1)
  | None =>
      '(m, nf, r1) ← scan_mantissa scan_digits s1;
      if is_letter "e"%char r1 then
        '(e, r2) ← scan_exponent (tail r1); Some (Finite neg m 10 (e - nf), r2)
      else Some (Finite neg m 10 (- nf), r1)
  end end end.

(** A complete [fscanf] call of the reader converts every field or the
    reader returns; what is left unread after a failed call is never looked
    at again, so a failed call is just [None]. *)

(** [sscanf(line, "%s %d", str, &v)]: [None] when nothing is converted,
    [Some (w, None)] when the call returns 1, [Some (w, Some v)] when it
    returns 2. *)
Definition sscanf_s_d (l : list ascii) : option (list ascii * option Z) :=
  '(w, r) ← scan_s l; Some (w, fst <$> scan_d (skip_space r)).

(** [fscanf(f, " %lg %lg %lg %ld", ...)] returning 4 *)
Definition fscanf_lg_lg_lg_ld (s : list ascii)
    : option (double * double * double * Z * list ascii) :=
  '(x, s) ← scan_lg (skip_space s);
  '(y, s) ← scan_lg (skip_space s);
  '(z, s) ← scan_lg (skip_space s);
  '(e, s) ← scan_ld (skip_space s);
  Some (x, y, z, e, s).

(** [fscanf(f, " %ld %ld %ld %ld", ...)] returning 4 *)
Definition fscanf_ld_ld_ld_ld (s : list ascii)
    : option (Z * Z * Z * Z * list ascii) :=
  '(a, s) ← scan_ld (skip_space s);
  '(b, s) ← scan_ld (skip_space s);
  '(c, s) ← scan_ld (skip_space s);
  '(e, s) ← scan_ld (skip_space s);
  Some (a, b, c, e, s).

(** [fscanf(f, " %ld %ld %ld %ld %ld", ...)] returning 5 *)
Definition fscanf_ld_ld_ld_ld_ld (s : list ascii)
    : option (Z * Z * Z * Z * Z * list ascii) :=
  '(a, s) ← scan_ld (skip_space s);
  '(b, s) ← scan_ld (skip_space s);
  '(c, s) ← scan_ld (skip_space s);
  '(d, s) ← scan_ld (skip_space s);
  '(e, s) ← scan_ld (skip_space s);
  Some (a, b, c, d, e, s).

(** ** std::vector *)

(** [max_size()] of a vector of vectors (24 bytes each) with libstdc++ on
    LP64.  Memory is otherwise taken to be unbounded. *)
Definition max_size : Z := (2 ^ 63 - 1) / 24.

(** [v.resize(n, x)] on an empty vector; [None] is std::length_error. *)
Definition resize {A} (n : Z) (x : A) : option (list A) :=
  if max_size <? n then None else Some (replicate (Z.to_nat n) x).

(** ** The element types of the template

    [Scalar] and [Index] are template parameters; the reader needs of them
    a zero ([Scalar(0)], the value-initialised [Index()]) and the
    conversions that an assignment from [double] or from [size_t]
    performs. *)
Class Numeric (A : Type) : Type := {
  zero : A;
  of_double : double -> A;
  of_size_t : Z -> A
}.

#[export] Instance Numeric_double : Numeric double := {
  zero := Finite false 0 10 0;
  of_double := fun d => d;
  of_size_t := fun n => Finite false n 10 0
}.

(** ** What the reader prints: one constructor for each [fprintf] and
    [printf] of the source, with the values it formats. *)
Inductive event : Type :=
| IOError_could_not_be_opened
| Error_first_word (found : list ascii)
| Error_second_word (found : Z)
| Error_third_word (found : list ascii)
| Error_only_Dimension_3 (found : Z)
| Error_fifth_word (found : list ascii)
| Error_expecting_number_of_vertices
| Error_expecting_vertex_position
| Error_sixth_word (found : list ascii)
| Error_expecting_number_of_triangles
| Stdout_expecting_triangle_indices
| Error_seventh_word (found : list ascii)
| Error_expecting_number_of_tetrahedra
| Error_expecting_tetrahedra_indices.

Inductive section : Type :=
| MeshVersionFormatted | Dimension | Vertices | Triangles | Tetrahedra.

(** The keyword that opens a section and the message printed when another
    word is found in its place. *)
Definition keyword (sec : section) : string :=
  match sec with
  | MeshVersionFormatted => "MeshVersionFormatted"
  | Dimension => "Dimension"
  | Vertices => "Vertices"
  | Triangles => "Triangles"
  | Tetrahedra => "Tetrahedra"
  end.

Definition Error_word (sec : section) : list ascii -> event :=
  match sec with
  | MeshVersionFormatted => Error_first_word
  | Dimension => Error_third_word
  | Vertices => Error_fifth_word
  | Triangles => Error_sixth_word
  | Tetrahedra => Error_seventh_word
  end.

(** The function body is a sequence of blocks, three for each section:
    the comment loop with the test of the keyword, the number that follows
    the keyword, the counted records (none for the first two sections). *)
Inductive label : Type :=
| Keyword (sec : section)
| Number (sec : section)
| Records (sec : section).

Definition blocks_of (sec : section) : list label :=
  [Keyword sec; Number sec; Records sec].

Definition sections_from (sec : section) : list section :=
  match sec with
  | MeshVersionFormatted =>
      [MeshVersionFormatted; Dimension; Vertices; Triangles; Tetrahedra]
  | Dimension => [Dimension; Vertices; Triangles; Tetrahedra]
  | Vertices => [Vertices; Triangles; Tetrahedra]
  | Triangles => [Triangles; Tetrahedra]
  | Tetrahedra => [Tetrahedra]
  end.

Definition sections_before (sec : section) : list section :=
  match sec with
  | MeshVersionFormatted => []
  | Dimension => [MeshVersionFormatted]
  | Vertices => [MeshVersionFormatted; Dimension]
  | Triangles => [MeshVersionFormatted; Dimension; Vertices]
  | Tetrahedra => [MeshVersionFormatted; Dimension; Vertices; Triangles]
  end.

(** The blocks from a label to the end of the body, and those before it. *)
Definition blocks_from (l : label) : list label :=
  match l with
  | Keyword sec => concat (map blocks_of (sections_from sec))
  | Number sec => tail (concat (map blocks_of (sections_from sec)))
  | Records sec => tail (tail (concat (map blocks_of (sections_from sec))))
  end.

Definition blocks_before (l : label) : list label :=
  concat (map blocks_of (sections_before
    match l with Keyword sec | Number sec | Records sec => sec end)) ++
  match l with
  | Keyword _ => []
  | Number sec => [Keyword sec]
  | Records sec => [Keyword sec; Number sec]
  end.

(** [#define LINE_MAX 2048] *)
Definition LINE_MAX : nat := 2048.

Section Reader.

Context {Scalar Index : Type} `{!Numeric Scalar} `{!Numeric Index}.

(** The variables of one call: the two buffers, the three counts, the
    caller's vectors, what has been printed so far and whether
    [mesh_file] is open. *)
Record vars : Type := Vars {
  line : list ascii;
  str : list ascii;
  number_of_vertices : Z;
  number_of_triangles : Z;
  number_of_tetrahedra : Z;
  V : list (list Scalar);
  T : list (list Index);
  F : list (list Index);
  printed : list event;
  mesh_file_open : bool
}.

Definition set_line (l : list ascii) (m : vars) : vars :=
  Vars l (str m) (number_of_vertices m) (number_of_triangles m)
    (number_of_tetrahedra m) (V m) (T m) (F m) (printed m) (mesh_file_open m).

Definition set_str (w : list ascii) (m : vars) : vars :=
  Vars (line m) w (number_of_vertices m) (number_of_triangles m)
    (number_of_tetrahedra m) (V m) (T m) (F m) (printed m) (mesh_file_open m).

Definition set_number_of_vertices (n : Z) (m : vars) : vars :=
  Vars (line m) (str m) n (number_of_triangles m)
    (number_of_tetrahedra m) (V m) (T m) (F m) (printed m) (mesh_file_open m).

Definition set_number_of_triangles (n : Z) (m : vars) : vars :=
  Vars (line m) (str m) (number_of_vertices m) n
    (number_of_tetrahedra m) (V m) (T m) (F m) (printed m) (mesh_file_open m).

Definition set_number_of_tetrahedra (n : Z) (m : vars) : vars :=
  Vars (line m) (str m) (number_of_vertices m) (number_of_triangles m)
    n (V m) (T m) (F m) (printed m) (mesh_file_open m).

Definition set_V (v : list (list Scalar)) (m : vars) : vars :=
  Vars (line m) (str m) (number_of_vertices m) (number_of_triangles m)
    (number_of_tetrahedra m) v (T m) (F m) (printed m) (mesh_file_open m).

Definition set_T (t : list (list Index)) (m : vars) : vars :=
  Vars (line m) (str m) (number_of_vertices m) (number_of_triangles m)
    (number_of_tetrahedra m) (V m) t (F m) (printed m) (mesh_file_open m).

Definition set_F (f : list (list Index)) (m : vars) : vars :=
  Vars (line m) (str m) (number_of_vertices m) (number_of_triangles m)
    (number_of_tetrahedra m) (V m) (T m) f (printed m) (mesh_file_open m).

Definition print (e : event) (m : vars) : vars :=
  Vars (line m) (str m) (number_of_vertices m) (number_of_triangles m)
    (number_of_tetrahedra m) (V m) (T m) (F m) (printed m ++ [e])
    (mesh_file_open m).

Definition set_open (b : bool) (m : vars) : vars :=
  Vars (line m) (str m) (number_of_vertices m) (number_of_triangles m)
    (number_of_tetrahedra m) (V m) (T m) (F m) (printed m) b.

Definition fclose : vars -> vars := set_open false.

(** How a piece of the function body ends: control goes on to the next
    statement, the function returns, [resize] throws, or a comment loop is
    still running when the iterations granted to it are used up. *)
Inductive outcome (A : Type) : Type :=
| Next (a : A)
| Return (b : bool) (m : vars)
| Length_error (m : vars)
| Still_looping.

Arguments Next {A} a.
Arguments Return {A} b m.
Arguments Length_error {A} m.
Arguments Still_looping {A}.

Definition bind {A B} (x : outcome A) (k : A -> outcome B) : outcome B :=
  match x with
  | Next a => k a
  | Return b m => Return b m
  | Length_error m => Length_error m
  | Still_looping => Still_looping
  end.

Notation "'do' x <- c ; k" := (bind c (fun x => k))
  (at level 20, x name, c at level 100, k at level 200).
Notation "'do' ' p <- c ; k" := (bind c (fun x => let 'p := x in k))
  (at level 20, p pattern, c at level 100, k at level 200).

(** [fprintf(stderr, ...); fclose(mesh_file); return false;] *)
Definition stop {A} (e : event) (m : vars) : outcome A :=
  Return false (fclose (print e m)).

(** The body of each comment loop (lines 73-74, 104-105, 133-134, 173-174,
    213-214): [fgets], whose result is not tested, then the look at
    [line[0]]. *)
Definition fgets_line (s : list ascii) (m : vars) : list ascii * vars :=
  match fgets LINE_MAX s with
  | Some (l, r) => (r, set_line (cstr l) m)
  | None => (s, m)
  end.

Definition still_comments (m : vars) : bool :=
  match line m with
  | c :: _ => (c =? "#")%char || (c =? NL)%char
  | [] => false
  end.

(** [while(still_comments) { ... }], run for at most [fuel] iterations. *)
Fixpoint eat_comments (fuel : nat) (s : list ascii) (m : vars)
    : outcome (list ascii * vars) :=
  match fuel with
  | O => Still_looping
  | S fuel' =>
      let (s', m') := fgets_line s m in
      if still_comments m' then eat_comments fuel' s' m' else Next (s', m')
  end.

(** [sscanf(line, " %s", str)] *)
Definition sscanf_word (m : vars) : vars :=
  match scan_s (skip_space (line m)) with
  | Some (w, _) => set_str w m
  | None => m
  end.

(** The comment loop, then the test of the first word of the line
    (lines 69-86, 100-115, 129-144, 169-184, 209-224). *)
Definition read_keyword (sec : section) (fuel : nat) (s : list ascii)
    (m : vars) : outcome (list ascii * vars) :=
  do '(s, m) <- eat_comments fuel s m;
  let m := sscanf_word m in
  if strcmp0 (str m) (lit (keyword sec)) then Next (s, m)
  else stop (Error_word sec (str m)) m.

(** Lines 87-98 and 116-127: the number that goes with the keyword.  The
    variable starts as -1; [sscanf] on the keyword's own line is tried
    first, and only when it does not return 2 the stream is read.  A
    failed [fscanf] leaves the -1. *)
Definition read_keyword_value (e : Z -> event) (want : Z)
    (s : list ascii) (m : vars) : outcome (list ascii * vars) :=
  let check v s m := if v =? want then Next (s, m) else stop (e v) m in
  let next_token m :=
    match scan_d (skip_space s) with
    | Some (v, r) => check v r m
    | None => check (-1) s m
    end in
  match sscanf_s_d (line m) with
  | Some (w, Some v) => check v s (set_str w m)
  | Some (w, None) => next_token (set_str w m)
  | None => next_token m
  end.

(** [1 != fscanf(mesh_file, " %ld", &count)] with [size_t count] *)
Definition read_count (e : event) (s : list ascii) (m : vars)
    : outcome (Z * list ascii) :=
  match scan_ld (skip_space s) with
  | Some (v, r) => Next (to_size_t v, r)
  | None => stop e m
  end.

(** Lines 145-153 *)
Definition read_number_of_vertices (s : list ascii) (m : vars)
    : outcome (list ascii * vars) :=
  do '(n, s) <- read_count Error_expecting_number_of_vertices s m;
  let m := set_number_of_vertices n m in
  match resize n (replicate 3 zero) with
  | Some v => Next (s, set_V v m)
  | None => Length_error m
  end.

(** Lines 185-193 *)
Definition read_number_of_triangles (s : list ascii) (m : vars)
    : outcome (list ascii * vars) :=
  do '(n, s) <- read_count Error_expecting_number_of_triangles s m;
  let m := set_number_of_triangles n m in
  match resize n (replicate 3 zero) with
  | Some f => Next (s, set_F f m)
  | None => Length_error m
  end.

(** Lines 225-233 *)
Definition read_number_of_tetrahedra (s : list ascii) (m : vars)
    : outcome (list ascii * vars) :=
  do '(n, s) <- read_count Error_expecting_number_of_tetrahedra s m;
  let m := set_number_of_tetrahedra n m in
  match resize n (replicate 4 zero) with
  | Some t => Next (s, set_T t m)
  | None => Length_error m
  end.

(** Lines 155-167, with [k] iterations still to run. *)
Fixpoint read_vertex_records (k i : nat) (s : list ascii) (m : vars)
    : outcome (list ascii * vars) :=
  match k with
  | O => Next (s, m)
  | S k' =>
      match fscanf_lg_lg_lg_ld s with
      | Some (x, y, z, extra, r) =>
          let row v := <[2%nat := of_double z]>
                         (<[1%nat := of_double y]> (<[0%nat := of_double x]> v)) in
          read_vertex_records k' (S i) r (set_V (alter row i (V m)) m)
      | None => stop Error_expecting_vertex_position m
      end
  end.

(** Lines 196-207.  The failure branch prints to stdout and returns with
    the file still open. *)
Fixpoint read_triangle_records (k i : nat) (s : list ascii) (m : vars)
    : outcome (list ascii * vars) :=
  match k with
  | O => Next (s, m)
  | S k' =>
      match fscanf_ld_ld_ld_ld s with
      | Some (t0, t1, t2, extra, r) =>
          let tri j := to_size_t (nth j [t0; t1; t2] 0) in
          let row v :=
            <[2%nat := of_size_t (size_t_sub (tri 2%nat) 1)]>
              (<[1%nat := of_size_t (size_t_sub (tri 1%nat) 1)]>
                 (<[0%nat := of_size_t (size_t_sub (tri 0%nat) 1)]> v)) in
          read_triangle_records k' (S i) r (set_F (alter row i (F m)) m)
      | None => Return false (print Stdout_expecting_triangle_indices m)
      end
  end.

(** Lines 236-248 *)
Fixpoint read_tetrahedra_records (k i : nat) (s : list ascii) (m : vars)
    : outcome (list ascii * vars) :=
  match k with
  | O => Next (s, m)
  | S k' =>
      match fscanf_ld_ld_ld_ld_ld s with
      | Some (a, b, c, d, extra, r) =>
          let row v :=
            <[3%nat := of_size_t (size_t_sub (to_size_t d) 1)]>
              (<[2%nat := of_size_t (size_t_sub (to_size_t c) 1)]>
                 (<[1%nat := of_size_t (size_t_sub (to_size_t b) 1)]>
                    (<[0%nat := of_size_t (size_t_sub (to_size_t a) 1)]> v))) in
          read_tetrahedra_records k' (S i) r (set_T (alter row i (T m)) m)
      | None => stop Error_expecting_tetrahedra_indices m
      end
  end.

Definition block (l : label) (fuel : nat) (s : list ascii) (m : vars)
    : outcome (list ascii * vars) :=
  match l with
  | Keyword sec => read_keyword sec fuel s m
  | Number MeshVersionFormatted => read_keyword_value Error_second_word 1 s m
  | Number Dimension => read_keyword_value Error_only_Dimension_3 3 s m
  | Number Vertices => read_number_of_vertices s m
  | Number Triangles => read_number_of_triangles s m
  | Number Tetrahedra => read_number_of_tetrahedra s m
  | Records MeshVersionFormatted | Records Dimension => Next (s, m)
  | Records Vertices =>
      read_vertex_records (Z.to_nat (number_of_vertices m)) 0 s m
  | Records Triangles =>
      read_triangle_records (Z.to_nat (number_of_triangles m)) 0 s m
  | Records Tetrahedra =>
      read_tetrahedra_records (Z.to_nat (number_of_tetrahedra m)) 0 s m
  end.

Fixpoint run (ls : list label) (fuel : nat) (s : list ascii) (m : vars)
    : outcome (list ascii * vars) :=
  match ls with
  | [] => Next (s, m)
  | l :: ls' => do '(s, m) <- block l fuel s m; run ls' fuel s m
  end.

(** The function from a label on: the remaining blocks, then
    [fclose(mesh_file); return true;] (lines 249-250). *)
Definition run_from (l : label) (fuel : nat) (s : list ascii) (m : vars)
    : outcome Empty_set :=
  do '(_, m) <- run (blocks_from l) fuel s m;
  Return true (fclose m).

(** Lines 65-67 *)
Definition clear (m : vars) : vars := set_F [] (set_T [] (set_V [] m)).

(** [igl::readMESH] (lines 46-251).  [mesh_file] is what [fopen] finds:
    [None] when the file cannot be opened, else its contents.  [m] holds
    the variables as the call finds them: the caller's [V], [T], [F] and
    whatever the uninitialised locals happen to contain. *)
Definition readMESH (fuel : nat) (mesh_file : option (list ascii)) (m : vars)
    : outcome Empty_set :=
  match mesh_file with
  | None => Return false (print IOError_could_not_be_opened m)
  | Some s =>
      run_from (Keyword MeshVersionFormatted) fuel s (clear (set_open true m))
  end.

(** Control reaches label [l] with [s] unread and the variables as [m]. *)
Definition reaches (l : label) (fuel : nat) (mesh_file : list ascii)
    (m0 : vars) (s : list ascii) (m : vars) : Prop :=
  run (blocks_before l) fuel mesh_file (clear (set_open true m0)) = Next (s, m).

(** A call ends with [r] when some number of loop iterations suffices. *)
Definition ends_with {A} (f : nat -> outcome A) (r : outcome A) : Prop :=
  r <> Still_looping /\ exists fuel, f fuel = r.

End Reader.

Arguments Next {Scalar Index A} a.
Arguments Return {Scalar Index A} b m.
Arguments Length_error {Scalar Index A} m.
Arguments Still_looping {Scalar Index A}.

(** ** The overload that fills Eigen matrices (lines 256-292) *)

(** A dense matrix: its shape and its rows. *)
Record matrix (A : Type) : Type := Matrix {
  rows : Z;
  cols : Z;
  coeffs : list (list A)
}.

Arguments Matrix {A} rows cols coeffs.
Arguments rows {A} m.
Arguments cols {A} m.
Arguments coeffs {A} m.

Definition uniform {A} (l : list (list A)) : bool :=
  match l with
  | [] => true
  | r :: l' => forallb (fun r' => (length r' =? length r)%nat) l'
  end.

(** Modelled from the spec: [igl::list_to_matrix], whose header
    list_to_matrix.h the source includes but which is not among the
    sources.  The spec has it as "a black box that can fail if rows are not
    uniform length" and that otherwise gives a dense array "with row order
    preserved".  A failed conversion leaves the matrix as it was; [cast]
    converts one entry. *)
Definition list_to_matrix {A B} (cast : A -> B) (l : list (list A))
    (M : matrix B) : bool * matrix B :=
  if uniform l
  then (true, Matrix (Z.of_nat (length l)) (Z.of_nat (length (hd [] l)))
                (map (map cast) l))
  else (false, M).

(** How a call of the overload ends.  [Assertion_fails] is one of the three
    [assert]s of lines 288-290 in a build that keeps them. *)
Inductive eigen_outcome : Type :=
| Eigen_return (b : bool) (VM : matrix double) (TM FM : matrix Z)
| Assertion_fails
| Eigen_length_error
| Eigen_still_looping.

Section Adapter.

(** The two instances of [igl::list_to_matrix] the overload calls: into a
    [MatrixXd] and into a [MatrixXi]. *)
Variable list_to_matrix_d :
  list (list double) -> matrix double -> bool * matrix double.
Variable list_to_matrix_i :
  list (list double) -> matrix Z -> bool * matrix Z.

(** Lines 270-291: the three conversions, each into the caller's matrix
    ([VM], [TM], [FM] for the overload's [V], [T], [F]), then the
    asserts. *)
Definition to_matrices (vV vT vF : list (list double))
    (VM : matrix double) (TM FM : matrix Z) : eigen_outcome :=
  let (V_rect, VM) := list_to_matrix_d vV VM in
  if negb V_rect then Eigen_return false VM TM FM else
  let (T_rect, TM) := list_to_matrix_i vT TM in
  if negb T_rect then Eigen_return false VM TM FM else
  let (F_rect, FM) := list_to_matrix_i vF FM in
  if negb F_rect then Eigen_return false VM TM FM else
  if negb (cols VM =? 3) then Assertion_fails else
  if negb (cols TM =? 4) then Assertion_fails else
  if negb (cols FM =? 3) then Assertion_fails else
  Eigen_return true VM TM FM.

(** Lines 256-292.  [vV], [vT] and [vF] start empty; [m] gives the other
    variables of the inner call. *)
Definition readMESH_eigen (fuel : nat) (mesh_file : option (list ascii))
    (m : vars) (VM : matrix double) (TM FM : matrix Z) : eigen_outcome :=
  match readMESH fuel mesh_file (clear m) with
  | Next e => match e with end
  | Return true m' => to_matrices (V m') (T m') (F m') VM TM FM
  | Return false _ => Eigen_return false VM TM FM
  | Length_error _ => Eigen_length_error
  | Still_looping => Eigen_still_looping
  end.

End Adapter.

(** * The vocabulary of the properties *)

Section Reader_terms.

Context {Scalar Index : Type} `{!Numeric Scalar} `{!Numeric Index}.

Abbreviation vars := (@vars Scalar Index).
Abbreviation outcome := (@outcome Scalar Index).

(** ** Lines and white space that may be added

    The text has no newline but its last character. *)
Fixpoint one_line (c : list ascii) : bool :=
  match c with
  | [] => false
  | x :: r =>
      match r with
      | [] => (x =? NL)%char
      | _ => negb (x =? NL)%char && one_line r
      end
  end.

(** An empty line or a line that starts with [#], short enough to fit the
    buffer. *)
Definition skipped_line (c : list ascii) : bool :=
  one_line c && (length c <? LINE_MAX)%nat &&
  match c with
  | x :: _ => (x =? "#")%char || (x =? NL)%char
  | [] => false
  end.

(** The sections with a count and records. *)
Definition has_records (sec : section) : bool :=
  match sec with
  | MeshVersionFormatted | Dimension => false
  | _ => true
  end.

(** ** What a block leaves as it was

    [m'] is [m] but for the two buffers. *)
Definition buffers_only (m m' : vars) : Prop :=
  m' = set_str (str m') (set_line (line m') m).

(** [m'] is [m] but for the buffers, one more message and the closed
    file. *)
Definition stopped (m m' : vars) : Prop :=
  exists e m1, buffers_only m m1 /\ m' = fclose (print e m1).

(** A row as [resize] makes it. *)
Definition zeros (w : nat) {A} `{!Numeric A} : list A := replicate w zero.

(** ** The records of a section, as the text gives them

    What [n] calls of the vertex [fscanf] in a row convert, and what they
    leave unread; [None] when one of them does not return 4. *)
Fixpoint vertex_records (n : nat) (s : list ascii)
    : option (list (double * double * double) * list ascii) :=
  match n with
  | O => Some ([], s)
  | S n' =>
      match fscanf_lg_lg_lg_ld s with
      | Some (x, y, z, _, r) =>
          match vertex_records n' r with
          | Some (recs, r') => Some ((x, y, z) :: recs, r')
          | None => None
          end
      | None => None
      end
  end.

(** The same for the triangle [fscanf] and for that of the tetrahedra. *)
Fixpoint triangle_records (n : nat) (s : list ascii)
    : option (list (Z * Z * Z) * list ascii) :=
  match n with
  | O => Some ([], s)
  | S n' =>
      match fscanf_ld_ld_ld_ld s with
      | Some (a, b, c, _, r) =>
          match triangle_records n' r with
          | Some (recs, r') => Some ((a, b, c) :: recs, r')
          | None => None
          end
      | None => None
      end
  end.

Fixpoint tetrahedra_records (n : nat) (s : list ascii)
    : option (list (Z * Z * Z * Z) * list ascii) :=
  match n with
  | O => Some ([], s)
  | S n' =>
      match fscanf_ld_ld_ld_ld_ld s with
      | Some (a, b, c, d, _, r) =>
          match tetrahedra_records n' r with
          | Some (recs, r') => Some ((a, b, c, d) :: recs, r')
          | None => None
          end
      | None => None
      end
  end.

(** The rows the loops store for a record. *)
Definition vertex_row (p : double * double * double) : list Scalar :=
  let '(x, y, z) := p in [of_double x; of_double y; of_double z].

(** What line 205 and lines 244-247 compute from an index that was read. *)
Definition stored (k : Z) : Index := of_size_t (size_t_sub (to_size_t k) 1).

Definition triangle_row (p : Z * Z * Z) : list Index :=
  let '(a, b, c) := p in [stored a; stored b; stored c].

Definition tetrahedron_row (p : Z * Z * Z * Z) : list Index :=
  let '(a, b, c, d) := p in [stored a; stored b; stored c; stored d].

(** The blocks that assign to the vector and the count of a section. *)
Definition writes (sec : section) (l : label) : bool :=
  match l, sec with
  | Number Vertices, Vertices | Records Vertices, Vertices
  | Number Triangles, Triangles | Records Triangles, Triangles
  | Number Tetrahedra, Tetrahedra | Records Tetrahedra, Tetrahedra => true
  | _, _ => false
  end.

(** The vector and the count of a section are in [m'] as in [m]. *)
Definition same_vertices (m m' : vars) : Prop :=
  V m' = V m /\ number_of_vertices m' = number_of_vertices m.

Definition same_triangles (m m' : vars) : Prop :=
  F m' = F m /\ number_of_triangles m' = number_of_triangles m.

Definition same_tetrahedra (m m' : vars) : Prop :=
  T m' = T m /\ number_of_tetrahedra m' = number_of_tetrahedra m.

(** The variables a block ends with, however it ends. *)
Definition vars_at_end (o : outcome (list ascii * vars)) : option vars :=
  match o with
  | Next (_, m) | Return _ m | Length_error m => Some m
  | Still_looping => None
  end.

(** None of the blocks writes the section. *)
Definition spares (sec : section) (ls : list label) : bool :=
  forallb (fun l => negb (writes sec l)) ls.

(** The variables a call ends with. *)
Definition final_vars (o : outcome Empty_set) : option vars :=
  match o with
  | Return _ m | Length_error m => Some m
  | _ => None
  end.

(** The values of a [long]. *)
Definition is_long (v : Z) : Prop := LONG_MIN <= v <= LONG_MAX.

(** ** Files

    The example of the format description. *)
Definition example_lines : list (list ascii) :=
  map lit
    ["MeshVersionFormatted 1"; "Dimension 3";
     "Vertices"; "4"; "0 0 0 0"; "1 0 0 0"; "0 1 0 0"; "0 0 1 0";
     "Triangles"; "1"; "1 2 3 0";
     "Tetrahedra"; "1"; "1 2 3 4 0"]%string.

Definition example_mesh : list ascii := unlines example_lines.

(** One triangle is announced and its record stops after two indices. *)
Definition short_triangle_mesh : list ascii :=
  unlines (map lit
    ["MeshVersionFormatted 1"; "Dimension 3";
     "Vertices"; "0";
     "Triangles"; "1"; "1 2"]%string).

(** A file that is one comment line. *)
Definition comment_only : list ascii := unlines [lit "#"].

(** ** The numbers after the keywords

    Text as the format description has it: white space, words, and
    numbers written with decimal digits.

    White space only. *)
Definition blank (w : list ascii) : bool := forallb isspace w.

(** A word: not empty, and no white space in it. *)
Definition is_word (w : list ascii) : bool :=
  match w with
  | [] => false
  | _ => forallb (fun c => negb (isspace c)) w
  end.

(** A numeral: decimal digits, at least one. *)
Definition numeral (ds : list ascii) : bool :=
  match ds with
  | [] => false
  | _ => forallb isdigit ds
  end.

(** The number a numeral denotes: every digit weighs ten times the digit
    after it. *)
Fixpoint denoted (ds : list ascii) : Z :=
  match ds with
  | [] => 0
  | d :: r => digit_val d * 10 ^ Z.of_nat (length r) + denoted r
  end.

(** Where a numeral ends: at the end of the text or before a character
    that is no digit. *)
Definition ends_numeral (rest : list ascii) : bool :=
  negb (starts_with_digit rest).

(** Text with no number at its start: it is empty, or its first character
    is no white space, no digit, and no sign with a digit after it. *)
Definition no_number (r : list ascii) : bool :=
  match r with
  | [] => true
  | c :: r' =>
      negb (isspace c) && negb (isdigit c) &&
      negb (((c =? "-")%char || (c =? "+")%char) && starts_with_digit r')
  end.

Definition INT_MAX : Z := 2 ^ 31 - 1.

(** The two keywords that come with a number: the number the code asks
    for (lines 93 and 122), the message for another one (lines 95 and
    124), and the section whose keyword is looked for next. *)
Definition number_after (sec : section)
    : option (Z * (Z -> event) * section) :=
  match sec with
  | MeshVersionFormatted => Some (1, Error_second_word, Dimension)
  | Dimension => Some (3, Error_only_Dimension_3, Vertices)
  | _ => None
  end.

(** After white space and an optional sign comes a digit. *)
Definition begins_with_integer (s : list ascii) : bool :=
  starts_with_digit (snd (scan_sign (skip_space s))).

(** ** Lines at which a comment loop stops

    One line that fits the buffer, holds no NUL and starts neither with
    [#] nor with a newline. *)
Definition stops_loop (l : list ascii) : bool :=
  one_line l && (length l <? LINE_MAX)%nat &&
  forallb (fun c => negb (c =? NUL)%char) l &&
  match l with
  | x :: _ => negb ((x =? "#")%char || (x =? NL)%char)
  | [] => false
  end.

(** What [str] holds after [sscanf(line, " %s", str)]: the first word of
    the line, or what it held before when the line has none. *)
Definition first_word (l old : list ascii) : list ascii :=
  match scan_s (skip_space l) with
  | Some (w, _) => w
  | None => old
  end.

(** A [#] line too long for the buffer: no newline among its first
    [LINE_MAX - 1] characters. *)
Definition overlong_comment (c : list ascii) : bool :=
  (LINE_MAX - 1 <=? length c)%nat &&
  forallb (fun x => negb (x =? NL)%char) (take (LINE_MAX - 1) c) &&
  match c with
  | x :: _ => (x =? "#")%char
  | [] => false
  end.

(** The comment loop has left this line in [line], and [str] holds what
    [sscanf(line, " %s", str)] gives on it. *)
Definition word_of_line (m : vars) : Prop :=
  still_comments m = false /\ first_word (line m) (str m) = str m.

End Reader_terms.

(** ** The overload

    The matrix [list_to_matrix] makes of rows of one length. *)
Definition matrix_of {A B} (cast : A -> B) (l : list (list A)) : matrix B :=
  Matrix (Z.of_nat (length l)) (Z.of_nat (length (hd [] l))) (map (map cast) l).

(** The conversion of an entry from [double] to [int]: towards zero.  For
    a value that does not fit an [int], and for infinities and NaN, C++
    leaves the result open; here the first wraps and the others give 0. *)
Definition int_of_double (d : double) : Z :=
  match d with
  | Finite neg m b e =>
      let v := if 0 <=? e then m * b ^ e else m / b ^ (- e) in
      to_int (if neg then - v else v)
  | _ => 0
  end.

(** ** Calls on files

    [Scalar] and [Index] are [double], as in the overload; the call finds
    empty buffers and empty vectors. *)
Definition entry : @vars double double :=
  Vars [] [] 0 0 0 [] [] [] [] false.

(** What is unread and the variables when control reaches a label, and
    the variables the call ends with. *)
Definition after (l : label) (mesh_file : list ascii)
    : list ascii * @vars double double :=
  match run (blocks_before l) 2 mesh_file (clear (set_open true entry)) with
  | Next p => p
  | _ => ([], entry)
  end.

Definition result_of (mesh_file : list ascii) : @vars double double :=
  match readMESH 2 (Some mesh_file) entry with
  | Return _ m | Length_error m => m
  | _ => entry
  end.

Definition example_result : @vars double double :=
  Eval vm_compute in result_of example_mesh.

Definition example_at_triangle_records : list ascii * @vars double double :=
  Eval vm_compute in after (Records Triangles) example_mesh.

Definition example_at_tetrahedra_records : list ascii * @vars double double :=
  Eval vm_compute in after (Records Tetrahedra) example_mesh.

(** A comment line. *)
Definition a_comment : list ascii := lit "# one tetrahedron" ++ [NL].

(** The example with a comment line between the first and the second
    vertex. *)
Definition comment_between_vertices : list ascii :=
  unlines (take 5 example_lines ++ [lit "# the second vertex"] ++
           drop 5 example_lines).

(** The example cut off after its second vertex. *)
Definition two_of_four_vertices : list ascii := unlines (take 6 example_lines).

Definition two_of_four_at_vertex_records : list ascii * @vars double double :=
  Eval vm_compute in after (Records Vertices) two_of_four_vertices.

Definition example_at_version : list ascii * @vars double double :=
  Eval vm_compute in after (Number MeshVersionFormatted) example_mesh.

Definition example_at_number_of_vertices : list ascii * @vars double double :=
  Eval vm_compute in after (Number Vertices) example_mesh.

(** A negative count. *)
Definition minus_one_vertices : list ascii :=
  unlines (map lit ["MeshVersionFormatted 1"; "Dimension 3";
                    "Vertices"; "-1"]%string).

(** No vertex, no triangle, and a count of tetrahedra that starts with 0. *)
Definition count_with_letters : list ascii :=
  unlines (map lit ["MeshVersionFormatted 1"; "Dimension 3";
                    "Vertices"; "0"; "Triangles"; "0";
                    "Tetrahedra"; "0abc"]%string).

(** A matrix the caller passes in. *)
Definition no_matrix {A} : matrix A := Matrix 0 0 [].

(** The example cut off after its last vertex, with no newline at the
    end. *)
Definition example_without_elements : list ascii :=
  unlines (take 7 example_lines) ++ lit "0 0 1 0".

(** The example cut off after the newline of its last vertex. *)
Definition example_without_triangles : list ascii :=
  unlines (take 8 example_lines).

(** The triangles where the vertices should be. *)
Definition triangles_before_vertices : list ascii :=
  unlines (map lit ["MeshVersionFormatted 1"; "Dimension 3";
                    "Triangles"; "1"; "1 2 3 0"]%string).

(** A comment of [LINE_MAX] characters and its newline. *)
Definition long_comment : list ascii :=
  "#"%char :: replicate (LINE_MAX - 1) "x"%char ++ [NL].

(** The example with text after its tetrahedron. *)
Definition example_with_more : list ascii :=
  example_mesh ++ lit "Corners 0".

(** Two triangles are announced and the second record stops after two
    indices. *)
Definition second_triangle_short : list ascii :=
  unlines (map lit ["MeshVersionFormatted 1"; "Dimension 3";
                    "Vertices"; "0";
                    "Triangles"; "2"; "1 2 3 0"; "2 3"]%string).

(** The example with the numbers after MeshVersionFormatted and Dimension
    on lines of their own. *)
Definition values_on_next_lines : list ascii :=
  unlines (map lit ["MeshVersionFormatted"; "1"; "Dimension"; "3"]%string ++
           drop 2 example_lines).

(** Version 2 on the keyword's line, and a 1 on the line after it. *)
Definition version_2_then_1 : list ascii :=
  unlines (map lit ["MeshVersionFormatted 2"; "1"; "Dimension 3"]%string).


(** * The C library model on a few texts *)

Example scan_lg_decimal :
  scan_lg (lit " -12.50e1x") = Some (Finite true 1250 10 (-1), lit "x").
Proof. vm_compute. reflexivity. Qed.

Example scan_lg_hexadecimal :
  scan_lg (lit "0x1.8p1 ") = Some (Finite false 24 2 (-3), lit " ").
Proof. vm_compute. reflexivity. Qed.

Example scan_lg_half_an_exponent : scan_lg (lit "1e+") = None.
Proof. vm_compute. reflexivity. Qed.

Example scan_lg_no_digit : scan_lg (lit "#") = None.
Proof. vm_compute. reflexivity. Qed.

Example scan_lg_infinity :
  scan_lg (lit "infinity1") = Some (Infinite false, lit "1").
Proof. vm_compute. reflexivity. Qed.

Example scan_d_negative : scan_d (lit "  -17 4") = Some (-17, lit " 4").
Proof. vm_compute. reflexivity. Qed.

Example scan_d_wraps : scan_d (lit "4294967297") = Some (1, []).
Proof. vm_compute. reflexivity. Qed.

Example scan_ld_saturates :
  scan_ld (lit "99999999999999999999999") = Some (LONG_MAX, []).
Proof. vm_compute. reflexivity. Qed.

Example fgets_full_buffer :
  fgets 5 (lit "abcdefg") = Some (lit "abcd", lit "efg").
Proof. vm_compute. reflexivity. Qed.

Example fgets_one_line :
  fgets 5 (unlines [lit "ab"; lit "c"]) = Some (lit "ab" ++ [NL], lit "c" ++ [NL]).
Proof. vm_compute. reflexivity. Qed.

Example sscanf_s_d_both :
  sscanf_s_d (lit "Dimension 3") = Some (lit "Dimension", Some 3).
Proof. vm_compute. reflexivity. Qed.

Example sscanf_s_d_word_only :
  sscanf_s_d (lit "Dimension") = Some (lit "Dimension", None).
Proof. vm_compute. reflexivity. Qed.

(** * Properties of the reader *)

Section Reader_facts.

Context {Scalar Index : Type} `{!Numeric Scalar} `{!Numeric Index}.

Abbreviation vars := (@vars Scalar Index).
Abbreviation outcome := (@outcome Scalar Index).

(** ** Sequencing *)

Lemma bind_bind {A B C} (x : outcome A) (f : A -> outcome B) (g : B -> outcome C) :
  bind (bind x f) g = bind x (fun a => bind (f a) g).
Proof. destruct x; reflexivity. Qed.

Lemma bind_ext {A B} (x : outcome A) (f g : A -> outcome B) :
  (forall a, f a = g a) -> bind x f = bind x g.
Proof. intros E. destruct x; simpl; auto. Qed.

Lemma run_app (ls1 ls2 : list label) fuel s (m : vars) :
  run (ls1 ++ ls2) fuel s m =
  bind (run ls1 fuel s m) (fun '(s, m) => run ls2 fuel s m).
Proof.
  revert s m. induction ls1 as [|l ls1 IH]; intros s m; simpl.
  - reflexivity.
  - rewrite bind_bind. apply bind_ext. intros [s' m']. apply IH.
Qed.

Lemma blocks_split (l : label) :
  blocks_before l ++ blocks_from l = blocks_from (Keyword MeshVersionFormatted).
Proof. destruct l as [[]|[]|[]]; reflexivity. Qed.

(** Once control has reached a label, the call goes on from there. *)
Lemma reaches_run_from l fuel mesh_file (m0 : vars) s m :
  reaches l fuel mesh_file m0 s m ->
  readMESH fuel (Some mesh_file) m0 = run_from l fuel s m.
Proof.
  unfold reaches, readMESH, run_from. intros R.
  rewrite <- (blocks_split l), run_app, R. reflexivity.
Qed.

(** ** More iterations do not change an outcome that was reached *)

Lemma eat_comments_mono f f' s (m : vars) r :
  eat_comments f s m = r -> r <> Still_looping -> (f <= f')%nat ->
  eat_comments f' s m = r.
Proof.
  revert f' s m. induction f as [|f IH]; intros f' s m E N L; simpl in E.
  - congruence.
  - destruct f' as [|f']; [lia|]. simpl.
    destruct (fgets_line s m) as [s' m'].
    destruct (still_comments m'); [apply IH; auto; lia | exact E].
Qed.

Lemma bind_mono {A B} (x x' : outcome A) (k k' : A -> outcome B) r :
  bind x k = r -> r <> Still_looping ->
  (forall a, x = a -> a <> Still_looping -> x' = a) ->
  (forall a b, k a = b -> b <> Still_looping -> k' a = b) ->
  bind x' k' = r.
Proof.
  intros E N Hx Hk. destruct x as [a|b m|m|] eqn:X; simpl in E;
    try (rewrite (Hx _ eq_refl) by discriminate; simpl; auto; fail).
  congruence.
Qed.

Lemma block_mono l f f' s (m : vars) r :
  block l f s m = r -> r <> Still_looping -> (f <= f')%nat ->
  block l f' s m = r.
Proof.
  intros E N L. destruct l as [sec|sec|sec]; try exact E.
  simpl in *. unfold read_keyword in *.
  eapply bind_mono; [exact E | exact N | | ].
  - intros a Ea Na. eapply eat_comments_mono; eauto.
  - intros a b Eb _. exact Eb.
Qed.

Lemma run_mono ls f f' s (m : vars) r :
  run ls f s m = r -> r <> Still_looping -> (f <= f')%nat ->
  run ls f' s m = r.
Proof.
  revert s m r. induction ls as [|l ls IH]; intros s m r E N L; simpl in *.
  - exact E.
  - eapply bind_mono; [exact E | exact N | | ].
    + intros a Ea Na. eapply block_mono; eauto.
    + intros [s' m'] b Eb Nb. eapply IH; eauto.
Qed.

Lemma run_from_mono l f f' s (m : vars) r :
  run_from l f s m = r -> r <> Still_looping -> (f <= f')%nat ->
  run_from l f' s m = r.
Proof.
  unfold run_from. intros E N L.
  eapply bind_mono; [exact E | exact N | | ].
  - intros a Ea Na. eapply run_mono; eauto.
  - intros a b Eb _. exact Eb.
Qed.

Lemma readMESH_mono f f' mesh_file (m : vars) r :
  readMESH f mesh_file m = r -> r <> Still_looping -> (f <= f')%nat ->
  readMESH f' mesh_file m = r.
Proof.
  destruct mesh_file as [s|]; simpl; [apply run_from_mono | auto].
Qed.

(** ** The comment loop at the end of the file *)

Lemma eat_comments_unfold f s (m : vars) :
  eat_comments (S f) s m =
  let (s', m') := fgets_line s m in
  if still_comments m' then eat_comments f s' m' else Next (s', m').
Proof. reflexivity. Qed.

(** At end of file [fgets] changes nothing, so a loop that gets there with
    a comment or an empty line in [line] sees that line again and again. *)
Lemma eat_comments_eof f (m : vars) :
  still_comments m = true -> eat_comments f [] m = Still_looping.
Proof.
  intros C. induction f as [|f IH]; [reflexivity|].
  rewrite eat_comments_unfold. cbn [fgets_line fgets]. rewrite C. exact IH.
Qed.

(** ** Lines that the comment loops skip *)

Lemma fgets_chars_one_line c k s :
  one_line c = true -> (length c <= k)%nat -> fgets_chars k (c ++ s) = (c, s).
Proof.
  revert k. induction c as [|x r IH]; intros k O L; [discriminate|].
  destruct k as [|k]; [simpl in L; lia|].
  cbn [app fgets_chars]. destruct r as [|y r'].
  - cbn [one_line] in O. rewrite O. reflexivity.
  - cbn [one_line] in O. apply andb_true_iff in O as [N O].
    apply negb_true_iff in N. rewrite N.
    change ((y :: r') ++ s) with ((y :: r') ++ s) in *.
    rewrite (IH k O) by (simpl in *; lia). reflexivity.
Qed.

Lemma fgets_skipped_line c s :
  skipped_line c = true -> fgets LINE_MAX (c ++ s) = Some (c, s).
Proof.
  unfold skipped_line. intros Hc.
  apply andb_true_iff in Hc as [Hc _]. apply andb_true_iff in Hc as [O L].
  apply Nat.ltb_lt in L.
  destruct c as [|x r]; [discriminate|].
  unfold fgets. cbn [app]. change (x :: r ++ s) with ((x :: r) ++ s).
  rewrite fgets_chars_one_line; [reflexivity | exact O | lia].
Qed.

Lemma set_line_set_line l l' (m : vars) :
  set_line l (set_line l' m) = set_line l m.
Proof. reflexivity. Qed.

Lemma still_comments_skipped_line c (m : vars) :
  skipped_line c = true -> still_comments (set_line (cstr c) m) = true.
Proof.
  unfold skipped_line. intros Hc. apply andb_true_iff in Hc as [_ Hc].
  destruct c as [|x r]; [discriminate|].
  unfold still_comments. cbn [line set_line cstr].
  destruct (x =? NUL)%char eqn:E.
  - apply Ascii.eqb_eq in E. subst x. discriminate.
  - exact Hc.
Qed.

(** With something left to read, the loop overwrites [line] before it
    looks at it. *)
Lemma eat_comments_line f s l (m : vars) :
  s <> [] -> eat_comments f s (set_line l m) = eat_comments f s m.
Proof.
  intros N. destruct f as [|f]; [reflexivity|].
  rewrite !eat_comments_unfold. unfold fgets_line.
  destruct s as [|x s]; [congruence|]. unfold fgets. reflexivity.
Qed.

Lemma eat_comments_skipped_line f c s (m : vars) :
  skipped_line c = true -> s <> [] ->
  eat_comments (S f) (c ++ s) m = eat_comments f s m.
Proof.
  intros Hc N. rewrite eat_comments_unfold. unfold fgets_line.
  rewrite (fgets_skipped_line _ _ Hc), (still_comments_skipped_line _ _ Hc).
  apply eat_comments_line, N.
Qed.

Lemma blocks_from_Keyword sec :
  blocks_from (Keyword sec) = Keyword sec :: blocks_from (Number sec).
Proof. destruct sec; reflexivity. Qed.

Lemma run_from_Keyword sec f s (m : vars) :
  run_from (Keyword sec) f s m =
  bind (read_keyword sec f s m) (fun '(s, m) => run_from (Number sec) f s m).
Proof.
  unfold run_from. rewrite blocks_from_Keyword. cbn [run block].
  rewrite bind_bind. apply bind_ext. intros [s' m']. reflexivity.
Qed.

Lemma read_keyword_skipped_line sec f c s (m : vars) :
  skipped_line c = true -> s <> [] ->
  read_keyword sec (S f) (c ++ s) m = read_keyword sec f s m.
Proof.
  intros Hc N. unfold read_keyword. rewrite eat_comments_skipped_line; auto.
Qed.

Lemma run_from_skipped_line sec c s (m : vars) r :
  skipped_line c = true -> s <> [] ->
  ends_with (fun f => run_from (Keyword sec) f (c ++ s) m) r <->
  ends_with (fun f => run_from (Keyword sec) f s m) r.
Proof.
  intros Hc N. unfold ends_with. split; intros [R [f E]]; split; auto.
  - destruct f as [|f].
    { rewrite run_from_Keyword in E. simpl in E. congruence. }
    exists (S f). rewrite run_from_Keyword in *.
    rewrite read_keyword_skipped_line in E by assumption.
    eapply bind_mono; [exact E | exact R | | auto].
    intros a Ea Na. apply (block_mono (Keyword sec) f (S f)); auto.
  - exists (S f). rewrite run_from_Keyword in *.
    rewrite read_keyword_skipped_line by assumption.
    eapply bind_mono; [exact E | exact R | auto | ].
    intros [s' m'] b Eb Nb. apply (run_from_mono _ f); auto.
Qed.

(** ** White space in front of a number *)

Lemma skip_space_app w s :
  forallb isspace w = true -> skip_space (w ++ s) = skip_space s.
Proof.
  induction w as [|x w IH]; intros W; [reflexivity|].
  cbn [forallb] in W. apply andb_true_iff in W as [X W].
  cbn [app skip_space]. rewrite X. auto.
Qed.

Lemma read_count_space e w s (m : vars) :
  forallb isspace w = true -> read_count e (w ++ s) m = read_count e s m.
Proof. intros W. unfold read_count. rewrite skip_space_app; auto. Qed.

Lemma fscanf_lg_lg_lg_ld_space w s :
  forallb isspace w = true -> fscanf_lg_lg_lg_ld (w ++ s) = fscanf_lg_lg_lg_ld s.
Proof. intros W. unfold fscanf_lg_lg_lg_ld. rewrite skip_space_app; auto. Qed.

Lemma fscanf_ld_ld_ld_ld_space w s :
  forallb isspace w = true -> fscanf_ld_ld_ld_ld (w ++ s) = fscanf_ld_ld_ld_ld s.
Proof. intros W. unfold fscanf_ld_ld_ld_ld. rewrite skip_space_app; auto. Qed.

Lemma fscanf_ld_ld_ld_ld_ld_space w s :
  forallb isspace w = true ->
  fscanf_ld_ld_ld_ld_ld (w ++ s) = fscanf_ld_ld_ld_ld_ld s.
Proof. intros W. unfold fscanf_ld_ld_ld_ld_ld. rewrite skip_space_app; auto. Qed.

Lemma run_from_Number sec f s (m : vars) :
  run_from (Number sec) f s m =
  bind (block (Number sec) f s m) (fun '(s, m) => run_from (Records sec) f s m).
Proof.
  unfold run_from.
  replace (blocks_from (Number sec))
    with (Number sec :: blocks_from (Records sec)) by (destruct sec; reflexivity).
  cbn [run]. rewrite bind_bind. apply bind_ext. intros [s' m']. reflexivity.
Qed.

Lemma run_from_Number_space sec f w s (m : vars) :
  has_records sec = true -> forallb isspace w = true ->
  run_from (Number sec) f (w ++ s) m = run_from (Number sec) f s m.
Proof.
  intros H W. rewrite !run_from_Number. f_equal.
  destruct sec; try discriminate; cbn [block];
    unfold read_number_of_vertices, read_number_of_triangles,
      read_number_of_tetrahedra;
    rewrite read_count_space; auto.
Qed.

Lemma read_vertex_records_space w k i s (m : vars) :
  forallb isspace w = true ->
  read_vertex_records (S k) i (w ++ s) m = read_vertex_records (S k) i s m.
Proof. intros W. cbn [read_vertex_records]. rewrite fscanf_lg_lg_lg_ld_space; auto. Qed.

Lemma read_triangle_records_space w k i s (m : vars) :
  forallb isspace w = true ->
  read_triangle_records (S k) i (w ++ s) m = read_triangle_records (S k) i s m.
Proof. intros W. cbn [read_triangle_records]. rewrite fscanf_ld_ld_ld_ld_space; auto. Qed.

Lemma read_tetrahedra_records_space w k i s (m : vars) :
  forallb isspace w = true ->
  read_tetrahedra_records (S k) i (w ++ s) m = read_tetrahedra_records (S k) i s m.
Proof. intros W. cbn [read_tetrahedra_records]. rewrite fscanf_ld_ld_ld_ld_ld_space; auto. Qed.

(** ** What each block may change *)

Lemma buffers_only_refl (m : vars) : buffers_only m m.
Proof. destruct m; reflexivity. Qed.

Lemma buffers_only_trans (m1 m2 m3 : vars) :
  buffers_only m1 m2 -> buffers_only m2 m3 -> buffers_only m1 m3.
Proof. unfold buffers_only. intros E1 E2. rewrite E2 at 1. rewrite E1. reflexivity. Qed.

Lemma buffers_only_set_line l (m : vars) : buffers_only m (set_line l m).
Proof. destruct m; reflexivity. Qed.

Lemma buffers_only_set_str w (m : vars) : buffers_only m (set_str w m).
Proof. destruct m; reflexivity. Qed.

Lemma buffers_only_sscanf_word (m : vars) : buffers_only m (sscanf_word m).
Proof.
  unfold sscanf_word. destruct (scan_s _) as [[w r]|];
    [apply buffers_only_set_str | apply buffers_only_refl].
Qed.

Lemma eat_comments_form f s (m : vars) :
  match eat_comments f s m with
  | Next (_, m') => buffers_only m m'
  | Still_looping => True
  | _ => False
  end.
Proof.
  revert s m. induction f as [|f IH]; intros s m; [exact I|].
  rewrite eat_comments_unfold.
  assert (B : buffers_only m (snd (fgets_line s m))).
  { unfold fgets_line. destruct (fgets LINE_MAX s) as [[l r]|];
      [apply buffers_only_set_line | apply buffers_only_refl]. }
  destruct (fgets_line s m) as [s' m1]. cbn [snd] in B.
  destruct (still_comments m1); [|exact B].
  specialize (IH s' m1). destruct (eat_comments f s' m1) as [[s2 m2]| | |]; auto.
  eapply buffers_only_trans; eauto.
Qed.

Lemma read_keyword_form sec f s (m : vars) :
  match read_keyword sec f s m with
  | Next (_, m') => buffers_only m m'
  | Return b m' => b = false /\ stopped m m'
  | Length_error _ => False
  | Still_looping => True
  end.
Proof.
  unfold read_keyword. pose proof (eat_comments_form f s m) as E.
  destruct (eat_comments f s m) as [[s1 m1]| | |]; cbn [bind];
    try contradiction; auto.
  pose proof (buffers_only_sscanf_word m1) as W.
  destruct (strcmp0 _ _); unfold stop.
  - eapply buffers_only_trans; eauto.
  - split; [reflexivity|]. eexists _, _. split; [|reflexivity].
    eapply buffers_only_trans; eauto.
Qed.

Lemma read_keyword_value_form e want s (m : vars) :
  match read_keyword_value e want s m with
  | Next (_, m') => buffers_only m m'
  | Return b m' => b = false /\ stopped m m'
  | _ => False
  end.
Proof.
  assert (C : forall v (s1 : list ascii) (m1 : vars), buffers_only m m1 ->
    match (if v =? want then Next (s1, m1) else stop (e v) m1)
          return Prop with
    | Next (_, m') => buffers_only m m'
    | Return b m' => b = false /\ stopped m m'
    | _ => False
    end).
  { intros v s1 m1 B. destruct (v =? want); [exact B|].
    split; [reflexivity|]. eexists _, _. split; [exact B|reflexivity]. }
  unfold read_keyword_value.
  destruct (sscanf_s_d (line m)) as [[w [v|]]|].
  - apply C, buffers_only_set_str.
  - destruct (scan_d _) as [[v r]|]; apply C, buffers_only_set_str.
  - destruct (scan_d _) as [[v r]|]; apply C, buffers_only_refl.
Qed.

Lemma to_size_t_range v : 0 <= to_size_t v < 2 ^ 64.
Proof. unfold to_size_t. apply Z.mod_pos_bound. lia. Qed.

Lemma resize_Some {A} n (x : A) l :
  resize n x = Some l -> n <= max_size /\ l = replicate (Z.to_nat n) x.
Proof.
  unfold resize. destruct (max_size <? n) eqn:E; [discriminate|].
  apply Z.ltb_ge in E. intros [= <-]. auto.
Qed.

Lemma read_number_of_vertices_form s (m : vars) :
  match read_number_of_vertices s m with
  | Next (_, m') =>
      exists n, 0 <= n <= max_size /\
        m' = set_V (replicate (Z.to_nat n) (zeros 3)) (set_number_of_vertices n m)
  | Return b m' =>
      b = false /\ m' = fclose (print Error_expecting_number_of_vertices m)
  | Length_error m' => exists n, m' = set_number_of_vertices n m
  | Still_looping => False
  end.
Proof.
  unfold read_number_of_vertices, read_count.
  destruct (scan_ld _) as [[v r]|]; cbn [bind]; [|split; reflexivity].
  pose proof (to_size_t_range v).
  destruct (resize _ _) as [l|] eqn:R; [|eexists; reflexivity].
  apply resize_Some in R as [L ->]. exists (to_size_t v). split; [lia|reflexivity].
Qed.

Lemma read_number_of_triangles_form s (m : vars) :
  match read_number_of_triangles s m with
  | Next (_, m') =>
      exists n, 0 <= n <= max_size /\
        m' = set_F (replicate (Z.to_nat n) (zeros 3)) (set_number_of_triangles n m)
  | Return b m' =>
      b = false /\ m' = fclose (print Error_expecting_number_of_triangles m)
  | Length_error m' => exists n, m' = set_number_of_triangles n m
  | Still_looping => False
  end.
Proof.
  unfold read_number_of_triangles, read_count.
  destruct (scan_ld _) as [[v r]|]; cbn [bind]; [|split; reflexivity].
  pose proof (to_size_t_range v).
  destruct (resize _ _) as [l|] eqn:R; [|eexists; reflexivity].
  apply resize_Some in R as [L ->]. exists (to_size_t v). split; [lia|reflexivity].
Qed.

Lemma read_number_of_tetrahedra_form s (m : vars) :
  match read_number_of_tetrahedra s m with
  | Next (_, m') =>
      exists n, 0 <= n <= max_size /\
        m' = set_T (replicate (Z.to_nat n) (zeros 4)) (set_number_of_tetrahedra n m)
  | Return b m' =>
      b = false /\ m' = fclose (print Error_expecting_number_of_tetrahedra m)
  | Length_error m' => exists n, m' = set_number_of_tetrahedra n m
  | Still_looping => False
  end.
Proof.
  unfold read_number_of_tetrahedra, read_count.
  destruct (scan_ld _) as [[v r]|]; cbn [bind]; [|split; reflexivity].
  pose proof (to_size_t_range v).
  destruct (resize _ _) as [l|] eqn:R; [|eexists; reflexivity].
  apply resize_Some in R as [L ->]. exists (to_size_t v). split; [lia|reflexivity].
Qed.

(** ** The records of a section, as the text gives them *)

Lemma set_V_set_V v v' (m : vars) : set_V v (set_V v' m) = set_V v m.
Proof. reflexivity. Qed.

Lemma set_F_set_F v v' (m : vars) : set_F v (set_F v' m) = set_F v m.
Proof. reflexivity. Qed.

Lemma set_T_set_T v v' (m : vars) : set_T v (set_T v' m) = set_T v m.
Proof. reflexivity. Qed.

Lemma set_V_same (m : vars) : set_V (V m) m = m.
Proof. destruct m; reflexivity. Qed.

Lemma set_F_same (m : vars) : set_F (F m) m = m.
Proof. destruct m; reflexivity. Qed.

Lemma set_T_same (m : vars) : set_T (T m) m = m.
Proof. destruct m; reflexivity. Qed.

Lemma alter_middle {A} (f : A -> A) (done : list A) x todo :
  alter f (length done) (done ++ x :: todo) = done ++ f x :: todo.
Proof.
  rewrite alter_app_r_alt by lia. rewrite Nat.sub_diag. reflexivity.
Qed.

Lemma insert3 {A} (x y z : A) (v : list A) :
  length v = 3%nat ->
  <[2%nat := z]> (<[1%nat := y]> (<[0%nat := x]> v)) = [x; y; z].
Proof. destruct v as [|a [|b [|c [|]]]]; try discriminate. reflexivity. Qed.

Lemma insert4 {A} (x y z t : A) (v : list A) :
  length v = 4%nat ->
  <[3%nat := t]> (<[2%nat := z]> (<[1%nat := y]> (<[0%nat := x]> v))) =
  [x; y; z; t].
Proof. destruct v as [|a [|b [|c [|d [|]]]]]; try discriminate. reflexivity. Qed.

(** The first [n] turns of the vertex loop, when the text has [n] records
    for them: the rows [i .. i + n - 1] receive the records in order. *)
Lemma read_vertex_records_prefix n :
  forall k i s (m : vars) recs r done todo,
    vertex_records n s = Some (recs, r) ->
    V m = done ++ todo -> length done = i ->
    Forall (fun v => length v = 3%nat) todo ->
    (n <= k)%nat -> (n <= length todo)%nat ->
    read_vertex_records k i s m =
    read_vertex_records (k - n) (i + n) r
      (set_V (done ++ map vertex_row recs ++ drop n todo) m).
Proof.
  induction n as [|n IH]; intros k i s m recs r done todo R E L W Lk Lt.
  - injection R as <- <-. change (drop 0 todo) with todo. cbn [map app].
    rewrite Nat.sub_0_r, Nat.add_0_r, <- E, set_V_same. reflexivity.
  - cbn [vertex_records] in R.
    destruct (fscanf_lg_lg_lg_ld s) as [[[[[x y] z] e] r1]|] eqn:Sc; [|discriminate].
    destruct (vertex_records n r1) as [[recs' r']|] eqn:R'; [|discriminate].
    injection R as <- <-.
    destruct k as [|k]; [lia|]. destruct todo as [|t todo]; [simpl in Lt; lia|].
    cbn [read_vertex_records]. rewrite Sc.
    inversion W as [|? ? Wt W']; subst.
    rewrite E, alter_middle, insert3 by exact Wt.
    rewrite (IH k (S (length done)) r1 _ recs' r' (done ++ [vertex_row (x, y, z)]) todo R');
      [ | cbn [V set_V]; rewrite <- app_assoc; reflexivity
        | rewrite length_app; simpl; lia | exact W' | lia | simpl in Lt; lia ].
    rewrite set_V_set_V. change (drop (S n) (t :: todo)) with (drop n todo).
    cbn [map]. rewrite <- !app_assoc. cbn [app].
    f_equal; lia.
Qed.

Lemma read_triangle_records_prefix n :
  forall k i s (m : vars) recs r done todo,
    triangle_records n s = Some (recs, r) ->
    F m = done ++ todo -> length done = i ->
    Forall (fun v => length v = 3%nat) todo ->
    (n <= k)%nat -> (n <= length todo)%nat ->
    read_triangle_records k i s m =
    read_triangle_records (k - n) (i + n) r
      (set_F (done ++ map triangle_row recs ++ drop n todo) m).
Proof.
  induction n as [|n IH]; intros k i s m recs r done todo R E L W Lk Lt.
  - injection R as <- <-. change (drop 0 todo) with todo. cbn [map app].
    rewrite Nat.sub_0_r, Nat.add_0_r, <- E, set_F_same. reflexivity.
  - cbn [triangle_records] in R.
    destruct (fscanf_ld_ld_ld_ld s) as [[[[[a b] c] e] r1]|] eqn:Sc; [|discriminate].
    destruct (triangle_records n r1) as [[recs' r']|] eqn:R'; [|discriminate].
    injection R as <- <-.
    destruct k as [|k]; [lia|]. destruct todo as [|t todo]; [simpl in Lt; lia|].
    cbn [read_triangle_records nth]. rewrite Sc.
    inversion W as [|? ? Wt W']; subst.
    rewrite E, alter_middle, insert3 by exact Wt.
    rewrite (IH k (S (length done)) r1 _ recs' r' (done ++ [triangle_row (a, b, c)]) todo R');
      [ | cbn [F set_F]; rewrite <- app_assoc; reflexivity
        | rewrite length_app; simpl; lia | exact W' | lia | simpl in Lt; lia ].
    rewrite set_F_set_F. change (drop (S n) (t :: todo)) with (drop n todo).
    cbn [map]. rewrite <- !app_assoc. cbn [app].
    f_equal; lia.
Qed.

Lemma read_tetrahedra_records_prefix n :
  forall k i s (m : vars) recs r done todo,
    tetrahedra_records n s = Some (recs, r) ->
    T m = done ++ todo -> length done = i ->
    Forall (fun v => length v = 4%nat) todo ->
    (n <= k)%nat -> (n <= length todo)%nat ->
    read_tetrahedra_records k i s m =
    read_tetrahedra_records (k - n) (i + n) r
      (set_T (done ++ map tetrahedron_row recs ++ drop n todo) m).
Proof.
  induction n as [|n IH]; intros k i s m recs r done todo R E L W Lk Lt.
  - injection R as <- <-. change (drop 0 todo) with todo. cbn [map app].
    rewrite Nat.sub_0_r, Nat.add_0_r, <- E, set_T_same. reflexivity.
  - cbn [tetrahedra_records] in R.
    destruct (fscanf_ld_ld_ld_ld_ld s) as [[[[[[a b] c] d] e] r1]|] eqn:Sc;
      [|discriminate].
    destruct (tetrahedra_records n r1) as [[recs' r']|] eqn:R'; [|discriminate].
    injection R as <- <-.
    destruct k as [|k]; [lia|]. destruct todo as [|t todo]; [simpl in Lt; lia|].
    cbn [read_tetrahedra_records]. rewrite Sc.
    inversion W as [|? ? Wt W']; subst.
    rewrite E, alter_middle, insert4 by exact Wt.
    rewrite (IH k (S (length done)) r1 _ recs' r'
               (done ++ [tetrahedron_row (a, b, c, d)]) todo R');
      [ | cbn [T set_T]; rewrite <- app_assoc; reflexivity
        | rewrite length_app; simpl; lia | exact W' | lia | simpl in Lt; lia ].
    rewrite set_T_set_T. change (drop (S n) (t :: todo)) with (drop n todo).
    cbn [map]. rewrite <- !app_assoc. cbn [app].
    f_equal; lia.
Qed.

(** ** What the record loops may change *)

Lemma length_insert3 {A} (x y z : A) (v : list A) :
  length (<[2%nat := z]> (<[1%nat := y]> (<[0%nat := x]> v))) = length v.
Proof. rewrite !length_insert. reflexivity. Qed.

Lemma take_le_eq {A} (v w : list A) i j :
  (i <= j)%nat -> take j v = take j w -> take i v = take i w.
Proof.
  intros L E. rewrite <- (Nat.min_l i j L), <- !take_take, E. reflexivity.
Qed.

Lemma read_vertex_records_form k :
  forall i s (m : vars),
  match read_vertex_records k i s m with
  | Next (_, m') =>
      exists v, m' = set_V v m /\ length v = length (V m) /\
        take i v = take i (V m) /\
        (Forall (fun r => length r = 3%nat) (V m) ->
         Forall (fun r => length r = 3%nat) v)
  | Return b m' =>
      b = false /\ exists v,
        m' = fclose (print Error_expecting_vertex_position (set_V v m)) /\
        length v = length (V m) /\ take i v = take i (V m)
  | _ => False
  end.
Proof.
  induction k as [|k IH]; intros i s m; cbn [read_vertex_records].
  - exists (V m). rewrite set_V_same. auto.
  - destruct (fscanf_lg_lg_lg_ld s) as [[[[[x y] z] e] r]|].
    + match goal with |- context [set_V ?v m] => set (v1 := v) end.
      assert (L1 : length v1 = length (V m)) by apply length_alter.
      assert (T1 : take i v1 = take i (V m)) by (apply take_alter_ge; lia).
      specialize (IH (S i) r (set_V v1 m)). cbn [V set_V] in IH.
      destruct (read_vertex_records k (S i) r (set_V v1 m)) as [[s' m']|b m'| |];
        try contradiction.
      * destruct IH as (v & -> & L & Tk & W). exists v.
        rewrite set_V_set_V. repeat split; [lia | | ].
        -- rewrite <- T1. apply (take_le_eq _ _ i (S i)); [lia | exact Tk].
        -- intros W0. apply W. subst v1. apply Forall_alter; [exact W0|].
           intros row _ Hr. rewrite length_insert3. exact Hr.
      * destruct IH as (-> & v & -> & L & Tk). split; [reflexivity|].
        exists v. rewrite set_V_set_V. repeat split; [lia|].
        rewrite <- T1. apply (take_le_eq _ _ i (S i)); [lia | exact Tk].
    + split; [reflexivity|]. exists (V m). rewrite set_V_same. auto.
Qed.

Lemma read_triangle_records_form k :
  forall i s (m : vars),
  match read_triangle_records k i s m with
  | Next (_, m') =>
      exists v, m' = set_F v m /\ length v = length (F m) /\
        take i v = take i (F m) /\
        (Forall (fun r => length r = 3%nat) (F m) ->
         Forall (fun r => length r = 3%nat) v)
  | Return b m' =>
      b = false /\ exists v,
        m' = print Stdout_expecting_triangle_indices (set_F v m) /\
        length v = length (F m) /\ take i v = take i (F m)
  | _ => False
  end.
Proof.
  induction k as [|k IH]; intros i s m; cbn [read_triangle_records].
  - exists (F m). rewrite set_F_same. auto.
  - destruct (fscanf_ld_ld_ld_ld s) as [[[[[a b] c] e] r]|].
    + match goal with |- context [set_F ?v m] => set (v1 := v) end.
      assert (L1 : length v1 = length (F m)) by apply length_alter.
      assert (T1 : take i v1 = take i (F m)) by (apply take_alter_ge; lia).
      specialize (IH (S i) r (set_F v1 m)). cbn [F set_F] in IH.
      destruct (read_triangle_records k (S i) r (set_F v1 m)) as [[s' m']|ret m'| |];
        try contradiction.
      * destruct IH as (v & -> & L & Tk & W). exists v.
        rewrite set_F_set_F. repeat split; [lia | | ].
        -- rewrite <- T1. apply (take_le_eq _ _ i (S i)); [lia | exact Tk].
        -- intros W0. apply W. subst v1. apply Forall_alter; [exact W0|].
           intros row _ Hr. rewrite length_insert3. exact Hr.
      * destruct IH as (-> & v & -> & L & Tk). split; [reflexivity|].
        exists v. rewrite set_F_set_F. repeat split; [lia|].
        rewrite <- T1. apply (take_le_eq _ _ i (S i)); [lia | exact Tk].
    + split; [reflexivity|]. exists (F m). rewrite set_F_same. auto.
Qed.

Lemma read_tetrahedra_records_form k :
  forall i s (m : vars),
  match read_tetrahedra_records k i s m with
  | Next (_, m') =>
      exists v, m' = set_T v m /\ length v = length (T m) /\
        take i v = take i (T m) /\
        (Forall (fun r => length r = 4%nat) (T m) ->
         Forall (fun r => length r = 4%nat) v)
  | Return b m' =>
      b = false /\ exists v,
        m' = fclose (print Error_expecting_tetrahedra_indices (set_T v m)) /\
        length v = length (T m) /\ take i v = take i (T m)
  | _ => False
  end.
Proof.
  induction k as [|k IH]; intros i s m; cbn [read_tetrahedra_records].
  - exists (T m). rewrite set_T_same. auto.
  - destruct (fscanf_ld_ld_ld_ld_ld s) as [[[[[[a b] c] d] e] r]|].
    + match goal with |- context [set_T ?v m] => set (v1 := v) end.
      assert (L1 : length v1 = length (T m)) by apply length_alter.
      assert (T1 : take i v1 = take i (T m)) by (apply take_alter_ge; lia).
      specialize (IH (S i) r (set_T v1 m)). cbn [T set_T] in IH.
      destruct (read_tetrahedra_records k (S i) r (set_T v1 m)) as [[s' m']|ret m'| |];
        try contradiction.
      * destruct IH as (v & -> & L & Tk & W). exists v.
        rewrite set_T_set_T. repeat split; [lia | | ].
        -- rewrite <- T1. apply (take_le_eq _ _ i (S i)); [lia | exact Tk].
        -- intros W0. apply W. subst v1. apply Forall_alter; [exact W0|].
           intros row _ Hr. rewrite !length_insert. exact Hr.
      * destruct IH as (-> & v & -> & L & Tk). split; [reflexivity|].
        exists v. rewrite set_T_set_T. repeat split; [lia|].
        rewrite <- T1. apply (take_le_eq _ _ i (S i)); [lia | exact Tk].
    + split; [reflexivity|]. exists (T m). rewrite set_T_same. auto.
Qed.

(** ** Which block writes which output *)

Lemma buffers_only_fields (m m' : vars) :
  buffers_only m m' ->
  same_vertices m m' /\ same_triangles m m' /\ same_tetrahedra m m' /\
  printed m' = printed m /\ mesh_file_open m' = mesh_file_open m.
Proof.
  unfold buffers_only, same_vertices, same_triangles, same_tetrahedra.
  intros ->. repeat split; reflexivity.
Qed.

Lemma stopped_fields (m m' : vars) :
  stopped m m' ->
  same_vertices m m' /\ same_triangles m m' /\ same_tetrahedra m m'.
Proof.
  intros (e & m1 & B & ->). apply buffers_only_fields in B.
  destruct B as (Bv & Bf & Bt & _). auto.
Qed.

Ltac fields :=
  unfold same_vertices, same_triangles, same_tetrahedra;
  repeat split; intros; try discriminate; try reflexivity.

Lemma block_frame l f s (m m' : vars) :
  vars_at_end (block l f s m) = Some m' ->
  (writes Vertices l = false -> same_vertices m m') /\
  (writes Triangles l = false -> same_triangles m m') /\
  (writes Tetrahedra l = false -> same_tetrahedra m m').
Proof.
  assert (KV : forall o : outcome (list ascii * vars),
    match o with
    | Next (_, m1) => buffers_only m m1
    | Return b m1 => b = false /\ stopped m m1
    | Length_error _ => False
    | Still_looping => True
    end ->
    vars_at_end o = Some m' ->
    same_vertices m m' /\ same_triangles m m' /\ same_tetrahedra m m').
  { intros [[s1 m1]|b m1|m1|] Fo E; try discriminate; try contradiction;
      injection E as <-.
    - apply buffers_only_fields in Fo. tauto.
    - destruct Fo as [_ Fo]. apply stopped_fields, Fo. }
  intros E. destruct l as [sec|sec|sec].
  - apply (KV _ (read_keyword_form sec f s m)) in E. tauto.
  - destruct sec; cbn [block] in E.
    + apply KV in E; [tauto|].
      pose proof (read_keyword_value_form Error_second_word 1 s m) as Fo.
      destruct (read_keyword_value _ _ _ _) as [[s9 m9]|b9 m9|m9|]; auto.
    + apply KV in E; [tauto|].
      pose proof (read_keyword_value_form Error_only_Dimension_3 3 s m) as Fo.
      destruct (read_keyword_value _ _ _ _) as [[s9 m9]|b9 m9|m9|]; auto.
    + pose proof (read_number_of_vertices_form s m) as Fo.
      destruct (read_number_of_vertices s m) as [[s9 m9]|b9 m9|m9|];
        try contradiction; injection E as <-.
      * destruct Fo as (n & _ & ->). fields.
      * destruct Fo as (_ & ->). fields.
      * destruct Fo as (n & ->). fields.
    + pose proof (read_number_of_triangles_form s m) as Fo.
      destruct (read_number_of_triangles s m) as [[s9 m9]|b9 m9|m9|];
        try contradiction; injection E as <-.
      * destruct Fo as (n & _ & ->). fields.
      * destruct Fo as (_ & ->). fields.
      * destruct Fo as (n & ->). fields.
    + pose proof (read_number_of_tetrahedra_form s m) as Fo.
      destruct (read_number_of_tetrahedra s m) as [[s9 m9]|b9 m9|m9|];
        try contradiction; injection E as <-.
      * destruct Fo as (n & _ & ->). fields.
      * destruct Fo as (_ & ->). fields.
      * destruct Fo as (n & ->). fields.
  - destruct sec; cbn [block] in E.
    + injection E as <-. fields.
    + injection E as <-. fields.
    + pose proof (read_vertex_records_form
        (Z.to_nat (number_of_vertices m)) 0 s m) as Fo.
      destruct (read_vertex_records _ _ _ _) as [[s9 m9]|b9 m9|m9|];
        try contradiction; injection E as <-.
      * destruct Fo as (v & -> & _). fields.
      * destruct Fo as (_ & v & -> & _). fields.
    + pose proof (read_triangle_records_form
        (Z.to_nat (number_of_triangles m)) 0 s m) as Fo.
      destruct (read_triangle_records _ _ _ _) as [[s9 m9]|b9 m9|m9|];
        try contradiction; injection E as <-.
      * destruct Fo as (v & -> & _). fields.
      * destruct Fo as (_ & v & -> & _). fields.
    + pose proof (read_tetrahedra_records_form
        (Z.to_nat (number_of_tetrahedra m)) 0 s m) as Fo.
      destruct (read_tetrahedra_records _ _ _ _) as [[s9 m9]|b9 m9|m9|];
        try contradiction; injection E as <-.
      * destruct Fo as (v & -> & _). fields.
      * destruct Fo as (_ & v & -> & _). fields.
Qed.

(** A block that goes on to the next one has printed nothing and has not
    closed the file. *)
Lemma block_Next_quiet l f s (m : vars) s' m' :
  block l f s m = Next (s', m') ->
  printed m' = printed m /\ mesh_file_open m' = mesh_file_open m.
Proof.
  intros E. destruct l as [sec|sec|sec].
  - pose proof (read_keyword_form sec f s m) as Fo. cbn [block] in E.
    rewrite E in Fo. apply buffers_only_fields in Fo. tauto.
  - destruct sec; cbn [block] in E.
    + pose proof (read_keyword_value_form Error_second_word 1 s m) as Fo.
      rewrite E in Fo. apply buffers_only_fields in Fo. tauto.
    + pose proof (read_keyword_value_form Error_only_Dimension_3 3 s m) as Fo.
      rewrite E in Fo. apply buffers_only_fields in Fo. tauto.
    + pose proof (read_number_of_vertices_form s m) as Fo.
      rewrite E in Fo. destruct Fo as (n & _ & ->). auto.
    + pose proof (read_number_of_triangles_form s m) as Fo.
      rewrite E in Fo. destruct Fo as (n & _ & ->). auto.
    + pose proof (read_number_of_tetrahedra_form s m) as Fo.
      rewrite E in Fo. destruct Fo as (n & _ & ->). auto.
  - destruct sec; cbn [block] in E.
    + injection E as <- <-. auto.
    + injection E as <- <-. auto.
    + pose proof (read_vertex_records_form
        (Z.to_nat (number_of_vertices m)) 0 s m) as Fo.
      rewrite E in Fo. destruct Fo as (v & -> & _). auto.
    + pose proof (read_triangle_records_form
        (Z.to_nat (number_of_triangles m)) 0 s m) as Fo.
      rewrite E in Fo. destruct Fo as (v & -> & _). auto.
    + pose proof (read_tetrahedra_records_form
        (Z.to_nat (number_of_tetrahedra m)) 0 s m) as Fo.
      rewrite E in Fo. destruct Fo as (v & -> & _). auto.
Qed.

Lemma bind_Next {A B} (x : outcome A) (k : A -> outcome B) b :
  bind x k = Next b -> exists a, x = Next a /\ k a = Next b.
Proof. destruct x as [a| | |]; try discriminate. intros E. eauto. Qed.

Lemma same_vertices_trans (m1 m2 m3 : vars) :
  same_vertices m1 m2 -> same_vertices m2 m3 -> same_vertices m1 m3.
Proof. unfold same_vertices. intros [? ?] [? ?]. split; congruence. Qed.

Lemma same_triangles_trans (m1 m2 m3 : vars) :
  same_triangles m1 m2 -> same_triangles m2 m3 -> same_triangles m1 m3.
Proof. unfold same_triangles. intros [? ?] [? ?]. split; congruence. Qed.

Lemma same_tetrahedra_trans (m1 m2 m3 : vars) :
  same_tetrahedra m1 m2 -> same_tetrahedra m2 m3 -> same_tetrahedra m1 m3.
Proof. unfold same_tetrahedra. intros [? ?] [? ?]. split; congruence. Qed.

Lemma run_frame ls :
  forall f s (m m' : vars),
  vars_at_end (run ls f s m) = Some m' ->
  (spares Vertices ls = true -> same_vertices m m') /\
  (spares Triangles ls = true -> same_triangles m m') /\
  (spares Tetrahedra ls = true -> same_tetrahedra m m').
Proof.
  induction ls as [|l ls IH]; intros f s m m' E.
  - injection E as <-. split; [|split]; intros _; split; reflexivity.
  - cbn [run] in E. unfold spares in *. cbn [forallb].
    pose proof (block_frame l f s m) as B.
    destruct (block l f s m) as [[s1 m1]|b1 m1|m1|]; cbn [bind] in E;
      try discriminate.
    + destruct (B m1 eq_refl) as (B1 & B2 & B3).
      destruct (IH f s1 m1 m' E) as (I1 & I2 & I3).
      split; [|split]; intros W; apply andb_true_iff in W as [W1 W2];
        apply negb_true_iff in W1.
      * eapply same_vertices_trans; eauto.
      * eapply same_triangles_trans; eauto.
      * eapply same_tetrahedra_trans; eauto.
    + destruct (B m' E) as (B1 & B2 & B3).
      split; [|split]; intros W; apply andb_true_iff in W as [W1 W2];
        apply negb_true_iff in W1; auto.
    + destruct (B m' E) as (B1 & B2 & B3).
      split; [|split]; intros W; apply andb_true_iff in W as [W1 W2];
        apply negb_true_iff in W1; auto.
Qed.

Lemma run_Next_quiet ls :
  forall f s (m : vars) s' m',
  run ls f s m = Next (s', m') ->
  printed m' = printed m /\ mesh_file_open m' = mesh_file_open m.
Proof.
  induction ls as [|l ls IH]; intros f s m s' m' E.
  - injection E as <- <-. auto.
  - cbn [run] in E. apply bind_Next in E as ([s1 m1] & E1 & E2).
    apply block_Next_quiet in E1 as [P1 O1]. apply IH in E2 as [P2 O2].
    split; congruence.
Qed.

Lemma run_from_frame l f s (m m' : vars) :
  final_vars (run_from l f s m) = Some m' ->
  (spares Vertices (blocks_from l) = true -> same_vertices m m') /\
  (spares Triangles (blocks_from l) = true -> same_triangles m m') /\
  (spares Tetrahedra (blocks_from l) = true -> same_tetrahedra m m').
Proof.
  unfold run_from. intros E.
  pose proof (run_frame (blocks_from l) f s m) as R.
  destruct (run (blocks_from l) f s m) as [[s1 m1]|b1 m1|m1|]; cbn [bind] in E;
    try discriminate.
  - injection E as <-. destruct (R m1 eq_refl) as (R1 & R2 & R3).
    split; [|split]; intros W; [apply R1 in W | apply R2 in W | apply R3 in W];
      exact W.
  - apply R. exact E.
  - apply R. exact E.
Qed.

(** ** The state in which the record loops are entered *)

Lemma run_snoc_Next ls l f s (m : vars) s' m' :
  run (ls ++ [l]) f s m = Next (s', m') ->
  exists s1 m1, run ls f s m = Next (s1, m1) /\ block l f s1 m1 = Next (s', m').
Proof.
  rewrite run_app. intros E. apply bind_Next in E as ([s1 m1] & E1 & E2).
  exists s1, m1. split; [exact E1|]. cbn [run] in E2.
  apply bind_Next in E2 as ([s2 m2] & E2 & E3). injection E3 as <- <-. exact E2.
Qed.

Lemma reaches_Records_Vertices f mesh_file (m0 : vars) s m :
  reaches (Records Vertices) f mesh_file m0 s m ->
  0 <= number_of_vertices m <= max_size /\
  V m = replicate (Z.to_nat (number_of_vertices m)) (zeros 3) /\
  T m = [] /\ F m = [] /\
  printed m = printed m0 /\ mesh_file_open m = true.
Proof.
  unfold reaches.
  change (blocks_before (Records Vertices))
    with (blocks_before (Number Vertices) ++ [Number Vertices]).
  intros E. apply run_snoc_Next in E as (s1 & m1 & E1 & E2).
  pose proof (run_frame _ _ _ _ m1 (f_equal vars_at_end E1)) as (_ & Ff & Ft).
  destruct (Ff eq_refl) as [Ff1 _]. destruct (Ft eq_refl) as [Ft1 _].
  apply run_Next_quiet in E1 as [P O].
  pose proof (read_number_of_vertices_form s1 m1) as Fo.
  cbn [block] in E2. rewrite E2 in Fo. destruct Fo as (n & Rn & ->).
  cbn. repeat split; try tauto; try lia; congruence.
Qed.

Lemma reaches_Records_Triangles f mesh_file (m0 : vars) s m :
  reaches (Records Triangles) f mesh_file m0 s m ->
  0 <= number_of_triangles m <= max_size /\
  F m = replicate (Z.to_nat (number_of_triangles m)) (zeros 3).
Proof.
  unfold reaches.
  change (blocks_before (Records Triangles))
    with (blocks_before (Number Triangles) ++ [Number Triangles]).
  intros E. apply run_snoc_Next in E as (s1 & m1 & E1 & E2).
  pose proof (read_number_of_triangles_form s1 m1) as Fo.
  cbn [block] in E2. rewrite E2 in Fo. destruct Fo as (n & Rn & ->).
  cbn. split; [lia | reflexivity].
Qed.

Lemma reaches_Records_Tetrahedra f mesh_file (m0 : vars) s m :
  reaches (Records Tetrahedra) f mesh_file m0 s m ->
  0 <= number_of_tetrahedra m <= max_size /\
  T m = replicate (Z.to_nat (number_of_tetrahedra m)) (zeros 4).
Proof.
  unfold reaches.
  change (blocks_before (Records Tetrahedra))
    with (blocks_before (Number Tetrahedra) ++ [Number Tetrahedra]).
  intros E. apply run_snoc_Next in E as (s1 & m1 & E1 & E2).
  pose proof (read_number_of_tetrahedra_form s1 m1) as Fo.
  cbn [block] in E2. rewrite E2 in Fo. destruct Fo as (n & Rn & ->).
  cbn. split; [lia | reflexivity].
Qed.

Lemma scan_lg_nil : scan_lg [] = None.
Proof. reflexivity. Qed.

(** With nothing but white space left, no record can be read. *)
Lemma fscanf_lg_lg_lg_ld_end s :
  skip_space s = [] -> fscanf_lg_lg_lg_ld s = None.
Proof. unfold fscanf_lg_lg_lg_ld. intros ->. rewrite scan_lg_nil. reflexivity. Qed.

Lemma run_from_Records_Vertices f s (m : vars) :
  run_from (Records Vertices) f s m =
  bind (read_vertex_records (Z.to_nat (number_of_vertices m)) 0 s m)
    (fun '(s, m) => run_from (Keyword Triangles) f s m).
Proof.
  unfold run_from.
  change (blocks_from (Records Vertices))
    with (Records Vertices :: blocks_from (Keyword Triangles)).
  cbn [run block]. rewrite bind_bind. apply bind_ext. intros [s1 m1]. reflexivity.
Qed.

Lemma run_from_Records_Triangles f s (m : vars) :
  run_from (Records Triangles) f s m =
  bind (read_triangle_records (Z.to_nat (number_of_triangles m)) 0 s m)
    (fun '(s, m) => run_from (Keyword Tetrahedra) f s m).
Proof.
  unfold run_from.
  change (blocks_from (Records Triangles))
    with (Records Triangles :: blocks_from (Keyword Tetrahedra)).
  cbn [run block]. rewrite bind_bind. apply bind_ext. intros [s1 m1]. reflexivity.
Qed.

Lemma run_from_Records_Tetrahedra f s (m : vars) :
  run_from (Records Tetrahedra) f s m =
  bind (read_tetrahedra_records (Z.to_nat (number_of_tetrahedra m)) 0 s m)
    (fun '(_, m) => Return true (fclose m)).
Proof.
  unfold run_from.
  change (blocks_from (Records Tetrahedra)) with [Records Tetrahedra].
  cbn [run block]. rewrite bind_bind. apply bind_ext. intros [s1 m1]. reflexivity.
Qed.

(** ** What [%ld] delivers *)

Lemma scan_ld_range s v r :
  scan_ld s = Some (v, r) -> LONG_MIN <= v <= LONG_MAX.
Proof.
  unfold scan_ld. destruct (scan_integer s) as [[v0 r0]|]; [|discriminate].
  cbn. intros [= <- <-]. unfold clamp_long, LONG_MIN, LONG_MAX. lia.
Qed.

Lemma fscanf_ld_ld_ld_ld_range s a b c e r :
  fscanf_ld_ld_ld_ld s = Some (a, b, c, e, r) ->
  is_long a /\ is_long b /\ is_long c.
Proof.
  unfold fscanf_ld_ld_ld_ld.
  destruct (scan_ld (skip_space s)) as [[a0 s1]|] eqn:A; [|discriminate]. cbn.
  destruct (scan_ld (skip_space s1)) as [[b0 s2]|] eqn:B; [|discriminate]. cbn.
  destruct (scan_ld (skip_space s2)) as [[c0 s3]|] eqn:C; [|discriminate]. cbn.
  destruct (scan_ld (skip_space s3)) as [[e0 s4]|] eqn:E; [|discriminate]. cbn.
  intros [= <- <- <- <- <-].
  apply scan_ld_range in A, B, C. auto.
Qed.

Lemma fscanf_ld_ld_ld_ld_ld_range s a b c d e r :
  fscanf_ld_ld_ld_ld_ld s = Some (a, b, c, d, e, r) ->
  is_long a /\ is_long b /\ is_long c /\ is_long d.
Proof.
  unfold fscanf_ld_ld_ld_ld_ld.
  destruct (scan_ld (skip_space s)) as [[a0 s1]|] eqn:A; [|discriminate]. cbn.
  destruct (scan_ld (skip_space s1)) as [[b0 s2]|] eqn:B; [|discriminate]. cbn.
  destruct (scan_ld (skip_space s2)) as [[c0 s3]|] eqn:C; [|discriminate]. cbn.
  destruct (scan_ld (skip_space s3)) as [[d0 s4]|] eqn:D; [|discriminate]. cbn.
  destruct (scan_ld (skip_space s4)) as [[e0 s5]|] eqn:E; [|discriminate]. cbn.
  intros [= <- <- <- <- <- <-].
  apply scan_ld_range in A, B, C, D. auto.
Qed.

Lemma triangle_records_spec n :
  forall s recs r,
  triangle_records n s = Some (recs, r) ->
  length recs = n /\
  Forall (fun '(a, b, c) => is_long a /\ is_long b /\ is_long c) recs.
Proof.
  induction n as [|n IH]; intros s recs r R; cbn [triangle_records] in R.
  - injection R as <- <-. split; [reflexivity | constructor].
  - destruct (fscanf_ld_ld_ld_ld s) as [[[[[a b] c] e] r1]|] eqn:Sc; [|discriminate].
    destruct (triangle_records n r1) as [[recs' r']|] eqn:R'; [|discriminate].
    injection R as <- <-. apply IH in R' as [L W].
    apply fscanf_ld_ld_ld_ld_range in Sc.
    split; [simpl; lia | constructor; assumption].
Qed.

Lemma tetrahedra_records_spec n :
  forall s recs r,
  tetrahedra_records n s = Some (recs, r) ->
  length recs = n /\
  Forall (fun '(a, b, c, d) => is_long a /\ is_long b /\ is_long c /\ is_long d)
    recs.
Proof.
  induction n as [|n IH]; intros s recs r R; cbn [tetrahedra_records] in R.
  - injection R as <- <-. split; [reflexivity | constructor].
  - destruct (fscanf_ld_ld_ld_ld_ld s) as [[[[[[a b] c] d] e] r1]|] eqn:Sc;
      [|discriminate].
    destruct (tetrahedra_records n r1) as [[recs' r']|] eqn:R'; [|discriminate].
    injection R as <- <-. apply IH in R' as [L W].
    apply fscanf_ld_ld_ld_ld_ld_range in Sc.
    split; [simpl; lia | constructor; assumption].
Qed.

(** For an index of at least 1 neither the reading as [size_t] nor the
    subtraction wraps: what is stored is the index minus one. *)
Lemma stored_exact k :
  is_long k -> 1 <= k -> stored k = of_size_t (k - 1).
Proof.
  unfold is_long, LONG_MAX, stored, size_t_sub, to_size_t. intros R P.
  rewrite (Z.mod_small k) by lia. rewrite Z.mod_small by lia. reflexivity.
Qed.

(** A file of nothing but such lines keeps the first comment loop running
    for ever. *)
Lemma eat_comments_skipped_lines ls :
  Forall (fun c => skipped_line c = true) ls ->
  forall f (m : vars),
    still_comments m = true \/ ls <> [] ->
    eat_comments f (concat ls) m = Still_looping.
Proof.
  induction 1 as [|c ls Hc Hls IH]; intros f m D.
  - destruct D as [D|D]; [|congruence]. apply eat_comments_eof, D.
  - destruct f as [|f]; [reflexivity|].
    rewrite eat_comments_unfold. unfold fgets_line. cbn [concat].
    rewrite (fgets_skipped_line _ _ Hc), (still_comments_skipped_line _ _ Hc).
    apply IH. left. apply still_comments_skipped_line, Hc.
Qed.

Lemma readMESH_skipped_lines_only_loops ls f (m0 : vars) :
  Forall (fun c => skipped_line c = true) ls -> ls <> [] ->
  readMESH f (Some (concat ls)) m0 = Still_looping.
Proof.
  intros Hls N. unfold readMESH. rewrite run_from_Keyword. unfold read_keyword.
  rewrite eat_comments_skipped_lines; auto.
Qed.

(** ** Three calls *)

(** C1 (the code leaves the file open on one path).  On
    [short_triangle_mesh] the call returns false from the triangle loop
    (lines 198-202), which has no [fclose]: the file is still open when
    the caller gets control back. *)
Theorem readMESH_leaves_file_open (m0 : vars) :
  exists m,
    readMESH 2 (Some short_triangle_mesh) m0 = Return false m /\
    mesh_file_open m = true /\
    printed m = printed m0 ++ [Stdout_expecting_triangle_indices].
Proof. eexists. split; [vm_compute; reflexivity|]. split; reflexivity. Qed.

(** C3.  The example file is read with success: four vertices with the
    coordinates (0,0,0), (1,0,0), (0,1,0), (0,0,1), the face [0,1,2] and
    the tetrahedron [0,1,2,3]; nothing is printed and the file is closed.
    Two iterations of each comment loop are enough, and more change
    nothing. *)
Theorem readMESH_example_mesh (fuel : nat) (m0 : vars) :
  let d n := of_double (Finite false n 10 0) in
  exists m,
    readMESH (S (S fuel)) (Some example_mesh) m0 = Return true m /\
    V m = [[d 0; d 0; d 0]; [d 1; d 0; d 0]; [d 0; d 1; d 0]; [d 0; d 0; d 1]] /\
    F m = [[of_size_t 0; of_size_t 1; of_size_t 2]] /\
    T m = [[of_size_t 0; of_size_t 1; of_size_t 2; of_size_t 3]] /\
    printed m = printed m0 /\
    mesh_file_open m = false.
Proof.
  intros d. eexists. split.
  - apply (readMESH_mono 2); [vm_compute; reflexivity | discriminate | lia].
  - repeat split; reflexivity.
Qed.

(** C9 (the code does not terminate on this file).  On a file that is one
    comment line the first comment loop never ends: whatever number of
    iterations it is given, it is still running. *)
Theorem readMESH_comment_only_loops (fuel : nat) (m0 : vars) :
  readMESH fuel (Some comment_only) m0 = Still_looping.
Proof.
  destruct fuel as [|f]; [reflexivity|].
  unfold readMESH, run_from. cbn [blocks_from sections_from map concat blocks_of app run block].
  unfold read_keyword. rewrite eat_comments_unfold.
  replace (fgets_line comment_only (clear (set_open true m0)))
    with (@nil ascii, set_line comment_only (clear (set_open true m0)))
    by (vm_compute; reflexivity).
  cbn [still_comments line set_line comment_only unlines map concat lit
       list_ascii_of_string app].
  cbn. rewrite eat_comments_eof; reflexivity.
Qed.

(** ** Records, added lines and the numbers after the keywords *)

(** C5, as the code has it.  When the vertex loop is entered with a count
    of N and the text holds [n < N] complete records followed by nothing
    but white space, the call prints "Error: expecting vertex position...",
    closes the file and returns false.  The message names no record, and
    the caller's vectors are not emptied: [V] holds N rows, the [n]
    records read and then rows of zeros; [T] and [F] are empty. *)
Theorem readMESH_truncated_vertices f mesh_file (m0 : vars) s m n recs r :
  reaches (Records Vertices) f mesh_file m0 s m ->
  vertex_records n s = Some (recs, r) ->
  skip_space r = [] ->
  (n < Z.to_nat (number_of_vertices m))%nat ->
  exists m',
    readMESH f (Some mesh_file) m0 = Return false m' /\
    V m' = map vertex_row recs ++
           replicate (Z.to_nat (number_of_vertices m) - n) (zeros 3) /\
    T m' = [] /\ F m' = [] /\
    printed m' = printed m0 ++ [Error_expecting_vertex_position] /\
    mesh_file_open m' = false.
Proof.
  intros Re Rs Eof Lt.
  rewrite (reaches_run_from _ _ _ _ _ _ Re), run_from_Records_Vertices.
  apply reaches_Records_Vertices in Re as (Rn & HV & HT & HF & HP & HO).
  set (N := Z.to_nat (number_of_vertices m)) in *.
  rewrite (read_vertex_records_prefix n N 0 s m recs r [] (replicate N (zeros 3)) Rs);
    [ | exact HV | reflexivity | apply Forall_replicate; reflexivity | lia
      | rewrite length_replicate; lia ].
  destruct (N - n)%nat as [|k] eqn:K; [lia|].
  cbn [read_vertex_records]. rewrite (fscanf_lg_lg_lg_ld_end _ Eof).
  cbn [bind stop app]. eexists. split; [reflexivity|].
  cbn. rewrite drop_replicate, K. repeat split; congruence.
Qed.

(** C2.  Let a call return.  If the triangle loop was entered with at
    least [n] triangles announced and the text gives [n] records there,
    then the row of [F] with a record's number has three entries, and for
    every index of the record that is at least 1 the entry is that index
    minus one (as an [Index]); the same for the tetrahedra loop, [T] and
    four indices. *)
Theorem readMESH_stores_index_minus_one f mesh_file (m0 : vars) ret m' :
  readMESH f (Some mesh_file) m0 = Return ret m' ->
  (forall s m n recs r (i : nat) a b c,
     reaches (Records Triangles) f mesh_file m0 s m ->
     triangle_records n s = Some (recs, r) ->
     (n <= Z.to_nat (number_of_triangles m))%nat ->
     recs !! i = Some (a, b, c) ->
     exists x y z,
       F m' !! i = Some [x; y; z] /\
       (1 <= a -> x = of_size_t (a - 1)) /\
       (1 <= b -> y = of_size_t (b - 1)) /\
       (1 <= c -> z = of_size_t (c - 1)))
  /\
  (forall s m n recs r (i : nat) a b c d,
     reaches (Records Tetrahedra) f mesh_file m0 s m ->
     tetrahedra_records n s = Some (recs, r) ->
     (n <= Z.to_nat (number_of_tetrahedra m))%nat ->
     recs !! i = Some (a, b, c, d) ->
     exists x y z t,
       T m' !! i = Some [x; y; z; t] /\
       (1 <= a -> x = of_size_t (a - 1)) /\
       (1 <= b -> y = of_size_t (b - 1)) /\
       (1 <= c -> z = of_size_t (c - 1)) /\
       (1 <= d -> t = of_size_t (d - 1))).
Proof.
  intros Ret. split.
  - intros s m n recs r i a b c Re Rs Le Hi.
    exists (stored a), (stored b), (stored c).
    rewrite (reaches_run_from _ _ _ _ _ _ Re), run_from_Records_Triangles in Ret.
    apply reaches_Records_Triangles in Re as (Rn & HF).
    set (N := Z.to_nat (number_of_triangles m)) in *.
    rewrite (read_triangle_records_prefix n N 0 s m recs r []
               (replicate N (zeros 3)) Rs) in Ret;
      [ | exact HF | reflexivity | apply Forall_replicate; reflexivity | lia
        | rewrite length_replicate; lia ].
    apply triangle_records_spec in Rs as [Ln Rg].
    pose proof (lookup_lt_Some _ _ _ Hi) as Li.
    assert (Hrow : forall v,
      take n v = take n (map triangle_row recs ++ drop n (replicate N (zeros 3))) ->
      v !! i = Some [stored a; stored b; stored c]).
    { intros v Tk.
      rewrite <- (lookup_take_lt v n i) by lia. rewrite Tk.
      rewrite lookup_take_lt by lia.
      rewrite lookup_app_l by (rewrite length_map; lia).
      rewrite list_lookup_fmap, Hi. reflexivity. }
    rewrite Forall_forall in Rg.
    apply list_elem_of_lookup_2 in Hi. apply Rg in Hi. cbn in Hi.
    destruct Hi as (Ra & Rb & Rc).
    split; [|split; [|split]]; try (intros P; apply stored_exact; assumption).
    match type of Ret with bind (read_triangle_records ?k ?j r ?m2) _ = _ =>
      pose proof (read_triangle_records_form k j r m2) as Fo;
      destruct (read_triangle_records k j r m2) as [[s3 m3]|b3 m3|m3|]
    end; cbn [bind] in Ret; try contradiction.
    + destruct Fo as (v & -> & _ & Tk & _).
      pose proof (run_from_frame _ _ _ _ m' (f_equal final_vars Ret)) as (_ & Ff & _).
      destruct (Ff eq_refl) as [Ff1 _]. rewrite Ff1. cbn [F set_F].
      apply Hrow. exact Tk.
    + injection Ret as -> <-. destruct Fo as (_ & v & -> & _ & Tk).
      cbn [F set_F print]. apply Hrow. exact Tk.
  - intros s m n recs r i a b c d Re Rs Le Hi.
    exists (stored a), (stored b), (stored c), (stored d).
    rewrite (reaches_run_from _ _ _ _ _ _ Re), run_from_Records_Tetrahedra in Ret.
    apply reaches_Records_Tetrahedra in Re as (Rn & HT).
    set (N := Z.to_nat (number_of_tetrahedra m)) in *.
    rewrite (read_tetrahedra_records_prefix n N 0 s m recs r []
               (replicate N (zeros 4)) Rs) in Ret;
      [ | exact HT | reflexivity | apply Forall_replicate; reflexivity | lia
        | rewrite length_replicate; lia ].
    apply tetrahedra_records_spec in Rs as [Ln Rg].
    pose proof (lookup_lt_Some _ _ _ Hi) as Li.
    assert (Hrow : forall v,
      take n v = take n (map tetrahedron_row recs ++ drop n (replicate N (zeros 4))) ->
      v !! i = Some [stored a; stored b; stored c; stored d]).
    { intros v Tk.
      rewrite <- (lookup_take_lt v n i) by lia. rewrite Tk.
      rewrite lookup_take_lt by lia.
      rewrite lookup_app_l by (rewrite length_map; lia).
      rewrite list_lookup_fmap, Hi. reflexivity. }
    rewrite Forall_forall in Rg.
    apply list_elem_of_lookup_2 in Hi. apply Rg in Hi. cbn in Hi.
    destruct Hi as (Ra & Rb & Rc & Rd).
    split; [|split; [|split; [|split]]];
      try (intros P; apply stored_exact; assumption).
    match type of Ret with bind (read_tetrahedra_records ?k ?j r ?m2) _ = _ =>
      pose proof (read_tetrahedra_records_form k j r m2) as Fo;
      destruct (read_tetrahedra_records k j r m2) as [[s3 m3]|b3 m3|m3|]
    end; cbn [bind] in Ret; try contradiction.
    + destruct Fo as (v & -> & _ & Tk & _). injection Ret as _ <-.
      cbn. apply Hrow. exact Tk.
    + injection Ret as -> <-. destruct Fo as (_ & v & -> & _ & Tk).
      cbn. apply Hrow. exact Tk.
Qed.

(** C4, as the code has it.  Lines that are empty or start with [#] (and
    fit the line buffer) may be added where a comment loop starts to read,
    that is in front of the line of a section keyword: the call ends the
    same way.  In front of a count, and in front of a record, white space
    (empty lines among it) may be added.  A [#] line in those places is
    not skipped. *)
Theorem readMESH_skipped_lines_and_white_space
    sec (c w s : list ascii) (m : vars) :
  skipped_line c = true ->
  forallb isspace w = true ->
  s <> [] ->
  (forall r,
     ends_with (fun f => run_from (Keyword sec) f (c ++ s) m) r <->
     ends_with (fun f => run_from (Keyword sec) f s m) r) /\
  (has_records sec = true ->
   forall f, run_from (Number sec) f (w ++ s) m = run_from (Number sec) f s m) /\
  (forall k i,
     read_vertex_records (S k) i (w ++ s) m = read_vertex_records (S k) i s m /\
     read_triangle_records (S k) i (w ++ s) m =
       read_triangle_records (S k) i s m /\
     read_tetrahedra_records (S k) i (w ++ s) m =
       read_tetrahedra_records (S k) i s m).
Proof.
  intros Hc Hw Hs. split; [|split].
  - intros r. apply run_from_skipped_line; assumption.
  - intros Hr f. apply run_from_Number_space; assumption.
  - intros k i. split; [|split].
    + apply read_vertex_records_space, Hw.
    + apply read_triangle_records_space, Hw.
    + apply read_tetrahedra_records_space, Hw.
Qed.

Lemma skip_space_idem s : skip_space (skip_space s) = skip_space s.
Proof.
  induction s as [|x s IH]; [reflexivity|]. cbn [skip_space].
  destruct (isspace x) eqn:E; [exact IH|]. cbn [skip_space]. rewrite E. reflexivity.
Qed.

Lemma scan_integer_skip_space s : scan_integer (skip_space s) = scan_integer s.
Proof. unfold scan_integer. rewrite skip_space_idem. reflexivity. Qed.

Lemma scan_integer_None s :
  scan_integer s = None <-> begins_with_integer s = false.
Proof.
  unfold scan_integer, begins_with_integer.
  destruct (scan_sign (skip_space s)) as [neg s1]. cbn [snd].
  destruct (starts_with_digit s1); [|tauto].
  destruct (scan_digits 0 s1). split; discriminate.
Qed.

Lemma block_Number_count f s (m : vars) :
  (scan_integer s = None <-> begins_with_integer s = false) /\
  match scan_integer s with
  | None =>
      block (Number Vertices) f s m =
        Return false (fclose (print Error_expecting_number_of_vertices m)) /\
      block (Number Triangles) f s m =
        Return false (fclose (print Error_expecting_number_of_triangles m)) /\
      block (Number Tetrahedra) f s m =
        Return false (fclose (print Error_expecting_number_of_tetrahedra m))
  | Some (k, r) =>
      let n := to_size_t (clamp_long k) in
      block (Number Vertices) f s m =
        (if max_size <? n then Length_error (set_number_of_vertices n m)
         else Next (r, set_V (replicate (Z.to_nat n) (zeros 3))
                         (set_number_of_vertices n m))) /\
      block (Number Triangles) f s m =
        (if max_size <? n then Length_error (set_number_of_triangles n m)
         else Next (r, set_F (replicate (Z.to_nat n) (zeros 3))
                         (set_number_of_triangles n m))) /\
      block (Number Tetrahedra) f s m =
        (if max_size <? n then Length_error (set_number_of_tetrahedra n m)
         else Next (r, set_T (replicate (Z.to_nat n) (zeros 4))
                         (set_number_of_tetrahedra n m)))
  end.
Proof.
  split; [apply scan_integer_None|].
  cbn [block]. unfold read_number_of_vertices, read_number_of_triangles,
    read_number_of_tetrahedra, read_count, scan_ld, resize.
  rewrite scan_integer_skip_space.
  destruct (scan_integer s) as [[k r]|]; cbn.
  - destruct (max_size <? to_size_t (clamp_long k)); repeat split; reflexivity.
  - repeat split; reflexivity.
Qed.

(** ** The number on the keyword's line, or after it *)

Lemma isdigit_range c : isdigit c = true -> 48 <= code c <= 57.
Proof.
  unfold isdigit. intros H. apply andb_true_iff in H as [L U].
  apply Z.leb_le in L, U. lia.
Qed.

Lemma isdigit_not_space c : isdigit c = true -> isspace c = false.
Proof.
  intros D. apply isdigit_range in D. unfold isspace.
  apply orb_false_iff. split; [apply Z.eqb_neq; lia|].
  apply andb_false_iff. right. apply Z.leb_gt. lia.
Qed.

Lemma isdigit_not_sign c :
  isdigit c = true -> (c =? "-")%char = false /\ (c =? "+")%char = false.
Proof.
  intros D. split.
  - destruct (c =? "-")%char eqn:E; [|reflexivity].
    apply Ascii.eqb_eq in E. subst c. discriminate D.
  - destruct (c =? "+")%char eqn:E; [|reflexivity].
    apply Ascii.eqb_eq in E. subst c. discriminate D.
Qed.

Lemma denoted_nonneg ds : forallb isdigit ds = true -> 0 <= denoted ds.
Proof.
  induction ds as [|d ds IH]; cbn [forallb denoted]; [lia|].
  intros H. apply andb_true_iff in H as [D H]. apply isdigit_range in D.
  specialize (IH H). unfold digit_val.
  assert (0 <= 10 ^ Z.of_nat (length ds)) by (apply Z.pow_nonneg; lia). nia.
Qed.

(** The digits are read from the left, and what has been read is worth ten
    times more with every digit that follows. *)
Lemma scan_digits_numeral ds :
  forall acc rest,
    forallb isdigit ds = true -> ends_numeral rest = true ->
    scan_digits acc (ds ++ rest) =
    (acc * 10 ^ Z.of_nat (length ds) + denoted ds, rest).
Proof.
  induction ds as [|d ds IH]; intros acc rest D En.
  - cbn [app length denoted]. replace (acc * 10 ^ Z.of_nat 0 + 0) with acc by (cbn; lia).
    destruct rest as [|c r]; [reflexivity|].
    unfold ends_numeral in En. cbn [starts_with_digit] in En.
    apply negb_true_iff in En. cbn [scan_digits]. rewrite En. reflexivity.
  - cbn [forallb] in D. apply andb_true_iff in D as [Dd D].
    cbn [app scan_digits]. rewrite Dd, (IH _ _ D En). f_equal.
    cbn [length denoted]. rewrite Nat2Z.inj_succ, Z.pow_succ_r by lia. ring.
Qed.

Lemma scan_integer_numeral sp ds rest :
  blank sp = true -> numeral ds = true -> ends_numeral rest = true ->
  scan_integer (sp ++ ds ++ rest) = Some (denoted ds, rest).
Proof.
  intros B N En. unfold scan_integer. rewrite (skip_space_app _ _ B).
  destruct ds as [|d ds]; [discriminate|]. unfold numeral in N.
  pose proof N as D. cbn [forallb] in D. apply andb_true_iff in D as [Dd _].
  cbn [app skip_space]. rewrite (isdigit_not_space _ Dd).
  unfold scan_sign. destruct (isdigit_not_sign _ Dd) as [-> ->].
  cbn [starts_with_digit]. rewrite Dd.
  change (d :: ds ++ rest) with ((d :: ds) ++ rest).
  rewrite (scan_digits_numeral _ 0 rest N En). reflexivity.
Qed.

Lemma to_int_small v : 0 <= v <= INT_MAX -> to_int (clamp_long v) = v.
Proof.
  unfold INT_MAX, to_int, clamp_long, LONG_MIN, LONG_MAX. intros R.
  rewrite Z.min_r, Z.max_r by lia. rewrite Z.mod_small by lia. lia.
Qed.

Lemma scan_d_numeral sp ds rest :
  blank sp = true -> numeral ds = true -> denoted ds <= INT_MAX ->
  ends_numeral rest = true ->
  scan_d (sp ++ ds ++ rest) = Some (denoted ds, rest).
Proof.
  intros B N Le En. unfold scan_d. rewrite (scan_integer_numeral _ _ _ B N En).
  cbn [mbind option_bind]. rewrite to_int_small; [reflexivity|].
  split; [|exact Le]. apply denoted_nonneg.
  destruct ds; [discriminate|exact N].
Qed.

Lemma skip_space_no_number r : no_number r = true -> skip_space r = r.
Proof.
  destruct r as [|c r]; [reflexivity|]. cbn [no_number skip_space]. intros H.
  apply andb_true_iff in H as [H _]. apply andb_true_iff in H as [H _].
  apply negb_true_iff in H. rewrite H. reflexivity.
Qed.

Lemma scan_integer_no_number sp r :
  blank sp = true -> no_number r = true -> scan_integer (sp ++ r) = None.
Proof.
  intros B N. unfold scan_integer.
  rewrite (skip_space_app _ _ B), (skip_space_no_number _ N).
  destruct r as [|c r]; [reflexivity|]. cbn [no_number] in N.
  apply andb_true_iff in N as [N Sg]. apply andb_true_iff in N as [_ Dg].
  apply negb_true_iff in Dg, Sg. unfold scan_sign.
  destruct (c =? "-")%char; [cbn in Sg; rewrite Sg; reflexivity|].
  destruct (c =? "+")%char; [cbn in Sg; rewrite Sg; reflexivity|].
  cbn [starts_with_digit]. rewrite Dg. reflexivity.
Qed.

Lemma scan_d_no_number sp r :
  blank sp = true -> no_number r = true -> scan_d (sp ++ r) = None.
Proof.
  intros B N. unfold scan_d. rewrite (scan_integer_no_number _ _ B N). reflexivity.
Qed.

Lemma scan_d_skip_space s : scan_d (skip_space s) = scan_d s.
Proof. unfold scan_d. rewrite scan_integer_skip_space. reflexivity. Qed.

Lemma span_word_word w :
  forall tl,
    forallb (fun c => negb (isspace c)) w = true ->
    match tl with [] => true | c :: _ => isspace c end = true ->
    span_word (w ++ tl) = (w, tl).
Proof.
  induction w as [|x w IH]; intros tl W Tl.
  - destruct tl as [|c tl]; [reflexivity|]. cbn [app span_word]. rewrite Tl.
    reflexivity.
  - cbn [forallb] in W. apply andb_true_iff in W as [X W].
    apply negb_true_iff in X. cbn [app span_word]. rewrite X, (IH _ W Tl).
    reflexivity.
Qed.

(** [%s] on white space, a word, and then the end or white space. *)
Lemma scan_s_word sp w tl :
  blank sp = true -> is_word w = true ->
  match tl with [] => true | c :: _ => isspace c end = true ->
  scan_s (sp ++ w ++ tl) = Some (w, tl).
Proof.
  intros B W Tl. unfold scan_s. rewrite (skip_space_app _ _ B).
  destruct w as [|x w]; [discriminate|]. unfold is_word in W.
  pose proof W as X. cbn [forallb] in X. apply andb_true_iff in X as [X _].
  apply negb_true_iff in X. cbn [app skip_space]. rewrite X.
  change (x :: w ++ tl) with ((x :: w) ++ tl).
  rewrite (span_word_word _ _ W Tl). reflexivity.
Qed.

Lemma sscanf_s_d_unfold l :
  sscanf_s_d l =
  match scan_s l with
  | Some (w, r) => Some (w, fst <$> scan_d (skip_space r))
  | None => None
  end.
Proof. unfold sscanf_s_d. destruct (scan_s l) as [[w r]|]; reflexivity. Qed.

Lemma blank_starts sp1 (tl : list ascii) :
  blank sp1 = true -> sp1 <> [] ->
  match sp1 ++ tl with [] => true | c :: _ => isspace c end = true.
Proof.
  intros B N. destruct sp1 as [|c sp1]; [congruence|].
  cbn [blank forallb] in B. apply andb_true_iff in B as [B _]. exact B.
Qed.

(** [sscanf(line, "%s %d", ...)] returns 2 on a line with a word and a
    numeral after it. *)
Lemma sscanf_s_d_both_there sp0 w sp1 ds rest :
  blank sp0 = true -> is_word w = true ->
  sp1 <> [] -> blank sp1 = true -> numeral ds = true ->
  denoted ds <= INT_MAX -> ends_numeral rest = true ->
  sscanf_s_d (sp0 ++ w ++ sp1 ++ ds ++ rest) = Some (w, Some (denoted ds)).
Proof.
  intros B0 W N1 B1 Nu Le En.
  rewrite sscanf_s_d_unfold, (scan_s_word _ _ _ B0 W (blank_starts _ _ B1 N1)).
  rewrite scan_d_skip_space, (scan_d_numeral _ _ _ B1 Nu Le En). reflexivity.
Qed.

(** It returns 1 on a line with a word and no number after it. *)
Lemma sscanf_s_d_word_alone sp0 w sp1 junk :
  blank sp0 = true -> is_word w = true ->
  blank sp1 = true -> (junk <> [] -> sp1 <> []) -> no_number junk = true ->
  sscanf_s_d (sp0 ++ w ++ sp1 ++ junk) = Some (w, None).
Proof.
  intros B0 W B1 Sep Nn.
  assert (Tl : match sp1 ++ junk with [] => true | c :: _ => isspace c end = true).
  { destruct sp1 as [|c sp1]; [|apply blank_starts; [exact B1|discriminate]].
    destruct junk as [|c junk]; [reflexivity|]. destruct (Sep ltac:(discriminate) eq_refl). }
  rewrite sscanf_s_d_unfold, (scan_s_word _ _ _ B0 W Tl).
  rewrite scan_d_skip_space, (scan_d_no_number _ _ B1 Nn). reflexivity.
Qed.

Lemma number_after_wanted sec want e next :
  number_after sec = Some (want, e, next) ->
  want <> -1 /\
  forall f s (m : vars),
    block (Number sec) f s m = read_keyword_value e want s m /\
    forall s' (m' : vars),
      run_from (Records sec) f s' m' = run_from (Keyword next) f s' m'.
Proof.
  destruct sec; cbn [number_after]; intros [= <- <- <-];
    (split; [lia|]); intros f s m; split; reflexivity.
Qed.

(** C7.  Let control be at the number after MeshVersionFormatted or
    Dimension, the line of the keyword in [line]: white space, a word,
    and more.  (1) When a numeral follows the word on that line, it is the
    number taken, and nothing is read from the stream.  (2) When no number
    follows the word on the line, the number taken is the numeral that the
    stream holds next, after any white space, and the stream is read up to
    the end of that numeral.  (3) When the stream has no number there
    either, the number is the -1 the variable was set to.  The call goes
    on with the keyword of the next section when the number taken is 1
    (for Dimension: 3), and else prints the number in the message of the
    keyword, closes the file and returns false.  Numerals are decimal
    digits denoting at most [INT_MAX]. *)
Theorem readMESH_value_same_line_first sec want e next f mesh_file
    (m0 : vars) s m sp0 w :
  number_after sec = Some (want, e, next) ->
  reaches (Number sec) f mesh_file m0 s m ->
  blank sp0 = true -> is_word w = true ->
  let go v r :=
    if v =? want then run_from (Keyword next) f r (set_str w m)
    else Return false (fclose (print (e v) (set_str w m))) in
  (forall sp1 ds rest,
     line m = sp0 ++ w ++ sp1 ++ ds ++ rest ->
     sp1 <> [] -> blank sp1 = true ->
     numeral ds = true -> denoted ds <= INT_MAX -> ends_numeral rest = true ->
     readMESH f (Some mesh_file) m0 = go (denoted ds) s) /\
  (forall sp1 junk sp2 ds rest,
     line m = sp0 ++ w ++ sp1 ++ junk ->
     blank sp1 = true -> (junk <> [] -> sp1 <> []) -> no_number junk = true ->
     s = sp2 ++ ds ++ rest -> blank sp2 = true ->
     numeral ds = true -> denoted ds <= INT_MAX -> ends_numeral rest = true ->
     readMESH f (Some mesh_file) m0 = go (denoted ds) rest) /\
  (forall sp1 junk sp2 rest,
     line m = sp0 ++ w ++ sp1 ++ junk ->
     blank sp1 = true -> (junk <> [] -> sp1 <> []) -> no_number junk = true ->
     s = sp2 ++ rest -> blank sp2 = true -> no_number rest = true ->
     readMESH f (Some mesh_file) m0 =
     Return false (fclose (print (e (-1)) (set_str w m)))).
Proof.
  intros Na Re B0 W go.
  destruct (number_after_wanted _ _ _ _ Na) as [Ne Bl].
  rewrite (reaches_run_from _ _ _ _ _ _ Re), run_from_Number.
  destruct (Bl f s m) as [-> Nx]. unfold read_keyword_value.
  split; [|split].
  - intros sp1 ds rest L N1 B1 Nu Le En.
    rewrite L, (sscanf_s_d_both_there _ _ _ _ _ B0 W N1 B1 Nu Le En).
    unfold go. destruct (denoted ds =? want); cbn [bind stop]; [apply Nx|reflexivity].
  - intros sp1 junk sp2 ds rest L B1 Sep Nn -> B2 Nu Le En.
    rewrite L, (sscanf_s_d_word_alone _ _ _ _ B0 W B1 Sep Nn).
    rewrite scan_d_skip_space, (scan_d_numeral _ _ _ B2 Nu Le En).
    unfold go. destruct (denoted ds =? want); cbn [bind stop]; [apply Nx|reflexivity].
  - intros sp1 junk sp2 rest L B1 Sep Nn -> B2 Nr.
    rewrite L, (sscanf_s_d_word_alone _ _ _ _ B0 W B1 Sep Nn).
    rewrite scan_d_skip_space, (scan_d_no_number _ _ B2 Nr).
    destruct (-1 =? want) eqn:E; [apply Z.eqb_eq in E; congruence|]. reflexivity.
Qed.

(** C8, as the code has it.  A count is what [%ld] converts: white space,
    an optional sign and digits, whatever follows them.  Each of the three
    places prints its message, closes the file and returns false exactly
    when the text does not begin so; [V], [T] and [F] then hold what the
    sections before have stored.  A negative number is taken as the
    unsigned number with the same 64 bits, and a count above [max_size]
    ends the call with the exception of [resize]. *)
Theorem readMESH_count_is_what_ld_converts f mesh_file (m0 : vars) s m :
  (scan_integer s = None <-> begins_with_integer s = false) /\
  (reaches (Number Vertices) f mesh_file m0 s m ->
   readMESH f (Some mesh_file) m0 =
     match scan_integer s with
     | None => Return false (fclose (print Error_expecting_number_of_vertices m))
     | Some (k, r) =>
         let n := to_size_t (clamp_long k) in
         if max_size <? n then Length_error (set_number_of_vertices n m)
         else run_from (Records Vertices) f r
                (set_V (replicate (Z.to_nat n) (zeros 3))
                   (set_number_of_vertices n m))
     end) /\
  (reaches (Number Triangles) f mesh_file m0 s m ->
   readMESH f (Some mesh_file) m0 =
     match scan_integer s with
     | None => Return false (fclose (print Error_expecting_number_of_triangles m))
     | Some (k, r) =>
         let n := to_size_t (clamp_long k) in
         if max_size <? n then Length_error (set_number_of_triangles n m)
         else run_from (Records Triangles) f r
                (set_F (replicate (Z.to_nat n) (zeros 3))
                   (set_number_of_triangles n m))
     end) /\
  (reaches (Number Tetrahedra) f mesh_file m0 s m ->
   readMESH f (Some mesh_file) m0 =
     match scan_integer s with
     | None => Return false (fclose (print Error_expecting_number_of_tetrahedra m))
     | Some (k, r) =>
         let n := to_size_t (clamp_long k) in
         if max_size <? n then Length_error (set_number_of_tetrahedra n m)
         else run_from (Records Tetrahedra) f r
                (set_T (replicate (Z.to_nat n) (zeros 4))
                   (set_number_of_tetrahedra n m))
     end).
Proof.
  destruct (block_Number_count f s m) as [B0 B].
  split; [exact B0|].
  split; [|split]; intros Re;
    rewrite (reaches_run_from _ _ _ _ _ _ Re), run_from_Number;
    destruct (scan_integer s) as [[k r]|]; cbn zeta in B;
    destruct B as (B1 & B2 & B3); rewrite ?B1, ?B2, ?B3; try reflexivity;
    cbn zeta; destruct (max_size <? to_size_t (clamp_long k)); reflexivity.
Qed.

(** ** A call that returns true *)

Lemma block_Return_false l f s (m : vars) b m' :
  block l f s m = Return b m' -> b = false.
Proof.
  intros E. destruct l as [sec|sec|sec].
  - pose proof (read_keyword_form sec f s m) as Fo. cbn [block] in E.
    rewrite E in Fo. tauto.
  - destruct sec; cbn [block] in E.
    + pose proof (read_keyword_value_form Error_second_word 1 s m) as Fo.
      rewrite E in Fo. tauto.
    + pose proof (read_keyword_value_form Error_only_Dimension_3 3 s m) as Fo.
      rewrite E in Fo. tauto.
    + pose proof (read_number_of_vertices_form s m) as Fo. rewrite E in Fo. tauto.
    + pose proof (read_number_of_triangles_form s m) as Fo. rewrite E in Fo. tauto.
    + pose proof (read_number_of_tetrahedra_form s m) as Fo. rewrite E in Fo. tauto.
  - destruct sec; cbn [block] in E; try discriminate.
    + pose proof (read_vertex_records_form
        (Z.to_nat (number_of_vertices m)) 0 s m) as Fo. rewrite E in Fo. tauto.
    + pose proof (read_triangle_records_form
        (Z.to_nat (number_of_triangles m)) 0 s m) as Fo. rewrite E in Fo. tauto.
    + pose proof (read_tetrahedra_records_form
        (Z.to_nat (number_of_tetrahedra m)) 0 s m) as Fo. rewrite E in Fo. tauto.
Qed.

Lemma run_Return_false ls :
  forall f s (m : vars) b m', run ls f s m = Return b m' -> b = false.
Proof.
  induction ls as [|l ls IH]; intros f s m b m' E; [discriminate|].
  cbn [run] in E. destruct (block l f s m) as [[s1 m1]|b1 m1|m1|] eqn:B;
    cbn [bind] in E; try discriminate.
  - eapply IH, E.
  - injection E as -> ->. eapply block_Return_false, B.
Qed.

Lemma run_app_Next ls1 ls2 f s (m : vars) s' m' :
  run (ls1 ++ ls2) f s m = Next (s', m') ->
  exists s1 m1,
    run ls1 f s m = Next (s1, m1) /\ run ls2 f s1 m1 = Next (s', m').
Proof.
  rewrite run_app. intros E. apply bind_Next in E as ([s1 m1] & E1 & E2). eauto.
Qed.

(** A block that makes the function return has closed the file, unless
    it is the triangle loop with its message on stdout. *)
Lemma block_Return_open l f s (m : vars) b m' :
  block l f s m = Return b m' ->
  mesh_file_open m' = false \/
  (l = Records Triangles /\
   printed m' = printed m ++ [Stdout_expecting_triangle_indices] /\
   mesh_file_open m' = mesh_file_open m).
Proof.
  assert (St : forall m1, stopped m m1 -> mesh_file_open m1 = false).
  { intros m1 (e & m2 & _ & ->). reflexivity. }
  intros E. destruct l as [sec|sec|sec].
  - pose proof (read_keyword_form sec f s m) as Fo. cbn [block] in E.
    rewrite E in Fo. left. apply St, Fo.
  - destruct sec; cbn [block] in E.
    + pose proof (read_keyword_value_form Error_second_word 1 s m) as Fo.
      rewrite E in Fo. left. apply St, Fo.
    + pose proof (read_keyword_value_form Error_only_Dimension_3 3 s m) as Fo.
      rewrite E in Fo. left. apply St, Fo.
    + pose proof (read_number_of_vertices_form s m) as Fo. rewrite E in Fo.
      destruct Fo as [_ ->]. left. reflexivity.
    + pose proof (read_number_of_triangles_form s m) as Fo. rewrite E in Fo.
      destruct Fo as [_ ->]. left. reflexivity.
    + pose proof (read_number_of_tetrahedra_form s m) as Fo. rewrite E in Fo.
      destruct Fo as [_ ->]. left. reflexivity.
  - destruct sec; cbn [block] in E; try discriminate.
    + pose proof (read_vertex_records_form
        (Z.to_nat (number_of_vertices m)) 0 s m) as Fo. rewrite E in Fo.
      destruct Fo as (_ & v & -> & _). left. reflexivity.
    + pose proof (read_triangle_records_form
        (Z.to_nat (number_of_triangles m)) 0 s m) as Fo. rewrite E in Fo.
      destruct Fo as (_ & v & -> & _). right. auto.
    + pose proof (read_tetrahedra_records_form
        (Z.to_nat (number_of_tetrahedra m)) 0 s m) as Fo. rewrite E in Fo.
      destruct Fo as (_ & v & -> & _). left. reflexivity.
Qed.

(** Every return of a call that has opened the file finds the file
    closed, but for the return from the triangle loop. *)
Lemma readMESH_closes_file_elsewhere f mesh_file (m0 : vars) b m :
  readMESH f (Some mesh_file) m0 = Return b m ->
  mesh_file_open m = false \/
  (b = false /\ mesh_file_open m = true /\
   printed m = printed m0 ++ [Stdout_expecting_triangle_indices]).
Proof.
  unfold readMESH, run_from.
  generalize (blocks_from (Keyword MeshVersionFormatted)). intros ls.
  assert (G : forall ls s (m1 : vars) b m,
    run ls f s m1 = Return b m ->
    mesh_file_open m = false \/
    (b = false /\ mesh_file_open m = mesh_file_open m1 /\
     printed m = printed m1 ++ [Stdout_expecting_triangle_indices])).
  { clear. induction ls as [|l ls IH]; intros s m1 b m E; [discriminate|].
    cbn [run] in E. destruct (block l f s m1) as [[s2 m2]|b2 m2|m2|] eqn:B;
      cbn [bind] in E; try discriminate.
    - apply block_Next_quiet in B as [P O].
      apply IH in E as [E|(E1 & E2 & E3)]; [auto|]. right.
      rewrite E2, E3, P, O. auto.
    - injection E as -> ->. pose proof (block_Return_false _ _ _ _ _ _ B) as ->.
      apply block_Return_open in B as [B|(_ & B1 & B2)]; auto. }
  intros E.
  destruct (run ls f mesh_file _) as [[s1 m1]|b1 m1|m1|] eqn:R; cbn [bind] in E;
    try discriminate.
  - injection E as _ <-. left. reflexivity.
  - injection E as -> ->. apply G in R as [R|(R1 & R2 & R3)]; auto.
Qed.

(** The call returns true only from its last line, with every block
    passed. *)
Lemma readMESH_true f mesh_file (m0 m' : vars) :
  readMESH f mesh_file m0 = Return true m' ->
  exists file s m,
    mesh_file = Some file /\
    run (blocks_from (Keyword MeshVersionFormatted)) f file
      (clear (set_open true m0)) = Next (s, m) /\
    m' = fclose m.
Proof.
  destruct mesh_file as [file|]; [|discriminate].
  unfold readMESH, run_from. intros E.
  destruct (run _ f file _) as [[s m]|b m| |] eqn:R; cbn [bind] in E;
    try discriminate.
  - injection E as <-. exists file, s, m. auto.
  - injection E as -> ->. apply run_Return_false in R. discriminate.
Qed.

Lemma uniform_Forall {A} w (l : list (list A)) :
  Forall (fun r => length r = w) l -> uniform l = true.
Proof.
  intros W. destruct l as [|r l]; [reflexivity|].
  inversion W as [|? ? Hr Hl]; subst. cbn [uniform].
  apply forallb_forall. intros r' In'. apply Nat.eqb_eq.
  rewrite Forall_forall in Hl. apply Hl. apply list_elem_of_In. exact In'.
Qed.

(** C10.  When the call returns true, every row of [V] has 3 entries,
    every row of [F] 3 and every row of [T] 4, and the three vectors have
    as many rows as the counts that were read; so the rows of each are of
    one length, and [list_to_matrix] as the format description has it
    does not fail on them. *)
Theorem readMESH_true_is_rectangular f mesh_file (m0 m' : vars) :
  readMESH f mesh_file m0 = Return true m' ->
  (Forall (fun r => length r = 3%nat) (V m') /\
   Forall (fun r => length r = 3%nat) (F m') /\
   Forall (fun r => length r = 4%nat) (T m')) /\
  (Z.of_nat (length (V m')) = number_of_vertices m' /\
   Z.of_nat (length (F m')) = number_of_triangles m' /\
   Z.of_nat (length (T m')) = number_of_tetrahedra m') /\
  (forall {B C D} (cv : Scalar -> B) (cf : Index -> C) (ct : Index -> D) MV MF MT,
     fst (list_to_matrix cv (V m') MV) = true /\
     fst (list_to_matrix cf (F m') MF) = true /\
     fst (list_to_matrix ct (T m') MT) = true).
Proof.
  intros E. apply readMESH_true in E as (file & s & m & -> & R & ->).
  assert (HV : Forall (fun r => length r = 3%nat) (V m) /\
               Z.of_nat (length (V m)) = number_of_vertices m).
  { change (blocks_from (Keyword MeshVersionFormatted))
      with (blocks_before (Records Vertices) ++
            [Records Vertices] ++ blocks_from (Keyword Triangles)) in R.
    apply run_app_Next in R as (s1 & m1 & R1 & R).
    apply run_app_Next in R as (s2 & m2 & R2 & R).
    apply reaches_Records_Vertices in R1 as (Rn & H1 & _).
    cbn [run] in R2. apply bind_Next in R2 as ([s3 m3] & R2 & R3).
    injection R3 as <- <-. cbn [block] in R2.
    pose proof (read_vertex_records_form
      (Z.to_nat (number_of_vertices m1)) 0 s1 m1) as Fo.
    rewrite R2 in Fo. destruct Fo as (v & -> & L & _ & W).
    pose proof (run_frame _ _ _ _ m (f_equal vars_at_end R)) as (Fv & _).
    destruct (Fv eq_refl) as [-> ->]. cbn [V set_V number_of_vertices].
    rewrite H1 in L, W. rewrite length_replicate in L. split.
    - apply W, Forall_replicate. reflexivity.
    - rewrite L. lia. }
  assert (HF : Forall (fun r => length r = 3%nat) (F m) /\
               Z.of_nat (length (F m)) = number_of_triangles m).
  { change (blocks_from (Keyword MeshVersionFormatted))
      with (blocks_before (Records Triangles) ++
            [Records Triangles] ++ blocks_from (Keyword Tetrahedra)) in R.
    apply run_app_Next in R as (s1 & m1 & R1 & R).
    apply run_app_Next in R as (s2 & m2 & R2 & R).
    apply reaches_Records_Triangles in R1 as (Rn & H1).
    cbn [run] in R2. apply bind_Next in R2 as ([s3 m3] & R2 & R3).
    injection R3 as <- <-. cbn [block] in R2.
    pose proof (read_triangle_records_form
      (Z.to_nat (number_of_triangles m1)) 0 s1 m1) as Fo.
    rewrite R2 in Fo. destruct Fo as (v & -> & L & _ & W).
    pose proof (run_frame _ _ _ _ m (f_equal vars_at_end R)) as (_ & Ff & _).
    destruct (Ff eq_refl) as [-> ->]. cbn [F set_F number_of_triangles].
    rewrite H1 in L, W. rewrite length_replicate in L. split.
    - apply W, Forall_replicate. reflexivity.
    - rewrite L. lia. }
  assert (HT : Forall (fun r => length r = 4%nat) (T m) /\
               Z.of_nat (length (T m)) = number_of_tetrahedra m).
  { change (blocks_from (Keyword MeshVersionFormatted))
      with (blocks_before (Records Tetrahedra) ++ [Records Tetrahedra]) in R.
    apply run_app_Next in R as (s1 & m1 & R1 & R2).
    apply reaches_Records_Tetrahedra in R1 as (Rn & H1).
    cbn [run] in R2. apply bind_Next in R2 as ([s3 m3] & R2 & R3).
    injection R3 as <- <-. cbn [block] in R2.
    pose proof (read_tetrahedra_records_form
      (Z.to_nat (number_of_tetrahedra m1)) 0 s1 m1) as Fo.
    rewrite R2 in Fo. destruct Fo as (v & -> & L & _ & W).
    cbn [T set_T number_of_tetrahedra].
    rewrite H1 in L, W. rewrite length_replicate in L. split.
    - apply W, Forall_replicate. reflexivity.
    - rewrite L. lia. }
  destruct HV as [WV LV], HF as [WF LF], HT as [WT LT].
  change (V (fclose m)) with (V m). change (F (fclose m)) with (F m).
  change (T (fclose m)) with (T m).
  split; [auto|]. split; [auto|].
  intros B C D cv cf ct MV MF MT. unfold list_to_matrix.
  rewrite (uniform_Forall _ _ WV), (uniform_Forall _ _ WF), (uniform_Forall _ _ WT).
  auto.
Qed.

End Reader_facts.

(** * Properties of the overload *)

(** Lines 270-291 on any three vectors, with [list_to_matrix] as the
    format description has it: the vectors are converted one after the
    other, each straight into the caller's matrix, and the call returns
    false at the first one whose rows are not all of one length.  Rows of
    one length but not of the expected width are converted; the call then
    ends in the assert on the number of columns. *)
Lemma to_matrices_converts_in_order (cast : double -> Z)
    (vV vT vF : list (list double)) (VM : matrix double) (TM FM : matrix Z) :
  to_matrices (list_to_matrix (fun d => d)) (list_to_matrix cast)
    vV vT vF VM TM FM =
  if negb (uniform vV) then Eigen_return false VM TM FM
  else if negb (uniform vT) then
    Eigen_return false (matrix_of (fun d => d) vV) TM FM
  else if negb (uniform vF) then
    Eigen_return false (matrix_of (fun d => d) vV) (matrix_of cast vT) FM
  else if (cols (matrix_of (fun d => d) vV) =? 3) &&
          (cols (matrix_of cast vT) =? 4) && (cols (matrix_of cast vF) =? 3)
  then Eigen_return true (matrix_of (fun d => d) vV) (matrix_of cast vT)
         (matrix_of cast vF)
  else Assertion_fails.
Proof.
  unfold to_matrices, list_to_matrix.
  destruct (uniform vV); [|reflexivity].
  destruct (uniform vT); [|reflexivity].
  destruct (uniform vF); [|reflexivity].
  cbn [negb fst snd]. fold (matrix_of (fun d : double => d) vV).
  fold (matrix_of cast vT). fold (matrix_of cast vF).
  destruct (cols (matrix_of (fun d => d) vV) =? 3); [|reflexivity].
  destruct (cols (matrix_of cast vT) =? 4); [|reflexivity].
  destruct (cols (matrix_of cast vF) =? 3); reflexivity.
Qed.

(** * The reader at work *)

Lemma readMESH_stores_index_minus_one_example :
  (exists x y z,
     F example_result !! 0%nat = Some [x; y; z] /\
     (1 <= 1 -> x = of_size_t (1 - 1)) /\
     (1 <= 2 -> y = of_size_t (2 - 1)) /\
     (1 <= 3 -> z = of_size_t (3 - 1))) /\
  (exists x y z t,
     T example_result !! 0%nat = Some [x; y; z; t] /\
     (1 <= 1 -> x = of_size_t (1 - 1)) /\
     (1 <= 2 -> y = of_size_t (2 - 1)) /\
     (1 <= 3 -> z = of_size_t (3 - 1)) /\
     (1 <= 4 -> t = of_size_t (4 - 1))).
Proof.
  destruct (readMESH_stores_index_minus_one 2 example_mesh entry true
              example_result) as [HF HT]; [vm_compute; reflexivity|].
  split.
  - apply (HF (fst example_at_triangle_records)
              (snd example_at_triangle_records) 1%nat [(1, 2, 3)]
              (lit "" ++ [NL] ++ unlines (drop 11 example_lines)) 0%nat 1 2 3);
      [ vm_compute; reflexivity | vm_compute; reflexivity | vm_compute; lia
      | reflexivity ].
  - apply (HT (fst example_at_tetrahedra_records)
              (snd example_at_tetrahedra_records) 1%nat [(1, 2, 3, 4)]
              [NL] 0%nat 1 2 3 4);
      [ vm_compute; reflexivity | vm_compute; reflexivity | vm_compute; lia
      | reflexivity ].
Defined.

Lemma readMESH_skipped_lines_example :
  ends_with (fun f => readMESH f (Some (a_comment ++ example_mesh)) entry)
    (Return true example_result).
Proof.
  apply (proj1 (readMESH_skipped_lines_and_white_space MeshVersionFormatted
                  a_comment [NL] example_mesh (clear (set_open true entry))
                  ltac:(vm_compute; reflexivity) ltac:(vm_compute; reflexivity)
                  ltac:(vm_compute; discriminate))
               (Return true example_result)).
  split; [discriminate|]. exists 2%nat. vm_compute. reflexivity.
Defined.

(** C4 fails there: the example is read, the commented example is not. *)
Lemma readMESH_comment_between_vertices :
  ends_with (fun f => readMESH f (Some example_mesh) entry)
    (Return true example_result) /\
  ends_with (fun f => readMESH f (Some comment_between_vertices) entry)
    (Return false (result_of comment_between_vertices)) /\
  printed (result_of comment_between_vertices) =
    [Error_expecting_vertex_position].
Proof.
  split; [|split].
  - split; [discriminate|]. exists 2%nat. vm_compute. reflexivity.
  - split; [discriminate|]. exists 2%nat. vm_compute. reflexivity.
  - vm_compute. reflexivity.
Qed.

(** C5 fails there: the call returns false, the message carries no
    number, and the caller finds four rows in [V]. *)
Lemma readMESH_two_of_four_vertices :
  let d n := Finite false n 10 0 in
  ends_with (fun f => readMESH f (Some two_of_four_vertices) entry)
    (Return false (result_of two_of_four_vertices)) /\
  V (result_of two_of_four_vertices) =
    [[d 0; d 0; d 0]; [d 1; d 0; d 0]; [d 0; d 0; d 0]; [d 0; d 0; d 0]] /\
  V (result_of two_of_four_vertices) <> [] /\
  printed (result_of two_of_four_vertices) = [Error_expecting_vertex_position].
Proof.
  intros d. split; [|split; [|split]].
  - split; [discriminate|]. exists 2%nat. vm_compute. reflexivity.
  - vm_compute. reflexivity.
  - vm_compute. discriminate.
  - vm_compute. reflexivity.
Qed.

Lemma readMESH_truncated_vertices_example :
  let d n := Finite false n 10 0 in
  exists m',
    readMESH 2 (Some two_of_four_vertices) entry = Return false m' /\
    V m' = map vertex_row [(d 0, d 0, d 0); (d 1, d 0, d 0)] ++
           replicate (4 - 2) (zeros 3) /\
    T m' = [] /\ F m' = [] /\
    printed m' = printed entry ++ [Error_expecting_vertex_position] /\
    mesh_file_open m' = false.
Proof.
  intros d.
  apply (readMESH_truncated_vertices 2 two_of_four_vertices entry
           (fst two_of_four_at_vertex_records)
           (snd two_of_four_at_vertex_records) 2%nat
           [(d 0, d 0, d 0); (d 1, d 0, d 0)] [NL]);
    [ vm_compute; reflexivity | vm_compute; reflexivity | reflexivity
    | vm_compute; lia ].
Defined.

(** The numbers on lines of their own are found in the stream; a number
    on the keyword's line is taken though another one follows. *)
Lemma readMESH_value_same_line_first_example :
  readMESH 2 (Some values_on_next_lines) entry = Return true example_result /\
  readMESH 2 (Some version_2_then_1) entry =
  Return false
    (fclose (print (Error_second_word 2)
       (snd (after (Number MeshVersionFormatted) version_2_then_1)))).
Proof.
  split.
  - destruct (readMESH_value_same_line_first MeshVersionFormatted 1
                Error_second_word Dimension 2 values_on_next_lines entry
                (fst (after (Number MeshVersionFormatted) values_on_next_lines))
                (snd (after (Number MeshVersionFormatted) values_on_next_lines))
                [] (lit "MeshVersionFormatted") eq_refl)
      as (_ & Fall & _);
      [ vm_compute; reflexivity | reflexivity | reflexivity | ].
    etransitivity.
    + apply (Fall [NL] [] [] (lit "1")
               (drop 1 (fst (after (Number MeshVersionFormatted)
                               values_on_next_lines))));
        [ vm_compute; reflexivity | reflexivity | intros N; destruct (N eq_refl)
        | reflexivity | vm_compute; reflexivity | reflexivity | reflexivity
        | vm_compute; discriminate | vm_compute; reflexivity ].
    + vm_compute. reflexivity.
  - destruct (readMESH_value_same_line_first MeshVersionFormatted 1
                Error_second_word Dimension 2 version_2_then_1 entry
                (fst (after (Number MeshVersionFormatted) version_2_then_1))
                (snd (after (Number MeshVersionFormatted) version_2_then_1))
                [] (lit "MeshVersionFormatted") eq_refl)
      as (Same & _ & _);
      [ vm_compute; reflexivity | reflexivity | reflexivity | ].
    etransitivity.
    + apply (Same (lit " ") (lit "2") [NL]);
        [ vm_compute; reflexivity | discriminate | reflexivity | reflexivity
        | vm_compute; discriminate | reflexivity ].
    + vm_compute. reflexivity.
Defined.

Lemma readMESH_count_example :
  readMESH 2 (Some example_mesh) entry =
    match scan_integer (fst example_at_number_of_vertices) with
    | None =>
        Return false (fclose (print Error_expecting_number_of_vertices
                                (snd example_at_number_of_vertices)))
    | Some (k, r) =>
        let n := to_size_t (clamp_long k) in
        if max_size <? n
        then Length_error
               (set_number_of_vertices n (snd example_at_number_of_vertices))
        else run_from (Records Vertices) 2 r
               (set_V (replicate (Z.to_nat n) (zeros 3))
                  (set_number_of_vertices n (snd example_at_number_of_vertices)))
    end.
Proof.
  apply (proj1 (proj2 (readMESH_count_is_what_ld_converts 2 example_mesh entry
                  (fst example_at_number_of_vertices)
                  (snd example_at_number_of_vertices)))).
  vm_compute. reflexivity.
Defined.

(** C8 fails there: with -1 the call does not return false and prints
    nothing, it ends in the exception of [resize] with the file open; with
    "0abc" it returns true. *)
Lemma readMESH_counts_that_are_no_unsigned_integers :
  ends_with (fun f => readMESH f (Some minus_one_vertices) entry)
    (Length_error (result_of minus_one_vertices)) /\
  printed (result_of minus_one_vertices) = [] /\
  number_of_vertices (result_of minus_one_vertices) = 2 ^ 64 - 1 /\
  ends_with (fun f => readMESH f (Some count_with_letters) entry)
    (Return true (result_of count_with_letters)).
Proof.
  split; [|split; [|split]].
  - split; [discriminate|]. exists 2%nat. vm_compute. reflexivity.
  - vm_compute. reflexivity.
  - vm_compute. reflexivity.
  - split; [discriminate|]. exists 2%nat. vm_compute. reflexivity.
Qed.

Lemma readMESH_true_is_rectangular_example :
  (Forall (fun r => length r = 3%nat) (V example_result) /\
   Forall (fun r => length r = 3%nat) (F example_result) /\
   Forall (fun r => length r = 4%nat) (T example_result)) /\
  (Z.of_nat (length (V example_result)) = number_of_vertices example_result /\
   Z.of_nat (length (F example_result)) = number_of_triangles example_result /\
   Z.of_nat (length (T example_result)) = number_of_tetrahedra example_result).
Proof.
  destruct (readMESH_true_is_rectangular 2 (Some example_mesh) entry
              example_result) as (W & L & _); [vm_compute; reflexivity|].
  exact (conj W L).
Defined.

(** * Further properties of the reader *)

Section Reader_more_facts.

Context {Scalar Index : Type} `{!Numeric Scalar} `{!Numeric Index}.

Abbreviation vars := (@vars Scalar Index).
Abbreviation outcome := (@outcome Scalar Index).

(** ** No conversion gives text back *)

Lemma skip_space_length s : (length (skip_space s) <= length s)%nat.
Proof.
  induction s as [|x s IH]; [reflexivity|]. cbn [skip_space].
  destruct (isspace x); simpl; lia.
Qed.

Lemma scan_sign_length s : (length (snd (scan_sign s)) <= length s)%nat.
Proof.
  destruct s as [|x s]; [reflexivity|]. cbn [scan_sign].
  destruct (x =? "-")%char; [simpl; lia|].
  destruct (x =? "+")%char; simpl; lia.
Qed.

Lemma scan_digits_length s :
  forall acc, (length (snd (scan_digits acc s)) <= length s)%nat.
Proof.
  induction s as [|x s IH]; intros acc; [reflexivity|]. cbn [scan_digits].
  destruct (isdigit x); [|reflexivity]. specialize (IH (10 * acc + digit_val x)).
  simpl. lia.
Qed.

Lemma scan_xdigits_length s :
  forall acc, (length (snd (scan_xdigits acc s)) <= length s)%nat.
Proof.
  induction s as [|x s IH]; intros acc; [reflexivity|]. cbn [scan_xdigits].
  destruct (isxdigit x); [|reflexivity]. specialize (IH (16 * acc + xdigit_val x)).
  simpl. lia.
Qed.

Lemma scan_integer_length s v r :
  scan_integer s = Some (v, r) -> (length r <= length s)%nat.
Proof.
  unfold scan_integer. pose proof (skip_space_length s) as L1.
  pose proof (scan_sign_length (skip_space s)) as L2.
  destruct (scan_sign (skip_space s)) as [neg s1]. cbn [snd] in L2.
  destruct (starts_with_digit s1); [|discriminate].
  pose proof (scan_digits_length s1 0) as L3.
  destruct (scan_digits 0 s1) as [v0 r0]. cbn [snd] in L3.
  intros [= _ <-]. lia.
Qed.

Lemma scan_ld_length s v r : scan_ld s = Some (v, r) -> (length r <= length s)%nat.
Proof.
  unfold scan_ld. destruct (scan_integer s) as [[v0 r0]|] eqn:E; [|discriminate].
  cbn. intros [= _ <-]. eapply scan_integer_length, E.
Qed.

Lemma scan_d_length s v r : scan_d s = Some (v, r) -> (length r <= length s)%nat.
Proof.
  unfold scan_d. destruct (scan_integer s) as [[v0 r0]|] eqn:E; [|discriminate].
  cbn. intros [= _ <-]. eapply scan_integer_length, E.
Qed.

Lemma prefix_ci_length p :
  forall s r, prefix_ci p s = Some r -> (length r <= length s)%nat.
Proof.
  induction p as [|c p IH]; intros s r E; cbn [prefix_ci] in E.
  - injection E as <-. reflexivity.
  - destruct s as [|d s]; [discriminate|].
    destruct (c =? tolower d)%char; [|discriminate]. apply IH in E. simpl. lia.
Qed.

Lemma span_nchar_length s : (length (span_nchar s) <= length s)%nat.
Proof.
  induction s as [|x s IH]; [reflexivity|]. cbn [span_nchar].
  destruct (isalnum_ x); simpl; lia.
Qed.

Lemma scan_exponent_length s v r :
  scan_exponent s = Some (v, r) -> (length r <= length s)%nat.
Proof.
  unfold scan_exponent. pose proof (scan_sign_length s) as L2.
  destruct (scan_sign s) as [neg s1]. cbn [snd] in L2.
  destruct (starts_with_digit s1); [|discriminate].
  pose proof (scan_digits_length s1 0) as L3.
  destruct (scan_digits 0 s1) as [v0 r0]. cbn [snd] in L3.
  intros [= _ <-]. lia.
Qed.

Lemma scan_mantissa_length digits s m nf r :
  (forall s acc, (length (snd (digits acc s)) <= length s)%nat) ->
  scan_mantissa digits s = Some (m, nf, r) -> (length r <= length s)%nat.
Proof.
  intros D. unfold scan_mantissa. pose proof (D s 0) as L1.
  destruct (digits 0 s) as [i s1]. cbn [snd] in L1.
  destruct s1 as [|c s2].
  - destruct (_ =? 0); [discriminate|]. intros [= _ _ <-]. exact L1.
  - destruct (c =? ".")%char.
    + pose proof (D s2 i) as L2. destruct (digits i s2) as [m0 s3]. cbn [snd] in L2.
      destruct (_ =? 0); [discriminate|]. intros [= _ _ <-]. simpl in L1. lia.
    + destruct (_ =? 0); [discriminate|]. intros [= _ _ <-]. exact L1.
Qed.

Lemma tail_length {A} (s : list A) : (length (tail s) <= length s)%nat.
Proof. destruct s; simpl; lia. Qed.

Lemma scan_lg_length s d r : scan_lg s = Some (d, r) -> (length r <= length s)%nat.
Proof.
  unfold scan_lg. pose proof (skip_space_length s) as L1.
  pose proof (scan_sign_length (skip_space s)) as L2.
  destruct (scan_sign (skip_space s)) as [neg s1]. cbn [snd] in L2.
  destruct (prefix_ci (lit "inf") s1) as [r1|] eqn:P1.
  { apply prefix_ci_length in P1. destruct (is_letter "i" r1).
    - destruct (prefix_ci (lit "inity") r1) as [r2|] eqn:P2; [|discriminate].
      apply prefix_ci_length in P2. cbn. intros [= _ <-]. lia.
    - intros [= _ <-]. lia. }
  destruct (prefix_ci (lit "nan") s1) as [r1|] eqn:P2.
  { apply prefix_ci_length in P2. destruct r1 as [|c r2].
    - intros [= _ <-]. simpl in *. lia.
    - destruct (c =? "(")%char.
      + pose proof (span_nchar_length r2) as L3.
        destruct (span_nchar r2) as [|d0 r3]; [discriminate|].
        destruct (d0 =? ")")%char; [|discriminate].
        intros [= _ <-]. simpl in *. lia.
      + intros [= _ <-]. lia. }
  destruct (prefix_ci (lit "0x") s1) as [r1|] eqn:P3.
  { apply prefix_ci_length in P3.
    destruct (scan_mantissa scan_xdigits r1) as [[[m nf] r2]|] eqn:M; [|discriminate].
    apply scan_mantissa_length in M; [|intros; apply scan_xdigits_length]. cbn.
    destruct (is_letter "p" r2).
    - destruct (scan_exponent (tail r2)) as [[e r3]|] eqn:E; [|discriminate].
      apply scan_exponent_length in E. pose proof (tail_length r2). cbn.
      intros [= _ <-]. lia.
    - intros [= _ <-]. lia. }
  destruct (scan_mantissa scan_digits s1) as [[[m nf] r2]|] eqn:M; [|discriminate].
  apply scan_mantissa_length in M; [|intros; apply scan_digits_length]. cbn.
  destruct (is_letter "e" r2).
  - destruct (scan_exponent (tail r2)) as [[e r3]|] eqn:E; [|discriminate].
    apply scan_exponent_length in E. pose proof (tail_length r2). cbn.
    intros [= _ <-]. lia.
  - intros [= _ <-]. lia.
Qed.

Lemma fscanf_lg_lg_lg_ld_length s x y z e r :
  fscanf_lg_lg_lg_ld s = Some (x, y, z, e, r) -> (length r <= length s)%nat.
Proof.
  unfold fscanf_lg_lg_lg_ld.
  destruct (scan_lg (skip_space s)) as [[x0 s1]|] eqn:A; [|discriminate]. cbn.
  destruct (scan_lg (skip_space s1)) as [[y0 s2]|] eqn:B; [|discriminate]. cbn.
  destruct (scan_lg (skip_space s2)) as [[z0 s3]|] eqn:C; [|discriminate]. cbn.
  destruct (scan_ld (skip_space s3)) as [[e0 s4]|] eqn:E; [|discriminate]. cbn.
  intros [= _ _ _ _ <-].
  apply scan_lg_length in A, B, C. apply scan_ld_length in E.
  pose proof (skip_space_length s). pose proof (skip_space_length s1).
  pose proof (skip_space_length s2). pose proof (skip_space_length s3). lia.
Qed.

Lemma fscanf_ld_ld_ld_ld_length s a b c e r :
  fscanf_ld_ld_ld_ld s = Some (a, b, c, e, r) -> (length r <= length s)%nat.
Proof.
  unfold fscanf_ld_ld_ld_ld.
  destruct (scan_ld (skip_space s)) as [[a0 s1]|] eqn:A; [|discriminate]. cbn.
  destruct (scan_ld (skip_space s1)) as [[b0 s2]|] eqn:B; [|discriminate]. cbn.
  destruct (scan_ld (skip_space s2)) as [[c0 s3]|] eqn:C; [|discriminate]. cbn.
  destruct (scan_ld (skip_space s3)) as [[e0 s4]|] eqn:E; [|discriminate]. cbn.
  intros [= _ _ _ _ <-].
  apply scan_ld_length in A, B, C, E.
  pose proof (skip_space_length s). pose proof (skip_space_length s1).
  pose proof (skip_space_length s2). pose proof (skip_space_length s3). lia.
Qed.

Lemma fscanf_ld_ld_ld_ld_ld_length s a b c d e r :
  fscanf_ld_ld_ld_ld_ld s = Some (a, b, c, d, e, r) -> (length r <= length s)%nat.
Proof.
  unfold fscanf_ld_ld_ld_ld_ld.
  destruct (scan_ld (skip_space s)) as [[a0 s1]|] eqn:A; [|discriminate]. cbn.
  destruct (scan_ld (skip_space s1)) as [[b0 s2]|] eqn:B; [|discriminate]. cbn.
  destruct (scan_ld (skip_space s2)) as [[c0 s3]|] eqn:C; [|discriminate]. cbn.
  destruct (scan_ld (skip_space s3)) as [[d0 s4]|] eqn:D; [|discriminate]. cbn.
  destruct (scan_ld (skip_space s4)) as [[e0 s5]|] eqn:E; [|discriminate]. cbn.
  intros [= _ _ _ _ _ <-].
  apply scan_ld_length in A, B, C, D, E.
  pose proof (skip_space_length s). pose proof (skip_space_length s1).
  pose proof (skip_space_length s2). pose proof (skip_space_length s3).
  pose proof (skip_space_length s4). lia.
Qed.

(** [fgets] takes at least one character when there is one. *)
Lemma fgets_chars_le s :
  forall k, (length (snd (fgets_chars k s)) <= length s)%nat.
Proof.
  induction s as [|x s IH]; intros k; destruct k as [|k]; try reflexivity.
  cbn [fgets_chars]. destruct (x =? NL)%char; [simpl; lia|].
  specialize (IH k). destruct (fgets_chars k s) as [l r]. simpl in *. lia.
Qed.

Lemma fgets_chars_length k x s :
  (length (snd (fgets_chars (S k) (x :: s))) < length (x :: s))%nat.
Proof.
  cbn [fgets_chars]. destruct (x =? NL)%char; [simpl; lia|].
  pose proof (fgets_chars_le s k) as L.
  destruct (fgets_chars k s) as [l r]. simpl in *. lia.
Qed.

Lemma fgets_line_length s (m : vars) :
  (length (fst (fgets_line s m)) < length s)%nat \/
  (s = [] /\ fgets_line s m = ([], m)).
Proof.
  unfold fgets_line, fgets. destruct s as [|x s]; [right; auto|]. left.
  change (LINE_MAX - 1)%nat with (S (LINE_MAX - 2)).
  pose proof (fgets_chars_length (LINE_MAX - 2) x s) as L.
  destruct (fgets_chars _ (x :: s)) as [l r]. exact L.
Qed.

(** ** Comment loops end soon or never *)

Lemma eat_comments_length f :
  forall s (m : vars) s' m',
    eat_comments f s m = Next (s', m') -> (length s' <= length s)%nat.
Proof.
  induction f as [|f IH]; intros s m s' m' E; [discriminate|].
  rewrite eat_comments_unfold in E.
  pose proof (fgets_line_length s m) as L.
  destruct (fgets_line s m) as [s1 m1]. cbn [fst] in L.
  assert (L1 : (length s1 <= length s)%nat).
  { destruct L as [L|[-> L]]; [lia|]. injection L as -> _. reflexivity. }
  destruct (still_comments m1).
  - apply IH in E. lia.
  - injection E as <- _. exact L1.
Qed.

(** As many iterations as the text has characters, and one more: a loop
    that is then still running runs for ever. *)
Lemma eat_comments_bound n :
  forall s (m : vars),
    (length s <= n)%nat ->
    eat_comments (S n) s m = Still_looping ->
    forall f, eat_comments f s m = Still_looping.
Proof.
  induction n as [|n IH]; intros s m Ls E f.
  - destruct s as [|x s]; [|simpl in Ls; lia].
    rewrite eat_comments_unfold in E. cbn [fgets_line fgets] in E.
    destruct (still_comments m) eqn:C; [|discriminate].
    apply eat_comments_eof, C.
  - rewrite eat_comments_unfold in E.
    pose proof (fgets_line_length s m) as L.
    destruct (fgets_line s m) as [s1 m1] eqn:G. cbn [fst] in L.
    destruct (still_comments m1) eqn:C; [|discriminate].
    destruct L as [L|[-> L]].
    + destruct f as [|f]; [reflexivity|].
      rewrite eat_comments_unfold, G, C. apply IH; [lia | exact E].
    + injection L as -> ->. apply eat_comments_eof, C.
Qed.

Lemma read_vertex_records_length k :
  forall i s (m : vars) s' m',
    read_vertex_records k i s m = Next (s', m') -> (length s' <= length s)%nat.
Proof.
  induction k as [|k IH]; intros i s m s' m' E; cbn [read_vertex_records] in E.
  - injection E as <- _. reflexivity.
  - destruct (fscanf_lg_lg_lg_ld s) as [[[[[x y] z] e] r]|] eqn:Sc; [|discriminate].
    apply IH in E. apply fscanf_lg_lg_lg_ld_length in Sc. lia.
Qed.

Lemma read_triangle_records_length k :
  forall i s (m : vars) s' m',
    read_triangle_records k i s m = Next (s', m') -> (length s' <= length s)%nat.
Proof.
  induction k as [|k IH]; intros i s m s' m' E; cbn [read_triangle_records] in E.
  - injection E as <- _. reflexivity.
  - destruct (fscanf_ld_ld_ld_ld s) as [[[[[a b] c] e] r]|] eqn:Sc; [|discriminate].
    apply IH in E. apply fscanf_ld_ld_ld_ld_length in Sc. lia.
Qed.

Lemma read_tetrahedra_records_length k :
  forall i s (m : vars) s' m',
    read_tetrahedra_records k i s m = Next (s', m') -> (length s' <= length s)%nat.
Proof.
  induction k as [|k IH]; intros i s m s' m' E; cbn [read_tetrahedra_records] in E.
  - injection E as <- _. reflexivity.
  - destruct (fscanf_ld_ld_ld_ld_ld s) as [[[[[[a b] c] d] e] r]|] eqn:Sc;
      [|discriminate].
    apply IH in E. apply fscanf_ld_ld_ld_ld_ld_length in Sc. lia.
Qed.

Lemma read_keyword_value_length e want s (m : vars) s' m' :
  read_keyword_value e want s m = Next (s', m') -> (length s' <= length s)%nat.
Proof.
  unfold read_keyword_value. pose proof (skip_space_length s) as L.
  destruct (sscanf_s_d (line m)) as [[w [v|]]|].
  - destruct (v =? want); [|discriminate]. intros [= <- _]. reflexivity.
  - destruct (scan_d (skip_space s)) as [[v r]|] eqn:D.
    + apply scan_d_length in D. destruct (v =? want); [|discriminate].
      intros [= <- _]. lia.
    + destruct (-1 =? want); [|discriminate]. intros [= <- _]. reflexivity.
  - destruct (scan_d (skip_space s)) as [[v r]|] eqn:D.
    + apply scan_d_length in D. destruct (v =? want); [|discriminate].
      intros [= <- _]. lia.
    + destruct (-1 =? want); [|discriminate]. intros [= <- _]. reflexivity.
Qed.

Lemma read_count_length e s (m : vars) n r :
  read_count e s m = Next (n, r) -> (length r <= length s)%nat.
Proof.
  unfold read_count. pose proof (skip_space_length s) as L.
  destruct (scan_ld (skip_space s)) as [[v r0]|] eqn:D; [|discriminate].
  apply scan_ld_length in D. intros [= _ <-]. lia.
Qed.

(** A block never gives text back. *)
Lemma block_length l f s (m : vars) s' m' :
  block l f s m = Next (s', m') -> (length s' <= length s)%nat.
Proof.
  intros E. destruct l as [sec|sec|sec].
  - cbn [block] in E. unfold read_keyword in E.
    apply bind_Next in E as ([s1 m1] & E1 & E2).
    apply eat_comments_length in E1.
    destruct (strcmp0 _ _); [|discriminate]. injection E2 as <- _. exact E1.
  - destruct sec; cbn [block] in E.
    + eapply read_keyword_value_length, E.
    + eapply read_keyword_value_length, E.
    + unfold read_number_of_vertices in E.
      apply bind_Next in E as ([n r] & E1 & E2). apply read_count_length in E1.
      destruct (resize _ _); [|discriminate]. injection E2 as <- _. exact E1.
    + unfold read_number_of_triangles in E.
      apply bind_Next in E as ([n r] & E1 & E2). apply read_count_length in E1.
      destruct (resize _ _); [|discriminate]. injection E2 as <- _. exact E1.
    + unfold read_number_of_tetrahedra in E.
      apply bind_Next in E as ([n r] & E1 & E2). apply read_count_length in E1.
      destruct (resize _ _); [|discriminate]. injection E2 as <- _. exact E1.
  - destruct sec; cbn [block] in E.
    + injection E as <- _. reflexivity.
    + injection E as <- _. reflexivity.
    + eapply read_vertex_records_length, E.
    + eapply read_triangle_records_length, E.
    + eapply read_tetrahedra_records_length, E.
Qed.

(** Only a comment loop can be still running. *)
Lemma block_looping l f s (m : vars) :
  block l f s m = Still_looping -> eat_comments f s m = Still_looping.
Proof.
  intros E. destruct l as [sec|sec|sec].
  - cbn [block] in E. unfold read_keyword in E.
    destruct (eat_comments f s m) as [[s1 m1]| | |]; cbn [bind] in E;
      try discriminate; [|reflexivity].
    destruct (strcmp0 _ _); discriminate.
  - exfalso. destruct sec; cbn [block] in E.
    + pose proof (read_keyword_value_form Error_second_word 1 s m) as Fo.
      rewrite E in Fo. exact Fo.
    + pose proof (read_keyword_value_form Error_only_Dimension_3 3 s m) as Fo.
      rewrite E in Fo. exact Fo.
    + pose proof (read_number_of_vertices_form s m) as Fo. rewrite E in Fo. exact Fo.
    + pose proof (read_number_of_triangles_form s m) as Fo. rewrite E in Fo. exact Fo.
    + pose proof (read_number_of_tetrahedra_form s m) as Fo. rewrite E in Fo. exact Fo.
  - exfalso. destruct sec; cbn [block] in E; try discriminate.
    + pose proof (read_vertex_records_form
        (Z.to_nat (number_of_vertices m)) 0 s m) as Fo. rewrite E in Fo. exact Fo.
    + pose proof (read_triangle_records_form
        (Z.to_nat (number_of_triangles m)) 0 s m) as Fo. rewrite E in Fo. exact Fo.
    + pose proof (read_tetrahedra_records_form
        (Z.to_nat (number_of_tetrahedra m)) 0 s m) as Fo. rewrite E in Fo. exact Fo.
Qed.

Lemma block_bound l n s (m : vars) :
  (length s <= n)%nat ->
  block l (S n) s m = Still_looping ->
  forall f, block l f s m = Still_looping.
Proof.
  intros Ls E f. pose proof (block_looping _ _ _ _ E) as E1.
  pose proof (eat_comments_bound n s m Ls E1 f) as E2.
  destruct l as [sec|sec|sec].
  - cbn [block]. unfold read_keyword. rewrite E2. reflexivity.
  - rewrite <- E. destruct sec; reflexivity.
  - rewrite <- E. destruct sec; reflexivity.
Qed.

Lemma run_bound ls :
  forall n s (m : vars),
    (length s <= n)%nat ->
    run ls (S n) s m = Still_looping ->
    forall f, run ls f s m = Still_looping.
Proof.
  induction ls as [|l ls IH]; intros n s m Ls E f; [discriminate|].
  cbn [run] in *.
  destruct (block l (S n) s m) as [[s1 m1]|b1 m1|m1|] eqn:B; cbn [bind] in E;
    try discriminate.
  - pose proof (block_length _ _ _ _ _ _ B) as L1.
    assert (I : forall g, run ls g s1 m1 = Still_looping)
      by (apply (IH n); [lia | exact E]).
    destruct (block l f s m) as [[s2 m2]|b2 m2|m2|] eqn:B2; cbn [bind];
      try reflexivity;
      destruct (Nat.le_gt_cases f (S n)) as [Lf|Lf];
      try (rewrite (block_mono l f (S n) s m _ B2) in B by (discriminate || lia);
           try discriminate);
      try (rewrite (block_mono l (S n) f s m _ B) in B2 by (discriminate || lia);
           try discriminate).
    + injection B as <- <-. apply I.
    + injection B2 as <- <-. apply I.
  - rewrite (block_bound l n s m Ls B f). reflexivity.
Qed.

(** X1.  A call on a file that can be opened either ends, and then
    already with as many iterations for each comment loop as the file has
    characters and one more, or it is still running after any number of
    iterations. *)
Theorem readMESH_ends_soon_or_never mesh_file (m0 : vars) :
  (exists r, r <> Still_looping /\
     forall f, (length mesh_file < f)%nat -> readMESH f (Some mesh_file) m0 = r) \/
  (forall f, readMESH f (Some mesh_file) m0 = Still_looping).
Proof.
  destruct (readMESH (S (length mesh_file)) (Some mesh_file) m0) as [[]|b m|m|] eqn:E.
  - left. exists (Return b m). split; [discriminate|]. intros f Lf.
    apply (readMESH_mono (S (length mesh_file))); [exact E | discriminate | lia].
  - left. exists (Length_error m). split; [discriminate|]. intros f Lf.
    apply (readMESH_mono (S (length mesh_file))); [exact E | discriminate | lia].
  - right. intros f. unfold readMESH, run_from in *.
    destruct (run _ (S (length mesh_file)) mesh_file _) as [[s1 m1]|b1 m1|m1|] eqn:R;
      cbn [bind] in E; try discriminate.
    rewrite (run_bound _ _ _ _ (Nat.le_refl _) R f). reflexivity.
Qed.

(** ** Messages and the file on the ways out *)

Lemma block_Return_message l f s (m : vars) b m' :
  block l f s m = Return b m' -> exists e, printed m' = printed m ++ [e].
Proof.
  assert (St : forall m1, stopped m m1 -> exists e, printed m1 = printed m ++ [e]).
  { intros m1 (e & m2 & B & ->). apply buffers_only_fields in B.
    destruct B as (_ & _ & _ & P & _). exists e. cbn. rewrite P. reflexivity. }
  intros E. destruct l as [sec|sec|sec].
  - pose proof (read_keyword_form sec f s m) as Fo. cbn [block] in E.
    rewrite E in Fo. apply St, Fo.
  - destruct sec; cbn [block] in E.
    + pose proof (read_keyword_value_form Error_second_word 1 s m) as Fo.
      rewrite E in Fo. apply St, Fo.
    + pose proof (read_keyword_value_form Error_only_Dimension_3 3 s m) as Fo.
      rewrite E in Fo. apply St, Fo.
    + pose proof (read_number_of_vertices_form s m) as Fo. rewrite E in Fo.
      destruct Fo as [_ ->]. eexists. reflexivity.
    + pose proof (read_number_of_triangles_form s m) as Fo. rewrite E in Fo.
      destruct Fo as [_ ->]. eexists. reflexivity.
    + pose proof (read_number_of_tetrahedra_form s m) as Fo. rewrite E in Fo.
      destruct Fo as [_ ->]. eexists. reflexivity.
  - destruct sec; cbn [block] in E; try discriminate.
    + pose proof (read_vertex_records_form
        (Z.to_nat (number_of_vertices m)) 0 s m) as Fo. rewrite E in Fo.
      destruct Fo as (_ & v & -> & _). eexists. reflexivity.
    + pose proof (read_triangle_records_form
        (Z.to_nat (number_of_triangles m)) 0 s m) as Fo. rewrite E in Fo.
      destruct Fo as (_ & v & -> & _). eexists. reflexivity.
    + pose proof (read_tetrahedra_records_form
        (Z.to_nat (number_of_tetrahedra m)) 0 s m) as Fo. rewrite E in Fo.
      destruct Fo as (_ & v & -> & _). eexists. reflexivity.
Qed.

Lemma run_Return_message ls :
  forall f s (m : vars) b m',
    run ls f s m = Return b m' -> exists e, printed m' = printed m ++ [e].
Proof.
  induction ls as [|l ls IH]; intros f s m b m' E; [discriminate|].
  cbn [run] in E. destruct (block l f s m) as [[s1 m1]|b1 m1|m1|] eqn:B;
    cbn [bind] in E; try discriminate.
  - apply block_Next_quiet in B as [P _]. apply IH in E as [e E].
    exists e. rewrite E, P. reflexivity.
  - injection E as -> ->. eapply block_Return_message, B.
Qed.

(** X2.  A call that returns false has printed exactly one message, and
    a call that returns true has printed none and has closed the file. *)
Theorem readMESH_prints_once f mesh_file (m0 : vars) b m :
  readMESH f mesh_file m0 = Return b m ->
  if b then printed m = printed m0 /\ mesh_file_open m = false
  else exists e, printed m = printed m0 ++ [e].
Proof.
  destruct mesh_file as [file|]; cbn [readMESH].
  - unfold run_from.
    destruct (run _ f file _) as [[s1 m1]|b1 m1|m1|] eqn:R; cbn [bind];
      try discriminate.
    + intros [= <- <-]. apply run_Next_quiet in R as [P _]. split; [exact P|reflexivity].
    + intros [= -> ->]. pose proof (run_Return_false _ _ _ _ _ _ R) as ->.
      apply run_Return_message in R. exact R.
  - intros [= <- <-]. eexists. reflexivity.
Qed.

Lemma block_Length_error l f s (m : vars) m' :
  block l f s m = Length_error m' ->
  printed m' = printed m /\ mesh_file_open m' = mesh_file_open m /\
  (max_size < number_of_vertices m' \/ max_size < number_of_triangles m' \/
   max_size < number_of_tetrahedra m').
Proof.
  intros E. destruct l as [sec|sec|sec].
  - pose proof (read_keyword_form sec f s m) as Fo. cbn [block] in E.
    rewrite E in Fo. contradiction.
  - destruct sec; cbn [block] in E.
    + pose proof (read_keyword_value_form Error_second_word 1 s m) as Fo.
      rewrite E in Fo. contradiction.
    + pose proof (read_keyword_value_form Error_only_Dimension_3 3 s m) as Fo.
      rewrite E in Fo. contradiction.
    + unfold read_number_of_vertices, read_count, resize in E.
      destruct (scan_ld _) as [[v r]|]; cbn [bind] in E; [|discriminate].
      destruct (max_size <? to_size_t v) eqn:M; [|discriminate].
      injection E as <-. apply Z.ltb_lt in M. cbn. auto.
    + unfold read_number_of_triangles, read_count, resize in E.
      destruct (scan_ld _) as [[v r]|]; cbn [bind] in E; [|discriminate].
      destruct (max_size <? to_size_t v) eqn:M; [|discriminate].
      injection E as <-. apply Z.ltb_lt in M. cbn. auto.
    + unfold read_number_of_tetrahedra, read_count, resize in E.
      destruct (scan_ld _) as [[v r]|]; cbn [bind] in E; [|discriminate].
      destruct (max_size <? to_size_t v) eqn:M; [|discriminate].
      injection E as <-. apply Z.ltb_lt in M. cbn. auto.
  - destruct sec; cbn [block] in E; try discriminate.
    + pose proof (read_vertex_records_form
        (Z.to_nat (number_of_vertices m)) 0 s m) as Fo. rewrite E in Fo.
      contradiction.
    + pose proof (read_triangle_records_form
        (Z.to_nat (number_of_triangles m)) 0 s m) as Fo. rewrite E in Fo.
      contradiction.
    + pose proof (read_tetrahedra_records_form
        (Z.to_nat (number_of_tetrahedra m)) 0 s m) as Fo. rewrite E in Fo.
      contradiction.
Qed.

(** X3.  When [resize] throws, one of the counts is above [max_size],
    nothing has been printed, and the file is left open: no handler closes
    it. *)
Theorem readMESH_length_error_leaves_file_open f mesh_file (m0 : vars) m :
  readMESH f mesh_file m0 = Length_error m ->
  mesh_file_open m = true /\ printed m = printed m0 /\
  (max_size < number_of_vertices m \/ max_size < number_of_triangles m \/
   max_size < number_of_tetrahedra m).
Proof.
  destruct mesh_file as [file|]; cbn [readMESH]; [|discriminate].
  unfold run_from. generalize (blocks_from (Keyword MeshVersionFormatted)).
  intros ls.
  assert (G : forall ls s (m1 : vars) m,
    run ls f s m1 = Length_error m ->
    mesh_file_open m = mesh_file_open m1 /\ printed m = printed m1 /\
    (max_size < number_of_vertices m \/ max_size < number_of_triangles m \/
     max_size < number_of_tetrahedra m)).
  { clear. induction ls as [|l ls IH]; intros s m1 m E; [discriminate|].
    cbn [run] in E. destruct (block l f s m1) as [[s2 m2]|b2 m2|m2|] eqn:B;
      cbn [bind] in E; try discriminate.
    - apply block_Next_quiet in B as [P O]. apply IH in E as (E1 & E2 & E3).
      rewrite E1, E2, P, O. auto.
    - injection E as ->. apply block_Length_error in B as (B1 & B2 & B3). auto. }
  destruct (run ls f file _) as [[s1 m1]|b1 m1|m1|] eqn:R; cbn [bind];
    try discriminate.
  intros [= ->]. apply G in R as (R1 & R2 & R3). auto.
Qed.

(** X4.  A call that has opened the file and returns has closed it,
    with one exception: when it returns false from the triangle loop,
    after the message on stdout, the file is open. *)
Theorem readMESH_returns_with_file_closed f mesh_file (m0 : vars) b m :
  readMESH f (Some mesh_file) m0 = Return b m ->
  mesh_file_open m = false \/
  (b = false /\ mesh_file_open m = true /\
   printed m = printed m0 ++ [Stdout_expecting_triangle_indices]).
Proof. apply readMESH_closes_file_elsewhere. Qed.

(** ** Files that end where a keyword is due *)

Lemma reaches_mono l f f' mesh_file (m0 : vars) s m :
  reaches l f mesh_file m0 s m -> (f <= f')%nat -> reaches l f' mesh_file m0 s m.
Proof.
  unfold reaches. intros R L. eapply run_mono; [exact R | discriminate | exact L].
Qed.

(** X5.  When a comment loop starts and all that is left of the file are
    lines it skips (empty lines, [#] lines; at least one, be it the
    newline that ends the last record), the call never returns: it does
    not report the missing section. *)
Theorem readMESH_loops_when_file_ends_before_keyword
    sec f0 mesh_file (m0 : vars) ls m :
  reaches (Keyword sec) f0 mesh_file m0 (concat ls) m ->
  Forall (fun c => skipped_line c = true) ls ->
  ls <> [] ->
  forall f, readMESH f (Some mesh_file) m0 = Still_looping.
Proof.
  intros Re Hls Hne.
  assert (Big : forall f, (f0 <= f)%nat ->
            readMESH f (Some mesh_file) m0 = Still_looping).
  { intros f L. rewrite (reaches_run_from _ _ _ _ _ _ (reaches_mono _ _ _ _ _ _ _ Re L)).
    rewrite run_from_Keyword. unfold read_keyword.
    rewrite eat_comments_skipped_lines; auto. }
  intros f. destruct (Nat.le_gt_cases f0 f) as [L|L]; [apply Big, L|].
  destruct (readMESH f (Some mesh_file) m0) as [[]|b1 m1|m1|] eqn:E; [| |reflexivity].
  - assert (E0 : readMESH f0 (Some mesh_file) m0 = Return b1 m1)
      by (apply (readMESH_mono f); [exact E | discriminate | lia]).
    rewrite (Big f0 (Nat.le_refl _)) in E0. discriminate.
  - assert (E0 : readMESH f0 (Some mesh_file) m0 = Length_error m1)
      by (apply (readMESH_mono f); [exact E | discriminate | lia]).
    rewrite (Big f0 (Nat.le_refl _)) in E0. discriminate.
Qed.

(** ** The line of a keyword *)

Lemma strcmp0_eq a : forall b, strcmp0 a b = true <-> a = b.
Proof.
  induction a as [|x a IH]; intros [|y b]; cbn [strcmp0];
    try (split; [discriminate|congruence]); [tauto|].
  rewrite andb_true_iff, Ascii.eqb_eq, IH. split; [intros [-> ->]|intros [= -> ->]]; auto.
Qed.

Lemma cstr_no_NUL l :
  forallb (fun c => negb (c =? NUL)%char) l = true -> cstr l = l.
Proof.
  induction l as [|x l IH]; [reflexivity|]. cbn [forallb cstr].
  intros E. apply andb_true_iff in E as [X E]. apply negb_true_iff in X.
  rewrite X, IH by exact E. reflexivity.
Qed.

Lemma fgets_line_stops l rest (m : vars) :
  stops_loop l = true ->
  fgets_line (l ++ rest) m = (rest, set_line l m) /\
  still_comments (set_line l m) = false /\ l <> [].
Proof.
  unfold stops_loop. intros E.
  apply andb_true_iff in E as [E St]. apply andb_true_iff in E as [E Nu].
  apply andb_true_iff in E as [O L]. apply Nat.ltb_lt in L.
  destruct l as [|x l]; [discriminate|]. split; [|split; [|discriminate]].
  - unfold fgets_line, fgets. cbn [app]. change (x :: l ++ rest) with ((x :: l) ++ rest).
    rewrite fgets_chars_one_line; [|exact O|lia]. rewrite cstr_no_NUL by exact Nu.
    reflexivity.
  - unfold still_comments. cbn [line set_line]. apply negb_true_iff, St.
Qed.

(** The loop skips the lines it is to skip and stops with the next line in
    [line]. *)
Lemma eat_comments_stops cs :
  forall l rest f (m : vars),
    Forall (fun c => skipped_line c = true) cs ->
    stops_loop l = true ->
    eat_comments (length cs + S f) (concat cs ++ l ++ rest) m =
    Next (rest, set_line l m).
Proof.
  induction cs as [|c cs IH]; intros l rest f m Hcs Hl.
  - cbn [length concat app Nat.add]. rewrite eat_comments_unfold.
    destruct (fgets_line_stops l rest m Hl) as (-> & -> & _). reflexivity.
  - inversion Hcs as [|? ? Hc Hcs']; subst.
    cbn [length concat Nat.add]. rewrite <- app_assoc.
    rewrite eat_comments_skipped_line; [apply IH; assumption | exact Hc |].
    destruct (fgets_line_stops l rest m Hl) as (_ & _ & N).
    destruct l as [|x l]; [congruence|]. destruct (concat cs); discriminate.
Qed.

(** X6.  In front of each section the reader skips the empty lines and
    the [#] lines, takes the next line whole and compares its first word
    with the keyword, letter for letter.  When they are equal the call
    goes on behind that line, whatever else the line holds; when they are
    not it prints the word it found, closes the file and returns false. *)
Theorem readMESH_keyword_line sec f mesh_file (m0 : vars) cs l rest m :
  reaches (Keyword sec) f mesh_file m0 (concat cs ++ l ++ rest) m ->
  Forall (fun c => skipped_line c = true) cs ->
  stops_loop l = true ->
  (length cs < f)%nat ->
  let w := first_word l (str m) in
  (w = lit (keyword sec) ->
   readMESH f (Some mesh_file) m0 =
     run_from (Number sec) f rest (set_str w (set_line l m))) /\
  (w <> lit (keyword sec) ->
   readMESH f (Some mesh_file) m0 =
     Return false (fclose (print (Error_word sec w) (set_str w (set_line l m))))).
Proof.
  intros Re Hcs Hl Lf w.
  rewrite (reaches_run_from _ _ _ _ _ _ Re), run_from_Keyword. unfold read_keyword.
  rewrite (eat_comments_mono (length cs + 1) f _ _ _
             (eat_comments_stops cs l rest 0 m Hcs Hl)) by (discriminate || lia).
  cbn [bind].
  assert (W : sscanf_word (set_line l m) = set_str w (set_line l m)).
  { unfold sscanf_word, w, first_word. cbn [line set_line].
    destruct (scan_s (skip_space l)) as [[w0 r0]|]; [reflexivity|].
    destruct m; reflexivity. }
  rewrite W. cbn [str set_str].
  split; intros Hw.
  - rewrite (proj2 (strcmp0_eq _ _) Hw). reflexivity.
  - destruct (strcmp0 w (lit (keyword sec))) eqn:S0; [|reflexivity].
    apply strcmp0_eq in S0. contradiction.
Qed.

(** ** Comment lines longer than the buffer *)

Lemma fgets_chars_no_newline k :
  forall c s,
    (k <= length c)%nat ->
    forallb (fun x => negb (x =? NL)%char) (take k c) = true ->
    fgets_chars k (c ++ s) = (take k c, drop k c ++ s).
Proof.
  induction k as [|k IH]; intros c s L N.
  - destruct c; [destruct s|]; reflexivity.
  - destruct c as [|x c]; [simpl in L; lia|].
    change (take (S k) (x :: c)) with (x :: take k c) in *.
    change (drop (S k) (x :: c)) with (drop k c).
    cbn [forallb] in N. apply andb_true_iff in N as [X N]. apply negb_true_iff in X.
    cbn [app fgets_chars]. rewrite X, IH; [reflexivity | simpl in L; lia | exact N].
Qed.

(** X7.  Of a [#] line that does not fit the buffer only the first
    [LINE_MAX - 1] characters are skipped: the comment loop goes on with
    the rest of that line as if it were a line of its own. *)
Theorem read_keyword_overlong_comment sec f c s (m : vars) :
  overlong_comment c = true ->
  drop (LINE_MAX - 1) c ++ s <> [] ->
  read_keyword sec (S f) (c ++ s) m =
  read_keyword sec f (drop (LINE_MAX - 1) c ++ s) m.
Proof.
  unfold overlong_comment. intros E Ne.
  apply andb_true_iff in E as [E St]. apply andb_true_iff in E as [L N].
  apply Nat.leb_le in L.
  unfold read_keyword. f_equal. rewrite eat_comments_unfold.
  assert (G : fgets_line (c ++ s) m =
              (drop (LINE_MAX - 1) c ++ s, set_line (cstr (take (LINE_MAX - 1) c)) m)).
  { unfold fgets_line, fgets. destruct (c ++ s) as [|y t] eqn:Ct.
    - destruct c; [discriminate|discriminate].
    - rewrite <- Ct. rewrite fgets_chars_no_newline by assumption. reflexivity. }
  rewrite G.
  assert (C : still_comments (set_line (cstr (take (LINE_MAX - 1) c)) m) = true).
  { destruct c as [|x c]; [discriminate|].
    change (take (LINE_MAX - 1) (x :: c)) with (x :: take (LINE_MAX - 2) c).
    unfold still_comments. cbn [line set_line cstr].
    apply Ascii.eqb_eq in St. subst x. reflexivity. }
  rewrite C. apply eat_comments_line, Ne.
Qed.

(** ** The vectors of a call that returns true *)

Lemma read_vertex_records_Next k :
  forall i s (m : vars) s' m',
    read_vertex_records k i s m = Next (s', m') ->
    exists recs, vertex_records k s = Some (recs, s').
Proof.
  induction k as [|k IH]; intros i s m s' m' E; cbn [read_vertex_records] in E.
  - injection E as <- _. exists []. reflexivity.
  - cbn [vertex_records].
    destruct (fscanf_lg_lg_lg_ld s) as [[[[[x y] z] e] r]|]; [|discriminate].
    apply IH in E as [recs ->]. eexists. reflexivity.
Qed.

Lemma read_triangle_records_Next k :
  forall i s (m : vars) s' m',
    read_triangle_records k i s m = Next (s', m') ->
    exists recs, triangle_records k s = Some (recs, s').
Proof.
  induction k as [|k IH]; intros i s m s' m' E; cbn [read_triangle_records] in E.
  - injection E as <- _. exists []. reflexivity.
  - cbn [triangle_records].
    destruct (fscanf_ld_ld_ld_ld s) as [[[[[a b] c] e] r]|]; [|discriminate].
    apply IH in E as [recs ->]. eexists. reflexivity.
Qed.

Lemma read_tetrahedra_records_Next k :
  forall i s (m : vars) s' m',
    read_tetrahedra_records k i s m = Next (s', m') ->
    exists recs, tetrahedra_records k s = Some (recs, s').
Proof.
  induction k as [|k IH]; intros i s m s' m' E; cbn [read_tetrahedra_records] in E.
  - injection E as <- _. exists []. reflexivity.
  - cbn [tetrahedra_records].
    destruct (fscanf_ld_ld_ld_ld_ld s) as [[[[[[a b] c] d] e] r]|]; [|discriminate].
    apply IH in E as [recs ->]. eexists. reflexivity.
Qed.

Lemma drop_all_replicate {A} n (x : A) : drop n (replicate n x) = [].
Proof. rewrite drop_replicate, Nat.sub_diag. reflexivity. Qed.

(** The vertex loop with all its records there. *)
Lemma read_vertex_records_all f mesh_file (m0 : vars) s m recs r :
  reaches (Records Vertices) f mesh_file m0 s m ->
  vertex_records (Z.to_nat (number_of_vertices m)) s = Some (recs, r) ->
  read_vertex_records (Z.to_nat (number_of_vertices m)) 0 s m =
  Next (r, set_V (map vertex_row recs) m).
Proof.
  intros Re Rs. apply reaches_Records_Vertices in Re as (Rn & HV & _).
  set (N := Z.to_nat (number_of_vertices m)) in *.
  rewrite (read_vertex_records_prefix N N 0 s m recs r [] (replicate N (zeros 3)) Rs);
    [ | exact HV | reflexivity | apply Forall_replicate; reflexivity | lia
      | rewrite length_replicate; lia ].
  rewrite Nat.sub_diag, drop_all_replicate, app_nil_r. reflexivity.
Qed.

Lemma read_triangle_records_all f mesh_file (m0 : vars) s m recs r :
  reaches (Records Triangles) f mesh_file m0 s m ->
  triangle_records (Z.to_nat (number_of_triangles m)) s = Some (recs, r) ->
  read_triangle_records (Z.to_nat (number_of_triangles m)) 0 s m =
  Next (r, set_F (map triangle_row recs) m).
Proof.
  intros Re Rs. apply reaches_Records_Triangles in Re as (Rn & HF).
  set (N := Z.to_nat (number_of_triangles m)) in *.
  rewrite (read_triangle_records_prefix N N 0 s m recs r [] (replicate N (zeros 3)) Rs);
    [ | exact HF | reflexivity | apply Forall_replicate; reflexivity | lia
      | rewrite length_replicate; lia ].
  rewrite Nat.sub_diag, drop_all_replicate, app_nil_r. reflexivity.
Qed.

Lemma read_tetrahedra_records_all f mesh_file (m0 : vars) s m recs r :
  reaches (Records Tetrahedra) f mesh_file m0 s m ->
  tetrahedra_records (Z.to_nat (number_of_tetrahedra m)) s = Some (recs, r) ->
  read_tetrahedra_records (Z.to_nat (number_of_tetrahedra m)) 0 s m =
  Next (r, set_T (map tetrahedron_row recs) m).
Proof.
  intros Re Rs. apply reaches_Records_Tetrahedra in Re as (Rn & HT).
  set (N := Z.to_nat (number_of_tetrahedra m)) in *.
  rewrite (read_tetrahedra_records_prefix N N 0 s m recs r [] (replicate N (zeros 4)) Rs);
    [ | exact HT | reflexivity | apply Forall_replicate; reflexivity | lia
      | rewrite length_replicate; lia ].
  rewrite Nat.sub_diag, drop_all_replicate, app_nil_r. reflexivity.
Qed.

Lemma vertices_of_true_call f mesh_file (m0 : vars) m' s m :
  readMESH f (Some mesh_file) m0 = Return true m' ->
  reaches (Records Vertices) f mesh_file m0 s m ->
  exists recs r,
    vertex_records (Z.to_nat (number_of_vertices m)) s = Some (recs, r) /\
    V m' = map vertex_row recs.
Proof.
  intros Ret Re.
  rewrite (reaches_run_from _ _ _ _ _ _ Re), run_from_Records_Vertices in Ret.
  destruct (read_vertex_records _ 0 s m) as [[s1 m1]|b1 m1|m1|] eqn:L;
    cbn [bind] in Ret; try discriminate.
  - destruct (read_vertex_records_Next _ _ _ _ _ _ L) as [recs Rs].
    rewrite (read_vertex_records_all _ _ _ _ _ _ _ Re Rs) in L. injection L as <-.
    pose proof (run_from_frame _ _ _ _ m' (f_equal final_vars Ret)) as (Fv & _).
    destruct (Fv eq_refl) as [Fv1 _]. exists recs, s1. split; [exact Rs|exact Fv1].
  - injection Ret as -> ->.
    pose proof (read_vertex_records_form (Z.to_nat (number_of_vertices m)) 0 s m) as Fo.
    rewrite L in Fo. destruct Fo as [Fo _]. discriminate.
Qed.

Lemma triangles_of_true_call f mesh_file (m0 : vars) m' s m :
  readMESH f (Some mesh_file) m0 = Return true m' ->
  reaches (Records Triangles) f mesh_file m0 s m ->
  exists recs r,
    triangle_records (Z.to_nat (number_of_triangles m)) s = Some (recs, r) /\
    F m' = map triangle_row recs.
Proof.
  intros Ret Re.
  rewrite (reaches_run_from _ _ _ _ _ _ Re), run_from_Records_Triangles in Ret.
  destruct (read_triangle_records _ 0 s m) as [[s1 m1]|b1 m1|m1|] eqn:L;
    cbn [bind] in Ret; try discriminate.
  - destruct (read_triangle_records_Next _ _ _ _ _ _ L) as [recs Rs].
    rewrite (read_triangle_records_all _ _ _ _ _ _ _ Re Rs) in L. injection L as <-.
    pose proof (run_from_frame _ _ _ _ m' (f_equal final_vars Ret)) as (_ & Ff & _).
    destruct (Ff eq_refl) as [Ff1 _]. exists recs, s1. split; [exact Rs|exact Ff1].
  - injection Ret as -> ->.
    pose proof (read_triangle_records_form (Z.to_nat (number_of_triangles m)) 0 s m) as Fo.
    rewrite L in Fo. destruct Fo as [Fo _]. discriminate.
Qed.

Lemma tetrahedra_of_true_call f mesh_file (m0 : vars) m' s m :
  readMESH f (Some mesh_file) m0 = Return true m' ->
  reaches (Records Tetrahedra) f mesh_file m0 s m ->
  exists recs r,
    tetrahedra_records (Z.to_nat (number_of_tetrahedra m)) s = Some (recs, r) /\
    T m' = map tetrahedron_row recs.
Proof.
  intros Ret Re.
  rewrite (reaches_run_from _ _ _ _ _ _ Re), run_from_Records_Tetrahedra in Ret.
  destruct (read_tetrahedra_records _ 0 s m) as [[s1 m1]|b1 m1|m1|] eqn:L;
    cbn [bind] in Ret; try discriminate.
  - destruct (read_tetrahedra_records_Next _ _ _ _ _ _ L) as [recs Rs].
    rewrite (read_tetrahedra_records_all _ _ _ _ _ _ _ Re Rs) in L.
    injection L as <-. injection Ret as <-.
    exists recs, s1. split; [exact Rs|reflexivity].
  - injection Ret as -> ->.
    pose proof (read_tetrahedra_records_form (Z.to_nat (number_of_tetrahedra m)) 0 s m) as Fo.
    rewrite L in Fo. destruct Fo as [Fo _]. discriminate.
Qed.

(** Whatever the index, what is stored is the index minus one modulo
    2^64, as an [Index]. *)
Lemma stored_mod k : stored k = of_size_t ((k - 1) mod 2 ^ 64).
Proof.
  unfold stored, size_t_sub, to_size_t. rewrite Zminus_mod_idemp_l. reflexivity.
Qed.

Lemma vertex_records_length k :
  forall s recs r, vertex_records k s = Some (recs, r) -> length recs = k.
Proof.
  induction k as [|k IH]; intros s recs r E; cbn [vertex_records] in E.
  - injection E as <- _. reflexivity.
  - destruct (fscanf_lg_lg_lg_ld s) as [[[[[x y] z] e] s1]|]; [|discriminate].
    destruct (vertex_records k s1) as [[recs1 r1]|] eqn:E1; [|discriminate].
    injection E as <- _. cbn [length]. f_equal. exact (IH _ _ _ E1).
Qed.

Lemma readMESH_true_reaches l f mesh_file (m0 : vars) m' :
  readMESH f (Some mesh_file) m0 = Return true m' ->
  exists s m, reaches l f mesh_file m0 s m.
Proof.
  intros Ret. apply readMESH_true in Ret as (file & s & m & E & R & _).
  injection E as <-. rewrite <- (blocks_split l) in R.
  apply run_app_Next in R as (s1 & m1 & R1 & _). exists s1, m1. exact R1.
Qed.

(** X8.  When the call returns true, [V] is the list of the records that
    the text gives where the vertex loop starts, as many as the count that
    was read, in their order: each row is the three coordinates converted
    to [Scalar], and the fourth number of a record is in no row. *)
Theorem readMESH_true_vertices f mesh_file (m0 : vars) m' :
  readMESH f (Some mesh_file) m0 = Return true m' ->
  exists s m recs r,
    reaches (Records Vertices) f mesh_file m0 s m /\
    vertex_records (Z.to_nat (number_of_vertices m)) s = Some (recs, r) /\
    length recs = Z.to_nat (number_of_vertices m) /\
    V m' = map (fun '(x, y, z) => [of_double x; of_double y; of_double z]) recs.
Proof.
  intros Ret.
  destruct (readMESH_true_reaches (Records Vertices) _ _ _ _ Ret) as (s & m & Re).
  destruct (vertices_of_true_call _ _ _ _ _ _ Ret Re) as (recs & r & Rs & E).
  exists s, m, recs, r. split; [exact Re|]. split; [exact Rs|].
  split; [exact (vertex_records_length _ _ _ _ Rs)|].
  rewrite E. apply map_ext. intros [[x y] z]. reflexivity.
Qed.

(** X9.  When the call returns true, [F] and [T] are the lists of the
    records that the text gives where the triangle loop and the
    tetrahedra loop start, in their order, and every entry is the index
    that was read minus one modulo 2^64, converted to [Index]: an index 0
    is stored as 2^64 - 1, no index is refused, and none is compared with
    the number of vertices. *)
Theorem readMESH_true_elements f mesh_file (m0 : vars) m' :
  readMESH f (Some mesh_file) m0 = Return true m' ->
  let minus_one (k : Z) : Index := of_size_t ((k - 1) mod 2 ^ 64) in
  (exists s m recs r,
     reaches (Records Triangles) f mesh_file m0 s m /\
     triangle_records (Z.to_nat (number_of_triangles m)) s = Some (recs, r) /\
     F m' = map (fun '(a, b, c) => [minus_one a; minus_one b; minus_one c]) recs) /\
  (exists s m recs r,
     reaches (Records Tetrahedra) f mesh_file m0 s m /\
     tetrahedra_records (Z.to_nat (number_of_tetrahedra m)) s = Some (recs, r) /\
     T m' = map (fun '(a, b, c, d) =>
                   [minus_one a; minus_one b; minus_one c; minus_one d]) recs).
Proof.
  intros Ret minus_one. split.
  - destruct (readMESH_true_reaches (Records Triangles) _ _ _ _ Ret) as (s & m & Re).
    destruct (triangles_of_true_call _ _ _ _ _ _ Ret Re) as (recs & r & Rs & E).
    exists s, m, recs, r. split; [exact Re|]. split; [exact Rs|].
    rewrite E. apply map_ext. intros [[a b] c]. unfold triangle_row.
    rewrite !stored_mod. reflexivity.
  - destruct (readMESH_true_reaches (Records Tetrahedra) _ _ _ _ Ret) as (s & m & Re).
    destruct (tetrahedra_of_true_call _ _ _ _ _ _ Ret Re) as (recs & r & Rs & E).
    exists s, m, recs, r. split; [exact Re|]. split; [exact Rs|].
    rewrite E. apply map_ext. intros [[[a b] c] d]. unfold tetrahedron_row.
    rewrite !stored_mod. reflexivity.
Qed.

(** X10.  Once the tetrahedra loop starts on text that gives as many
    records as the count that was read, the call returns true with [T]
    these records and the file closed; what follows the last record in
    the file is not read. *)
Theorem readMESH_true_when_tetrahedra_are_given f mesh_file (m0 : vars) s m recs r :
  reaches (Records Tetrahedra) f mesh_file m0 s m ->
  tetrahedra_records (Z.to_nat (number_of_tetrahedra m)) s = Some (recs, r) ->
  readMESH f (Some mesh_file) m0 =
  Return true (fclose (set_T (map tetrahedron_row recs) m)).
Proof.
  intros Re Rs.
  rewrite (reaches_run_from _ _ _ _ _ _ Re), run_from_Records_Tetrahedra.
  rewrite (read_tetrahedra_records_all _ _ _ _ _ _ _ Re Rs). reflexivity.
Qed.

(** ** The file ends where a keyword is expected *)

Lemma set_str_same (m : vars) : set_str (str m) m = m.
Proof. destruct m; reflexivity. Qed.

Lemma scan_s_skip_space l : scan_s (skip_space l) = scan_s l.
Proof. unfold scan_s. rewrite skip_space_idem. reflexivity. Qed.

Lemma sscanf_word_first_word (m : vars) :
  sscanf_word m = set_str (first_word (line m) (str m)) m.
Proof.
  unfold sscanf_word, first_word.
  destruct (scan_s _) as [[w r]|]; [reflexivity|]. symmetry. apply set_str_same.
Qed.

Lemma eat_comments_ends f :
  forall s (m : vars) s' m',
    eat_comments f s m = Next (s', m') -> still_comments m' = false.
Proof.
  induction f as [|f IH]; intros s m s' m' E; [discriminate|].
  rewrite eat_comments_unfold in E. destruct (fgets_line s m) as [s1 m1].
  destruct (still_comments m1) eqn:C; [exact (IH _ _ _ _ E)|].
  injection E as _ <-. exact C.
Qed.

Lemma read_keyword_word sec f s (m : vars) s' m' :
  read_keyword sec f s m = Next (s', m') ->
  word_of_line m' /\ str m' = lit (keyword sec).
Proof.
  unfold read_keyword. intros E.
  destruct (eat_comments f s m) as [[s1 m1]| | |] eqn:Ea; cbn [bind] in E;
    try discriminate.
  apply eat_comments_ends in Ea.
  destruct (strcmp0 _ _) eqn:Cmp; [|discriminate]. injection E as _ <-.
  apply strcmp0_eq in Cmp. split; [|exact Cmp].
  rewrite sscanf_word_first_word. unfold word_of_line, still_comments, first_word.
  cbn [line str set_str]. split; [exact Ea|].
  destruct (scan_s _) as [[w r]|]; reflexivity.
Qed.

Lemma read_keyword_value_word e want s (m : vars) s' m' :
  read_keyword_value e want s m = Next (s', m') ->
  word_of_line m ->
  m' = m /\ (s = [] -> s' = []).
Proof.
  intros E [_ W].
  assert (C : forall v (s1 : list ascii) (m1 : vars),
             (if v =? want then Next (s1, m1) else stop (e v) m1) = Next (s', m') ->
             s' = s1 /\ m' = m1).
  { intros v s1 m1 H. destruct (v =? want); [|discriminate].
    injection H as <- <-. auto. }
  assert (Nt : forall m1 : vars,
             match scan_d (skip_space s) with
             | Some (v, r) => if v =? want then Next (r, m1) else stop (e v) m1
             | None => if -1 =? want then Next (s, m1) else stop (e (-1)) m1
             end = Next (s', m') -> m' = m1 /\ (s = [] -> s' = [])).
  { intros m1 H. destruct (scan_d (skip_space s)) as [[v r]|] eqn:Sd.
    - apply C in H as [-> ->]. split; [reflexivity|]. intros ->. discriminate.
    - apply C in H as [-> ->]. auto. }
  unfold read_keyword_value in E.
  destruct (sscanf_s_d (line m)) as [[w o]|] eqn:Sf.
  - assert (w = str m) as ->.
    { unfold sscanf_s_d in Sf. unfold first_word in W.
      rewrite scan_s_skip_space in W.
      destruct (scan_s (line m)) as [[w1 r1]|]; [|discriminate].
      cbn in Sf. injection Sf as <- _. exact W. }
    rewrite set_str_same in E. destruct o as [v|].
    + apply C in E as [-> ->]. auto.
    + apply Nt in E. exact E.
  - apply Nt in E. exact E.
Qed.

(** The blocks between two keywords leave [line] and [str] alone. *)
Lemma block_keeps_word l f s (m : vars) s' m' :
  block l f s m = Next (s', m') ->
  (forall sec, l <> Keyword sec) ->
  word_of_line m ->
  line m' = line m /\ str m' = str m.
Proof.
  intros E N W. destruct l as [sec|sec|sec]; [destruct (N sec eq_refl)| |].
  - destruct sec; cbn [block] in E.
    + apply read_keyword_value_word in E as [-> _]; auto.
    + apply read_keyword_value_word in E as [-> _]; auto.
    + pose proof (read_number_of_vertices_form s m) as Fo. rewrite E in Fo.
      destruct Fo as (n & _ & ->). auto.
    + pose proof (read_number_of_triangles_form s m) as Fo. rewrite E in Fo.
      destruct Fo as (n & _ & ->). auto.
    + pose proof (read_number_of_tetrahedra_form s m) as Fo. rewrite E in Fo.
      destruct Fo as (n & _ & ->). auto.
  - destruct sec; cbn [block] in E.
    + injection E as _ <-. auto.
    + injection E as _ <-. auto.
    + pose proof (read_vertex_records_form (Z.to_nat (number_of_vertices m)) 0 s m) as Fo.
      rewrite E in Fo. destruct Fo as (v & -> & _). auto.
    + pose proof (read_triangle_records_form (Z.to_nat (number_of_triangles m)) 0 s m) as Fo.
      rewrite E in Fo. destruct Fo as (v & -> & _). auto.
    + pose proof (read_tetrahedra_records_form (Z.to_nat (number_of_tetrahedra m)) 0 s m) as Fo.
      rewrite E in Fo. destruct Fo as (v & -> & _). auto.
Qed.

Lemma word_of_line_same (m m' : vars) :
  line m' = line m -> str m' = str m -> word_of_line m -> word_of_line m'.
Proof.
  unfold word_of_line, still_comments. intros -> ->. auto.
Qed.

(** After the three blocks of a section, [str] still holds the section's
    keyword and [line] the line it was found on. *)
Lemma section_leaves_word sec f s (m : vars) s' m' :
  run (blocks_of sec) f s m = Next (s', m') ->
  word_of_line m' /\ str m' = lit (keyword sec) /\ (0 < f)%nat.
Proof.
  unfold blocks_of. cbn [run]. intros E.
  apply bind_Next in E as ([s1 m1] & E1 & E).
  apply bind_Next in E as ([s2 m2] & E2 & E).
  apply bind_Next in E as ([s3 m3] & E3 & E). injection E as <- <-.
  assert (0 < f)%nat as Pos.
  { destruct f; [discriminate|lia]. }
  cbn [block] in E1. apply read_keyword_word in E1 as [W1 S1].
  destruct (block_keeps_word _ _ _ _ _ _ E2 ltac:(discriminate) W1) as [L2 S2].
  pose proof (word_of_line_same _ _ L2 S2 W1) as W2.
  destruct (block_keeps_word _ _ _ _ _ _ E3 ltac:(discriminate) W2) as [L3 S3].
  split; [exact (word_of_line_same _ _ L3 S3 W2)|]. split; [congruence|exact Pos].
Qed.

Lemma reaches_Keyword_word sec prev f mesh_file (m0 : vars) s m :
  reaches (Keyword sec) f mesh_file m0 s m ->
  last (sections_before sec) = Some prev ->
  word_of_line m /\ str m = lit (keyword prev) /\ (0 < f)%nat.
Proof.
  unfold reaches, blocks_before. rewrite app_nil_r. intros R La.
  destruct sec; cbn in La; try discriminate; injection La as <-;
    cbn [sections_before map concat] in R; rewrite ?app_nil_r in R;
    repeat (apply run_app_Next in R as (? & ? & _ & R));
    exact (section_leaves_word _ _ _ _ _ _ R).
Qed.

(** At end of file the comment loop finds the line of the keyword before,
    and the word test is made on that line once more. *)
Lemma read_keyword_eof sec f (m : vars) :
  word_of_line m ->
  read_keyword sec (S f) [] m =
  if strcmp0 (str m) (lit (keyword sec)) then Next ([], m)
  else stop (Error_word sec (str m)) m.
Proof.
  intros [C W]. unfold read_keyword. rewrite eat_comments_unfold.
  cbn [fgets_line fgets]. rewrite C. cbn [bind].
  rewrite sscanf_word_first_word, W, set_str_same. reflexivity.
Qed.

Lemma keyword_inj sec sec' : lit (keyword sec) = lit (keyword sec') -> sec = sec'.
Proof. destruct sec, sec'; intros E; try reflexivity; discriminate E. Qed.

Lemma last_sections_before sec prev :
  last (sections_before sec) = Some prev -> prev <> sec.
Proof. destruct sec; cbn; intros [= <-]; discriminate. Qed.

(** X11.  When the file ends just where the comment loop before a keyword
    other than the first starts, [fgets] reads nothing and the loop leaves
    [line] as it was: the line of the keyword before.  The call returns
    false with the message for the keyword that is missing, naming the
    keyword before as the word that was found, and with the file
    closed. *)
Theorem readMESH_file_ends_before_keyword sec prev f mesh_file (m0 : vars) m :
  reaches (Keyword sec) f mesh_file m0 [] m ->
  last (sections_before sec) = Some prev ->
  readMESH f (Some mesh_file) m0 =
  Return false (fclose (print (Error_word sec (lit (keyword prev))) m)).
Proof.
  intros Re La.
  destruct (reaches_Keyword_word _ _ _ _ _ _ _ Re La) as (W & St & Pos).
  rewrite (reaches_run_from _ _ _ _ _ _ Re), run_from_Keyword.
  destruct f as [|f]; [lia|]. rewrite (read_keyword_eof _ _ _ W), St.
  destruct (strcmp0 _ _) eqn:Cmp.
  - apply strcmp0_eq, keyword_inj in Cmp.
    destruct (last_sections_before _ _ La Cmp).
  - reflexivity.
Qed.

(** X12.  On an empty file the first [fgets] reads nothing, and the call
    goes by what the buffers [line] and [str] held before it: it loops for
    ever when [line] starts with [#] or a newline, and else returns false;
    it never returns true. *)
Theorem readMESH_empty_file (m0 : vars) :
  (forall f, readMESH f (Some []) m0 = Still_looping) \/
  (exists m e,
     (forall f, (0 < f)%nat -> readMESH f (Some []) m0 = Return false m) /\
     printed m = printed m0 ++ [e] /\ mesh_file_open m = false).
Proof.
  set (m1 := clear (set_open true m0)).
  assert (P1 : printed m1 = printed m0) by reflexivity.
  destruct (still_comments m1) eqn:C.
  - left. intros f. unfold readMESH. fold m1. rewrite run_from_Keyword.
    unfold read_keyword. rewrite (eat_comments_eof _ _ C). reflexivity.
  - right.
    assert (R1 : forall f, read_keyword MeshVersionFormatted (S f) [] m1 =
               let m2 := sscanf_word m1 in
               if strcmp0 (str m2) (lit (keyword MeshVersionFormatted))
               then Next ([], m2)
               else stop (Error_word MeshVersionFormatted (str m2)) m2).
    { intros f. unfold read_keyword. rewrite eat_comments_unfold.
      cbn [fgets_line fgets]. rewrite C. reflexivity. }
    set (m2 := sscanf_word m1) in *.
    assert (P2 : printed m2 = printed m1).
    { unfold m2. rewrite sscanf_word_first_word. reflexivity. }
    destruct (strcmp0 (str m2) (lit (keyword MeshVersionFormatted))) eqn:Cmp.
    + assert (W2 : word_of_line m2 /\ str m2 = lit (keyword MeshVersionFormatted)).
      { apply (read_keyword_word MeshVersionFormatted 1 [] m1 []).
        rewrite R1. cbn zeta. fold m2. rewrite Cmp. reflexivity. }
      destruct W2 as [W2 S2].
      destruct (read_keyword_value Error_second_word 1 [] m2)
        as [[s3 m3]|b3 m3|m3|] eqn:V.
      * destruct (read_keyword_value_word _ _ _ _ _ _ V W2) as [-> E3].
        rewrite (E3 eq_refl) in V.
        exists (fclose (print (Error_word Dimension (str m2)) m2)), (Error_word Dimension (str m2)).
        split; [|split; [cbn; congruence|reflexivity]].
        intros [|f] Pos; [lia|]. unfold readMESH. fold m1.
        rewrite run_from_Keyword, R1. cbn zeta. fold m2. rewrite Cmp. cbn [bind].
        rewrite run_from_Number. cbn [block]. rewrite V. cbn [bind].
        change (run_from (Records MeshVersionFormatted) (S f) [] m2)
          with (run_from (Keyword Dimension) (S f) [] m2).
        rewrite run_from_Keyword, (read_keyword_eof _ _ _ W2), S2. reflexivity.
      * pose proof (read_keyword_value_form Error_second_word 1 [] m2) as Fo.
        rewrite V in Fo. destruct Fo as (-> & e & m4 & B & ->).
        exists (fclose (print e m4)), e.
        split; [|split; [|reflexivity]].
        -- intros [|f] Pos; [lia|]. unfold readMESH. fold m1.
           rewrite run_from_Keyword, R1. cbn zeta. fold m2. rewrite Cmp. cbn [bind].
           rewrite run_from_Number. cbn [block]. rewrite V. reflexivity.
        -- rewrite B. cbn. congruence.
      * pose proof (read_keyword_value_form Error_second_word 1 [] m2) as Fo.
        rewrite V in Fo. destruct Fo.
      * pose proof (read_keyword_value_form Error_second_word 1 [] m2) as Fo.
        rewrite V in Fo. destruct Fo.
    + exists (fclose (print (Error_word MeshVersionFormatted (str m2)) m2)),
        (Error_word MeshVersionFormatted (str m2)).
      split; [|split; [cbn; congruence|reflexivity]].
      intros [|f] Pos; [lia|]. unfold readMESH. fold m1.
      rewrite run_from_Keyword, R1. cbn zeta. fold m2. rewrite Cmp. reflexivity.
Qed.

(** ** The rows of a call that returns true *)

Lemma Forall_map_rows {A B} (row : A -> list B) w (recs : list A) :
  (forall p, length (row p) = w) ->
  Forall (fun r => length r = w) (map row recs).
Proof.
  intros H. induction recs as [|p recs IH]; cbn [map]; constructor; auto.
Qed.

Lemma readMESH_true_uniform f mesh_file (m0 : vars) m' :
  readMESH f mesh_file m0 = Return true m' ->
  uniform (V m') = true /\ uniform (T m') = true /\ uniform (F m') = true.
Proof.
  intros Ret. destruct mesh_file as [file|]; [|discriminate].
  destruct (readMESH_true_reaches (Records Vertices) _ _ _ _ Ret) as (s1 & m1 & R1).
  destruct (readMESH_true_reaches (Records Tetrahedra) _ _ _ _ Ret) as (s2 & m2 & R2).
  destruct (readMESH_true_reaches (Records Triangles) _ _ _ _ Ret) as (s3 & m3 & R3).
  destruct (vertices_of_true_call _ _ _ _ _ _ Ret R1) as (? & ? & _ & ->).
  destruct (tetrahedra_of_true_call _ _ _ _ _ _ Ret R2) as (? & ? & _ & ->).
  destruct (triangles_of_true_call _ _ _ _ _ _ Ret R3) as (? & ? & _ & ->).
  split; [|split].
  - apply (uniform_Forall 3), Forall_map_rows. intros [[? ?] ?]. reflexivity.
  - apply (uniform_Forall 4), Forall_map_rows. intros [[[? ?] ?] ?]. reflexivity.
  - apply (uniform_Forall 3), Forall_map_rows. intros [[? ?] ?]. reflexivity.
Qed.

(** ** A record that is not there *)

(** X14.  When the triangle loop is entered with a count of N and the
    text gives [n < N] records and then something the [fscanf] of the
    loop does not convert in full, the call returns false with [F] of N
    rows, the [n] records and then rows of zeros, with "Error: expecting
    triangle indices..." on stdout and the file open; [V] and the rest are
    as the loop found them.  The tetrahedra loop does the same with [T],
    its own message on stderr and the file closed. *)
Theorem readMESH_elements_cut_short f mesh_file (m0 : vars) s m n :
  (forall recs r,
     reaches (Records Triangles) f mesh_file m0 s m ->
     triangle_records n s = Some (recs, r) ->
     fscanf_ld_ld_ld_ld r = None ->
     (n < Z.to_nat (number_of_triangles m))%nat ->
     readMESH f (Some mesh_file) m0 =
     Return false
       (print Stdout_expecting_triangle_indices
          (set_F (map triangle_row recs ++
                  replicate (Z.to_nat (number_of_triangles m) - n) (zeros 3)) m)))
  /\
  (forall recs r,
     reaches (Records Tetrahedra) f mesh_file m0 s m ->
     tetrahedra_records n s = Some (recs, r) ->
     fscanf_ld_ld_ld_ld_ld r = None ->
     (n < Z.to_nat (number_of_tetrahedra m))%nat ->
     readMESH f (Some mesh_file) m0 =
     Return false
       (fclose (print Error_expecting_tetrahedra_indices
          (set_T (map tetrahedron_row recs ++
                  replicate (Z.to_nat (number_of_tetrahedra m) - n) (zeros 4)) m)))).
Proof.
  split; intros recs r Re Rs No Lt;
    rewrite (reaches_run_from _ _ _ _ _ _ Re).
  - rewrite run_from_Records_Triangles.
    apply reaches_Records_Triangles in Re as (Rn & HF).
    set (N := Z.to_nat (number_of_triangles m)) in *.
    rewrite (read_triangle_records_prefix n N 0 s m recs r [] (replicate N (zeros 3)) Rs);
      [ | exact HF | reflexivity | apply Forall_replicate; reflexivity | lia
        | rewrite length_replicate; lia ].
    rewrite drop_replicate. destruct (N - n)%nat as [|k] eqn:K; [lia|].
    cbn [read_triangle_records]. rewrite No. reflexivity.
  - rewrite run_from_Records_Tetrahedra.
    apply reaches_Records_Tetrahedra in Re as (Rn & HT).
    set (N := Z.to_nat (number_of_tetrahedra m)) in *.
    rewrite (read_tetrahedra_records_prefix n N 0 s m recs r [] (replicate N (zeros 4)) Rs);
      [ | exact HT | reflexivity | apply Forall_replicate; reflexivity | lia
        | rewrite length_replicate; lia ].
    rewrite drop_replicate. destruct (N - n)%nat as [|k] eqn:K; [lia|].
    cbn [read_tetrahedra_records]. rewrite No. reflexivity.
Qed.


End Reader_more_facts.

(** * Further properties of the overload *)

(** X13.  Let [igl::list_to_matrix] return true on every vector that is
    not empty and whose rows are of one length.  Then the overload returns
    false only when the reader did, and the caller's three matrices are
    then as they were passed, or when the reader returned true with one of
    its three vectors empty: on what the reader returns with true, the
    three tests of the conversions (lines 271-287) fail on no other
    ground. *)
Theorem readMESH_eigen_false
    (list_to_matrix_d : list (list double) -> matrix double -> bool * matrix double)
    (list_to_matrix_i : list (list double) -> matrix Z -> bool * matrix Z)
    f mesh_file (m : @vars double double)
    (VM : matrix double) (TM FM : matrix Z) VM' TM' FM' :
  (forall l M, l <> [] -> uniform l = true -> fst (list_to_matrix_d l M) = true) ->
  (forall l M, l <> [] -> uniform l = true -> fst (list_to_matrix_i l M) = true) ->
  readMESH_eigen list_to_matrix_d list_to_matrix_i f mesh_file m VM TM FM =
    Eigen_return false VM' TM' FM' ->
  (exists m', readMESH f mesh_file (clear m) = Return false m' /\
     VM' = VM /\ TM' = TM /\ FM' = FM) \/
  (exists m', readMESH f mesh_file (clear m) = Return true m' /\
     (V m' = [] \/ T m' = [] \/ F m' = [])).
Proof.
  intros Hd Hi. unfold readMESH_eigen.
  destruct (readMESH f mesh_file (clear m)) as [[]|[|] m'|m'|] eqn:Ret;
    try discriminate.
  - intros E. right. exists m'. split; [reflexivity|].
    destruct (readMESH_true_uniform _ _ _ _ Ret) as (UV & UT & UF).
    destruct (V m') as [|rv lv] eqn:EV; [auto|].
    destruct (T m') as [|rt lt] eqn:ET; [auto|].
    destruct (F m') as [|rf lf] eqn:EF; [auto|]. exfalso.
    unfold to_matrices in E.
    pose proof (Hd (rv :: lv) VM ltac:(discriminate) UV) as H1.
    destruct (list_to_matrix_d (rv :: lv) VM) as [b1 VM1]. cbn [fst] in H1. subst b1.
    pose proof (Hi (rt :: lt) TM ltac:(discriminate) UT) as H2.
    destruct (list_to_matrix_i (rt :: lt) TM) as [b2 TM1]. cbn [fst] in H2. subst b2.
    pose proof (Hi (rf :: lf) FM ltac:(discriminate) UF) as H3.
    destruct (list_to_matrix_i (rf :: lf) FM) as [b3 FM1]. cbn [fst] in H3. subst b3.
    cbn [negb] in E.
    destruct (negb (cols VM1 =? 3)); [discriminate|].
    destruct (negb (cols TM1 =? 4)); [discriminate|].
    destruct (negb (cols FM1 =? 3)); discriminate.
  - intros [= <- <- <-]. left. exists m'. auto.
Qed.


(** * Further calls *)


Lemma readMESH_prints_once_example :
  exists e, printed (result_of two_of_four_vertices) = printed entry ++ [e].
Proof.
  apply (readMESH_prints_once 2 (Some two_of_four_vertices) entry false
           (result_of two_of_four_vertices)).
  vm_compute. reflexivity.
Defined.

Lemma readMESH_length_error_example :
  let m := result_of minus_one_vertices in
  mesh_file_open m = true /\ printed m = printed entry /\
  (max_size < number_of_vertices m \/ max_size < number_of_triangles m \/
   max_size < number_of_tetrahedra m).
Proof.
  apply (readMESH_length_error_leaves_file_open 2 (Some minus_one_vertices) entry
           (result_of minus_one_vertices)).
  vm_compute. reflexivity.
Defined.

Lemma readMESH_returns_with_file_closed_example :
  let m := result_of example_without_elements in
  mesh_file_open m = false \/
  (false = false /\ mesh_file_open m = true /\
   printed m = printed entry ++ [Stdout_expecting_triangle_indices]).
Proof.
  apply (readMESH_returns_with_file_closed 2 example_without_elements entry false
           (result_of example_without_elements)).
  vm_compute. reflexivity.
Defined.

(** The example without its elements, ending in a newline: the comment
    loop before Triangles reads the empty line that is left and then runs
    for ever. *)
Lemma readMESH_loops_on_example_without_triangles :
  readMESH 1000 (Some example_without_triangles) entry = Still_looping.
Proof.
  apply (readMESH_loops_when_file_ends_before_keyword Triangles 2
           example_without_triangles entry [[NL]]
           (snd (after (Keyword Triangles) example_without_triangles)));
    [ vm_compute; reflexivity | repeat constructor | discriminate ].
Defined.

Lemma readMESH_triangles_before_vertices :
  exists m,
    readMESH 2 (Some triangles_before_vertices) entry = Return false m /\
    printed m = [Error_fifth_word (lit "Triangles")] /\
    mesh_file_open m = false.
Proof.
  destruct (readMESH_keyword_line Vertices 2 triangles_before_vertices entry []
              (lit "Triangles" ++ [NL]) (unlines [lit "1"; lit "1 2 3 0"])
              (snd (after (Keyword Vertices) triangles_before_vertices)))
    as [_ Wrong];
    [ vm_compute; reflexivity | constructor | vm_compute; reflexivity
    | cbn; lia | ].
  eexists. split; [apply Wrong; vm_compute; discriminate|].
  split; vm_compute; reflexivity.
Defined.

(** The end of a comment that does not fit the buffer is taken for the
    line of the keyword. *)
Lemma read_keyword_long_comment :
  read_keyword MeshVersionFormatted 2 (long_comment ++ example_mesh) entry =
  stop (Error_first_word (lit "x"))
    (set_str (lit "x") (set_line (lit "x" ++ [NL]) entry)).
Proof.
  etransitivity.
  - apply (read_keyword_overlong_comment MeshVersionFormatted 1 long_comment
             example_mesh entry);
      [ vm_compute; reflexivity | vm_compute; discriminate ].
  - vm_compute. reflexivity.
Defined.

Lemma readMESH_true_vertices_example :
  exists s m recs r,
    reaches (Records Vertices) 2 example_mesh entry s m /\
    vertex_records (Z.to_nat (number_of_vertices m)) s = Some (recs, r) /\
    length recs = Z.to_nat (number_of_vertices m) /\
    V example_result =
    map (fun '(x, y, z) => [of_double x; of_double y; of_double z]) recs.
Proof.
  apply (readMESH_true_vertices 2 example_mesh entry example_result).
  vm_compute. reflexivity.
Defined.

Lemma readMESH_true_elements_example :
  let minus_one (k : Z) : double := of_size_t ((k - 1) mod 2 ^ 64) in
  (exists s m recs r,
     reaches (Records Triangles) 2 example_mesh entry s m /\
     triangle_records (Z.to_nat (number_of_triangles m)) s = Some (recs, r) /\
     F example_result =
     map (fun '(a, b, c) => [minus_one a; minus_one b; minus_one c]) recs) /\
  (exists s m recs r,
     reaches (Records Tetrahedra) 2 example_mesh entry s m /\
     tetrahedra_records (Z.to_nat (number_of_tetrahedra m)) s = Some (recs, r) /\
     T example_result =
     map (fun '(a, b, c, d) =>
            [minus_one a; minus_one b; minus_one c; minus_one d]) recs).
Proof.
  apply (readMESH_true_elements 2 example_mesh entry example_result).
  vm_compute. reflexivity.
Defined.

(** What follows the tetrahedron changes nothing. *)
Lemma readMESH_example_with_more :
  readMESH 2 (Some example_with_more) entry = Return true example_result.
Proof.
  etransitivity.
  - apply (readMESH_true_when_tetrahedra_are_given 2 example_with_more entry
             (fst (after (Records Tetrahedra) example_with_more))
             (snd (after (Records Tetrahedra) example_with_more))
             [(1, 2, 3, 4)] (NL :: lit "Corners 0"));
      vm_compute; reflexivity.
  - vm_compute. reflexivity.
Defined.

Lemma readMESH_example_without_elements :
  readMESH 2 (Some example_without_elements) entry =
  Return false
    (fclose (print (Error_sixth_word (lit "Vertices"))
       (snd (after (Keyword Triangles) example_without_elements)))).
Proof.
  apply (readMESH_file_ends_before_keyword Triangles Vertices 2
           example_without_elements entry);
    vm_compute; reflexivity.
Defined.

Lemma readMESH_eigen_false_example :
  (exists m',
     readMESH 2 (Some two_of_four_vertices) (clear entry) = Return false m' /\
     @no_matrix double = no_matrix /\ @no_matrix Z = no_matrix /\
     @no_matrix Z = no_matrix) \/
  (exists m',
     readMESH 2 (Some two_of_four_vertices) (clear entry) = Return true m' /\
     (V m' = [] \/ T m' = [] \/ F m' = [])).
Proof.
  apply (readMESH_eigen_false (list_to_matrix (fun d => d))
           (list_to_matrix int_of_double) 2 (Some two_of_four_vertices) entry
           no_matrix no_matrix no_matrix).
  - intros l M _ U. unfold list_to_matrix. rewrite U. reflexivity.
  - intros l M _ U. unfold list_to_matrix. rewrite U. reflexivity.
  - vm_compute. reflexivity.
Defined.

Lemma readMESH_second_triangle_short :
  let m := snd (after (Records Triangles) second_triangle_short) in
  readMESH 2 (Some second_triangle_short) entry =
  Return false
    (print Stdout_expecting_triangle_indices
       (set_F (map triangle_row [(1, 2, 3)] ++
               replicate (Z.to_nat (number_of_triangles m) - 1) (zeros 3)) m)).
Proof.
  apply (proj1 (readMESH_elements_cut_short 2 second_triangle_short entry
                  (fst (after (Records Triangles) second_triangle_short))
                  (snd (after (Records Triangles) second_triangle_short)) 1)
           [(1, 2, 3)] (NL :: lit "2 3" ++ [NL]));
    [ vm_compute; reflexivity | vm_compute; reflexivity | vm_compute; reflexivity
    | vm_compute; lia ].
Defined.


